(** * The crash-report lifecycle manager of subiquity, embedded in Rocq

    Source: [subiquity/controllers/error.py] (classes [ErrorReport] and
    [ErrorController]).  The Python objects become records in an explicit
    world; methods become functions in a state-and-exception monad that keeps
    the state when an exception is raised, as Python does. *)

From Stdlib Require String.
From Stdlib Require Import Ascii ZArith NArith Lia DecimalString.
From stdpp Require Import base option list gmap strings fin_maps sorting.

#[local] Set Warnings "-register-all".

Local Open Scope Z_scope.

(** ** Python string primitives *)

Definition chr_eqb (a b : ascii) : bool := Ascii.eqb a b.

(** [s.startswith(c)] and [s.endswith(c)] for a one-character [c]. *)
Definition startswith_chr (c : ascii) (s : string) : bool :=
  match s with
  | String a _ => chr_eqb a c
  | EmptyString => false
  end.

Fixpoint endswith_chr (c : ascii) (s : string) : bool :=
  match s with
  | EmptyString => false
  | String a EmptyString => chr_eqb a c
  | String _ r => endswith_chr c r
  end.

(** [c in s]. *)
Fixpoint str_contains (c : ascii) (s : string) : bool :=
  match s with
  | EmptyString => false
  | String a r => chr_eqb a c || str_contains c r
  end.

(** [s.rfind(c)]: the index of the last occurrence of [c], or [-1]. *)
Fixpoint rfind (c : ascii) (s : string) : Z :=
  match s with
  | EmptyString => -1
  | String a r =>
      let j := rfind c r in
      if 0 <=? j then j + 1 else if chr_eqb a c then 0 else -1
  end.

(** The slices [s[:n]] and [s[n:]]. *)
Fixpoint str_take (n : nat) (s : string) : string :=
  match n, s with
  | S n', String a r => String a (str_take n' r)
  | _, _ => EmptyString
  end.

Fixpoint str_drop (n : nat) (s : string) : string :=
  match n, s with
  | S n', String _ r => str_drop n' r
  | _, _ => s
  end.

(** The last character of a string, when there is one. *)
Fixpoint str_last (s : string) : option ascii :=
  match s with
  | EmptyString => None
  | String a EmptyString => Some a
  | String _ r => str_last r
  end.

(** [s.lower()] on ASCII. *)
Definition chr_lower (c : ascii) : ascii :=
  let n := N_of_ascii c in
  if ((65 <=? n) && (n <=? 90))%N then ascii_of_N (n + 32) else c.

Fixpoint lower (s : string) : string :=
  match s with
  | EmptyString => EmptyString
  | String a r => String (chr_lower a) (lower r)
  end.

(** [s.split(c)]: the pieces between the occurrences of [c]. *)
Fixpoint str_split_go (c : ascii) (cur : string) (s : string) : list string :=
  match s with
  | EmptyString => [String.rev cur]
  | String a r =>
      if chr_eqb a c then String.rev cur :: str_split_go c EmptyString r
      else str_split_go c (String a cur) r
  end.

Definition str_split (c : ascii) (s : string) : list string :=
  str_split_go c EmptyString s.

(** [sep.join(l)]. *)
Fixpoint str_join (sep : string) (l : list string) : string :=
  match l with
  | [] => EmptyString
  | [x] => x
  | x :: r => x +:+ sep +:+ str_join sep r
  end.

(** ASCII white space as [str.isspace] sees it. *)
Definition chr_isspace (c : ascii) : bool :=
  let n := N_of_ascii c in
  ((9 <=? n) && (n <=? 13) || (28 <=? n) && (n <=? 32))%N.

(** [s.split()]: the maximal runs of characters that are not white space;
    leading and trailing white space yields no piece, so
    [s.strip().split()] is [s.split()]. *)
Fixpoint split_ws_go (cur : option string) (s : string) : list string :=
  match s with
  | EmptyString => option_list (String.rev <$> cur)
  | String a r =>
      if chr_isspace a
      then option_list (String.rev <$> cur) ++ split_ws_go None r
      else split_ws_go (Some (String a (default EmptyString cur))) r
  end.

Definition split_ws (s : string) : list string := split_ws_go None s.

(** [s.strip()]. *)
Fixpoint lstrip (s : string) : string :=
  match s with
  | String a r => if chr_isspace a then lstrip r else s
  | EmptyString => s
  end.

Definition strip (s : string) : string :=
  String.rev (lstrip (String.rev (lstrip s))).

(** [f.readlines()] of a text file (universal newlines): the lines, each
    with its terminator turned into one line feed. *)
Fixpoint readlines_go (cur : string) (s : string) : list string :=
  match s with
  | EmptyString =>
      match cur with EmptyString => [] | _ => [String.rev cur] end
  | String a r =>
      if chr_eqb a "010" then
        String.rev (String "010" cur) :: readlines_go EmptyString r
      else if chr_eqb a "013" then
        String.rev (String "010" cur) ::
          readlines_go EmptyString
            (match r with
             | String b r' => if chr_eqb b "010" then r' else r
             | EmptyString => r
             end)
      else readlines_go (String a cur) r
  end.

Definition readlines (s : string) : list string := readlines_go EmptyString s.

(** ** [os.path] on POSIX *)

(** [os.path.join(a, b)]. *)
Definition join (a b : string) : string :=
  if startswith_chr "/" b then b
  else if bool_decide (a = EmptyString) || endswith_chr "/" a then a +:+ b
  else a +:+ "/" +:+ b.

(** [os.path.basename(p)]: what follows the last slash. *)
Definition basename (p : string) : string :=
  str_drop (Z.to_nat (rfind "/" p + 1)) p.

(** The loop of [genericpath._splitext] that skips leading dots: [n] is the
    number of iterations left, [dotIndex - filenameIndex]. *)
Fixpoint splitext_loop (p : string) (dotIndex filenameIndex n : nat)
  : string * string :=
  match n with
  | O => (p, EmptyString)
  | S n' =>
      match String.get filenameIndex p with
      | Some "."%char => splitext_loop p dotIndex (S filenameIndex) n'
      | _ => (str_take dotIndex p, str_drop dotIndex p)
      end
  end.

(** [os.path.splitext(p)]: the extension starts at the last dot of the last
    path component, unless only dots precede it there. *)
Definition splitext (p : string) : string * string :=
  let sepIndex := rfind "/" p in
  let dotIndex := rfind "." p in
  if sepIndex <? dotIndex then
    splitext_loop p (Z.to_nat dotIndex) (Z.to_nat (sepIndex + 1))
      (Z.to_nat (dotIndex - (sepIndex + 1)))
  else (p, EmptyString).

(** The component loop of [posixpath.normpath]; [new_comps] is kept in
    reverse. *)
Fixpoint normpath_comps (initial_slashes : nat) (new_comps : list string)
    (comps : list string) : list string :=
  match comps with
  | [] => rev new_comps
  | comp :: rest =>
      if bool_decide (comp = EmptyString) || bool_decide (comp = ".") then
        normpath_comps initial_slashes new_comps rest
      else if negb (bool_decide (comp = ".."))
              || (bool_decide (initial_slashes = O) &&
                  bool_decide (new_comps = []))
              || bool_decide (head new_comps = Some "..") then
        normpath_comps initial_slashes (comp :: new_comps) rest
      else normpath_comps initial_slashes (tail new_comps) rest
  end.

(** [os.path.normpath(path)]. *)
Definition normpath (path : string) : string :=
  if bool_decide (path = EmptyString) then "."
  else
    let initial_slashes :=
      if startswith_chr "/" path then
        if startswith_chr "/" (str_drop 1 path)
           && negb (startswith_chr "/" (str_drop 2 path))
        then 2%nat else 1%nat
      else 0%nat in
    let comps := normpath_comps initial_slashes [] (str_split "/" path) in
    let path' :=
      str_join "" (replicate initial_slashes "/") +:+ str_join "/" comps in
    if bool_decide (path' = EmptyString) then "." else path'.

(** [os.path.abspath(path)], in the working directory [cwd]. *)
Definition abspath (cwd path : string) : string :=
  normpath (if startswith_chr "/" path then path else join cwd path).

(** ** Formatting *)

Definition str_of_N (n : N) : string := NilEmpty.string_of_uint (N.to_uint n).

Fixpoint zfill_go (k : nat) (s : string) : string :=
  match k with
  | O => s
  | S k' => String "0" (zfill_go k' s)
  end.

(** [s.zfill(width)] for a string of digits. *)
Definition zfill (width : nat) (s : string) : string :=
  zfill_go (width - String.length s) s.

(** ["{:.9f}".format(t)] for a clock reading of [t] nanoseconds: the float
    that [time.time()] returns is taken with the nine decimals that the
    format prints. *)
Definition format_9f (t : N) : string :=
  str_of_N (t / 1000000000) +:+ "." +:+ zfill 9 (str_of_N (t mod 1000000000)).

(** [repr] of a dict of plain strings, as in
    ["{'impl': 'launchpad', 'project': 'subiquity'}"]. *)
Definition repr_str (s : string) : string := "'" +:+ s +:+ "'".

Definition repr_dict (d : list (string * string)) : string :=
  "{" +:+ str_join ", " ((λ kv, repr_str kv.1 +:+ ": " +:+ repr_str kv.2) <$> d)
      +:+ "}".

(** [sorted(l, reverse=True)] on strings: descending in code-point order. *)
Definition sorted_reverse (l : list string) : list string :=
  merge_sort (flip String.le) l.
Local Close Scope Z_scope.

(** ** Data model *)

Inductive ErrorReportState :=
  | INCOMPLETE | LOADING | DONE | ERROR_GENERATING | ERROR_LOADING.

Inductive ErrorReportKind :=
  | BLOCK_PROBE_FAIL | DISK_PROBE_FAIL | INSTALL_FAIL | UI | UNKNOWN.

(** [kind.name]. *)
Definition kind_name (k : ErrorReportKind) : string :=
  match k with
  | BLOCK_PROBE_FAIL => "BLOCK_PROBE_FAIL"
  | DISK_PROBE_FAIL => "DISK_PROBE_FAIL"
  | INSTALL_FAIL => "INSTALL_FAIL"
  | UI => "UI"
  | UNKNOWN => "UNKNOWN"
  end.

Definition kind_members : list ErrorReportKind :=
  [BLOCK_PROBE_FAIL; DISK_PROBE_FAIL; INSTALL_FAIL; UI; UNKNOWN].

(** The member of [ErrorReportKind] called [name], when there is one. *)
Definition kind_of_name (name : string) : option ErrorReportKind :=
  find (λ k, bool_decide (kind_name k = name)) kind_members.

(** The values that [json.load] returns and [json.dump] accepts; a dict is a
    finite map from strings.  Floats are left out. *)
Inductive json :=
  | JNull
  | JBool (b : bool)
  | JNum (n : Z)
  | JStr (s : string)
  | JArr (l : list json)
  | JObj (d : gmap string json).

(** The Python exceptions that the code can meet.  All of them are caught by
    [except Exception]; [FileNotFoundError] and [PermissionError] are the
    [OSError]s of a failed [open]; [ValueError] is the use of a closed file
    and [UnsupportedOperation] the reading of a file opened for writing or
    the writing of one opened for reading; [LibraryError] is a failure
    inside one of the libraries the code calls. *)
Inductive exn :=
  | FileNotFoundError
  | PermissionError
  | ValueError
  | UnsupportedOperation
  | JSONDecodeError
  | TypeError
  | AttributeError
  | KeyError
  | IndexError
  | ReferenceError
  | LibraryError (what : string).

Inductive res (A : Type) :=
  | Ok (a : A)
  | Raise (e : exn).
Arguments Ok {A} a.
Arguments Raise {A} e.

(** An [apport.Report] is a mapping from field names to text. *)
Abbreviation pr_t := (gmap string string).

(** An [ErrorReport] object.  [_file] is the open file object, or [None];
    the [controller] attribute is the one controller of the world. *)
Record ErrorReport := mkErrorReport {
  base : string;
  pr : pr_t;
  state : ErrorReportState;
  _file : option nat;
  meta : json
}.

Definition with_pr (v : pr_t) (r : ErrorReport) : ErrorReport :=
  mkErrorReport (base r) v (state r) (_file r) (meta r).
Definition with_state (v : ErrorReportState) (r : ErrorReport) : ErrorReport :=
  mkErrorReport (base r) (pr r) v (_file r) (meta r).
Definition with_file (v : option nat) (r : ErrorReport) : ErrorReport :=
  mkErrorReport (base r) (pr r) (state r) v (meta r).
Definition with_meta (v : json) (r : ErrorReport) : ErrorReport :=
  mkErrorReport (base r) (pr r) (state r) (_file r) v.

(** The [ErrorController]: [reports] holds references into the heap of
    reports; [dry_run] is [app.opts.dry_run]. *)
Record ErrorController := mkErrorController {
  crash_directory : string;
  crashdb_spec : list (string * string);
  reports : list nat;
  dry_run : bool
}.

Definition with_reports (v : list nat) (c : ErrorController) : ErrorController :=
  mkErrorController (crash_directory c) (crashdb_spec c) v (dry_run c).

(** The caller's hook of [add_info] attaches fields to the report, or fails. *)
Abbreviation hook_t := (pr_t → res pr_t).

(** The closures handed to [run_in_bg], as data: the work functions
    [_bg_add_info] and [_bg_load], the completion callbacks [added_info] and
    [loaded], and the [lambda: self._report_loaded(to_load[1:])] that
    [_report_loaded] passes to [load]. *)
Inductive work :=
  | WAddInfo (self : nat) (hook : hook_t)
  | WLoad (self : nat).

Inductive thunk :=
  | ThReportLoaded (to_load : list nat).

Inductive callback :=
  | CbAddedInfo (self : nat)
  | CbLoaded (self : nat) (cb : thunk).

(** A task of the background runner: [t_result] is the future, empty until
    the work has run. *)
Record task := mkTask {
  t_work : work;
  t_callback : callback;
  t_result : option (res unit)
}.

(** What an observer sees: the records of the logger and the signals. *)
Inductive event :=
  | LogDebug (fmt arg : string)
  | LogException (msg : string) (e : exn)
  | Signal (obj : nat) (name : string).

Inductive mode := RB | RT | WB | WT.

Definition is_write (m : mode) : bool :=
  match m with WB | WT => true | _ => false end.

(** The world: the file system ([w_files] maps a path to the content of a
    regular file, [w_dirs] are the directories, [w_deny] are the opens that
    the system refuses), the open file objects, the clock, the process
    environment, the heap of reports, the controller, the tasks of the
    background runner and the log (oldest first). *)
Record world := mkWorld {
  w_files : gmap string string;
  w_dirs : gset string;
  w_deny : mode → string → bool;
  w_fds : gmap nat (string * mode);
  w_next_fd : nat;
  w_clock : nat → N;
  w_clock_reads : nat;
  w_environ : gmap string string;
  w_cwd : string;
  w_heap : list ErrorReport;
  w_ctl : ErrorController;
  w_tasks : gmap nat task;
  w_next_task : nat;
  w_log : list event
}.

Definition with_files (v : gmap string string) (w : world) : world :=
  mkWorld v (w_dirs w) (w_deny w) (w_fds w) (w_next_fd w) (w_clock w)
    (w_clock_reads w) (w_environ w) (w_cwd w) (w_heap w) (w_ctl w)
    (w_tasks w) (w_next_task w) (w_log w).
Definition with_dirs (v : gset string) (w : world) : world :=
  mkWorld (w_files w) v (w_deny w) (w_fds w) (w_next_fd w) (w_clock w)
    (w_clock_reads w) (w_environ w) (w_cwd w) (w_heap w) (w_ctl w)
    (w_tasks w) (w_next_task w) (w_log w).
Definition with_fds (v : gmap nat (string * mode)) (n : nat) (w : world)
  : world :=
  mkWorld (w_files w) (w_dirs w) (w_deny w) v n (w_clock w)
    (w_clock_reads w) (w_environ w) (w_cwd w) (w_heap w) (w_ctl w)
    (w_tasks w) (w_next_task w) (w_log w).
Definition with_clock_reads (v : nat) (w : world) : world :=
  mkWorld (w_files w) (w_dirs w) (w_deny w) (w_fds w) (w_next_fd w)
    (w_clock w) v (w_environ w) (w_cwd w) (w_heap w) (w_ctl w)
    (w_tasks w) (w_next_task w) (w_log w).
Definition with_heap (v : list ErrorReport) (w : world) : world :=
  mkWorld (w_files w) (w_dirs w) (w_deny w) (w_fds w) (w_next_fd w)
    (w_clock w) (w_clock_reads w) (w_environ w) (w_cwd w) v (w_ctl w)
    (w_tasks w) (w_next_task w) (w_log w).
Definition with_ctl (v : ErrorController) (w : world) : world :=
  mkWorld (w_files w) (w_dirs w) (w_deny w) (w_fds w) (w_next_fd w)
    (w_clock w) (w_clock_reads w) (w_environ w) (w_cwd w) (w_heap w) v
    (w_tasks w) (w_next_task w) (w_log w).
Definition with_tasks (v : gmap nat task) (n : nat) (w : world) : world :=
  mkWorld (w_files w) (w_dirs w) (w_deny w) (w_fds w) (w_next_fd w)
    (w_clock w) (w_clock_reads w) (w_environ w) (w_cwd w) (w_heap w) (w_ctl w)
    v n (w_log w).
Definition with_log (v : list event) (w : world) : world :=
  mkWorld (w_files w) (w_dirs w) (w_deny w) (w_fds w) (w_next_fd w)
    (w_clock w) (w_clock_reads w) (w_environ w) (w_cwd w) (w_heap w) (w_ctl w)
    (w_tasks w) (w_next_task w) v.

(** ** The libraries the code calls

    [json], [apport], [pyudev], the resolution of symbolic links and the
    attributes that every [enum.Enum] class has besides its members are not
    code of this repository: they are parameters of the development. *)
Class Externals := {
  (** [json.dump(obj, fp, indent=4)]: the text written. *)
  json_dumps : json → string;
  (** [json.load(fp)] on the text of [fp]; [None] is a [JSONDecodeError]. *)
  json_loads : string → option json;
  (** [apport.Report(type, date)]. *)
  apport_Report : string → option string → pr_t;
  add_proc_info : pr_t → res pr_t;
  add_os_info : pr_t → res pr_t;
  add_hooks_info : pr_t → res pr_t;
  attach_hardware : pr_t → res pr_t;
  (** [pr.write(file)]: the bytes written. *)
  pr_write : pr_t → res string;
  (** [pr.load(file)] on the bytes of [file]. *)
  pr_load : pr_t → string → res pr_t;
  (** [os.path.realpath]. *)
  realpath : string → string;
  (** [import pyudev] and
      [list(pyudev.Context().list_devices(subsystem='block', DEVNAME=d))]:
      the properties of each matching device. *)
  udev_list_block_devices : string → res (list (gmap string string));
  (** The names, other than the members', that [getattr] finds on an
      [enum.Enum] class. *)
  enum_class_attr : string → bool
}.

(** ** The monad of the embedding: state that survives an exception *)

Definition M (A : Type) : Type := world → res A * world.

#[global] Instance M_ret : MRet M := λ A a w, (Ok a, w).
#[global] Instance M_bind : MBind M := λ A B f m w,
  match m w with
  | (Ok a, w') => f a w'
  | (Raise e, w') => (Raise e, w')
  end.

Definition raise {A} (e : exn) : M A := λ w, (Raise e, w).
Definition gets {A} (f : world → A) : M A := λ w, (Ok (f w), w).
Definition modify (f : world → world) : M unit := λ w, (Ok tt, f w).
Definition lift {A} (r : res A) : M A := λ w, (r, w).

(** [try: m  except Exception as e: h e]. *)
Definition try_except {A} (m : M A) (h : exn → M A) : M A := λ w,
  match m w with
  | (Ok a, w') => (Ok a, w')
  | (Raise e, w') => h e w'
  end.

(** [try: m  finally: f]. *)
Definition try_finally {A} (m : M A) (f : M unit) : M A := λ w,
  match m w with
  | (r, w') =>
      match f w' with
      | (Ok _, w'') => (r, w'')
      | (Raise e, w'') => (Raise e, w'')
      end
  end.

(** ** Files, clock, log and heap *)

(** [open(p, m)].  A write mode creates or truncates the file; a read mode
    needs the file to exist.  [w_deny] refuses the creation or truncation of
    a path, or the reading of an existing file. *)
Definition open_file (p : string) (m : mode) : M nat := λ w,
  let fd := w_next_fd w in
  let opened := with_fds (<[fd := (p, m)]> (w_fds w)) (S fd) in
  if is_write m then
    if w_deny w m p then (Raise PermissionError, w)
    else (Ok fd, opened (with_files (<[p := EmptyString]> (w_files w)) w))
  else
    match w_files w !! p with
    | None => (Raise FileNotFoundError, w)
    | Some _ =>
        if w_deny w m p then (Raise PermissionError, w) else (Ok fd, opened w)
    end.

(** [f.read()] of a whole file. *)
Definition fd_read (fd : nat) : M string := λ w,
  match w_fds w !! fd with
  | Some (p, m) =>
      if is_write m then (Raise UnsupportedOperation, w)
      else (Ok (default EmptyString (w_files w !! p)), w)
  | None => (Raise ValueError, w)
  end.

(** [f.write(data)] at the end of the file. *)
Definition fd_write (fd : nat) (data : string) : M unit := λ w,
  match w_fds w !! fd with
  | Some (p, m) =>
      if is_write m then
        (Ok tt,
         with_files
           (<[p := default EmptyString (w_files w !! p) +:+ data]> (w_files w))
           w)
      else (Raise UnsupportedOperation, w)
  | None => (Raise ValueError, w)
  end.

(** [f.close()]; closing a closed file does nothing. *)
Definition fd_close (fd : nat) : M unit :=
  modify (λ w, with_fds (delete fd (w_fds w)) (w_next_fd w) w).

(** [with fp: body]. *)
Definition with_fp {A} (fp : nat) (body : M A) : M A :=
  try_finally body (fd_close fp).

Fixpoint str_strip_prefix (pre s : string) : option string :=
  match pre, s with
  | EmptyString, _ => Some s
  | String a pre', String b s' =>
      if chr_eqb a b then str_strip_prefix pre' s' else None
  | String _ _, EmptyString => None
  end.

(** The name under which the file at path [p] is listed in directory [d]:
    [p] is [join d n] for a name [n] without a slash.  The store is flat. *)
Definition dir_entry (d p : string) : option string :=
  match str_strip_prefix (join d EmptyString) p with
  | Some n =>
      if bool_decide (n = EmptyString) || str_contains "/" n then None
      else Some n
  | None => None
  end.

Definition listdir_names (files : gmap string string) (d : string)
  : list string :=
  omap (dir_entry d) (map_to_list files).*1.

(** [os.listdir(d)], in the order the system gives. *)
Definition listdir (d : string) : M (list string) := λ w,
  if bool_decide (d ∈ w_dirs w) then (Ok (listdir_names (w_files w) d), w)
  else (Raise FileNotFoundError, w).

(** [os.makedirs(d, exist_ok=True)]. *)
Definition makedirs (d : string) : M unit := λ w,
  if bool_decide (d ∈ w_dirs w) then (Ok tt, w)
  else if w_deny w WT d then (Raise PermissionError, w)
  else (Ok tt, with_dirs ({[d]} ∪ w_dirs w) w).

(** [time.time()], in nanoseconds. *)
Definition time_time : M N := λ w,
  (Ok (w_clock w (w_clock_reads w)), with_clock_reads (S (w_clock_reads w)) w).

Definition emit (e : event) : M unit :=
  modify (λ w, with_log (w_log w ++ [e]) w).

Definition log_debug (fmt arg : string) : M unit := emit (LogDebug fmt arg).
Definition log_exception (msg : string) (e : exn) : M unit :=
  emit (LogException msg e).
(** [urwid.emit_signal(obj, name)]. *)
Definition emit_signal (obj : nat) (name : string) : M unit :=
  emit (Signal obj name).

(** A new object on the heap; its reference is returned. *)
Definition alloc_report (r : ErrorReport) : M nat := λ w,
  (Ok (length (w_heap w)), with_heap (w_heap w ++ [r]) w).

Definition get_report (self : nat) : M ErrorReport := λ w,
  match w_heap w !! self with
  | Some r => (Ok r, w)
  | None => (Raise ReferenceError, w)
  end.

Definition update_report (self : nat) (f : ErrorReport → ErrorReport)
  : M unit :=
  modify (λ w, with_heap (alter f self (w_heap w)) w).

(** Modelled from the spec: [BaseController.run_in_bg] (in
    [subiquitycore/controller.py], not part of the sources at hand).  The
    work runs off the main thread, and its outcome is delivered once, on the
    main thread, to the callback.  Here: the task is registered at
    submission, [bg_run] runs its work and fills the future, [bg_deliver]
    calls the callback and retires the task. *)
Definition run_in_bg (func : work) (cb : callback) : M unit :=
  modify (λ w,
    with_tasks (<[w_next_task w := mkTask func cb None]> (w_tasks w))
      (S (w_next_task w)) w).

Section Program.
Context `{Externals}.

(** ** [ErrorReport] *)

Definition _path_with_ext (ctl : ErrorController) (self : ErrorReport)
    (ext : string) : string :=
  join (crash_directory ctl) (base self +:+ "." +:+ ext).

Definition meta_path (ctl : ErrorController) (self : ErrorReport) : string :=
  _path_with_ext ctl self "meta".

Definition path (ctl : ErrorController) (self : ErrorReport) : string :=
  _path_with_ext ctl self "crash".

(** [d[key] = value]: item assignment works on a dict only. *)
Definition dict_setitem (d : json) (key : string) (value : json) : res json :=
  match d with
  | JObj m => Ok (JObj (<[key := value]> m))
  | _ => Raise TypeError
  end.

(** [d.get(key, dflt)]: only a dict has [get]. *)
Definition dict_get (d : json) (key : string) (dflt : json) : res json :=
  match d with
  | JObj m => Ok (default dflt (m !! key))
  | _ => Raise AttributeError
  end.

Definition set_meta (self : nat) (key : string) (value : json) : M unit :=
  r ← get_report self;
  m ← lift (dict_setitem (meta r) key value);
  update_report self (with_meta m);;
  ctl ← gets w_ctl;
  fp ← open_file (meta_path ctl r) WT;
  with_fp fp (fd_write fp (json_dumps m)).

Definition mark_seen (self : nat) : M unit :=
  set_meta self "seen" (JBool true);;
  emit_signal self "changed".

Definition new (kind : ErrorReportKind) : M nat :=
  t ← time_time;
  let base := format_9f t +:+ "." +:+ lower (kind_name kind) in
  ctl ← gets w_ctl;
  crash_file ← open_file (join (crash_directory ctl) (base +:+ ".crash")) WB;
  let pr :=
    <["CrashDB" := repr_dict (crashdb_spec ctl)]> (apport_Report "Bug" None) in
  r ← alloc_report
        (mkErrorReport base pr INCOMPLETE (Some crash_file) (JObj ∅));
  set_meta r "kind" (JStr (kind_name kind));;
  mret r.

Definition from_file (fpath : string) : M nat :=
  let base := (splitext (basename fpath)).1 in
  f ← open_file fpath RB;
  report ← alloc_report
             (mkErrorReport base (apport_Report "Crash" (Some "???"))
                LOADING (Some f) (JObj ∅));
  ctl ← gets w_ctl;
  r ← get_report report;
  o ← try_except (fp ← open_file (meta_path ctl r) RT; mret (Some fp))
        (λ e, match e with
              | FileNotFoundError => mret None
              | _ => raise e
              end);
  match o with
  | None => mret tt
  | Some fp =>
      with_fp fp
        (text ← fd_read fp;
         match json_loads text with
         | Some j => update_report report (with_meta j)
         | None => raise JSONDecodeError
         end)
  end;;
  mret report.

(** A call into [apport] that rewrites [self.pr], or fails. *)
Definition pr_step (self : nat) (f : pr_t → res pr_t) : M unit :=
  r ← get_report self;
  p ← lift (f (pr r));
  update_report self (with_pr p).

(** [self.pr[key] = value] and [del self.pr[key]]. *)
Definition pr_setitem (self : nat) (key value : string) : M unit :=
  update_report self (λ r, with_pr (<[key := value]> (pr r)) r).

Definition pr_delitem (self : nat) (key : string) : M unit :=
  r ← get_report self;
  match pr r !! key with
  | Some _ => update_report self (λ r, with_pr (delete key (pr r)) r)
  | None => raise KeyError
  end.

(** The work of [add_info]. *)
Definition _bg_add_info (self : nat) (_bg_attach_hook : hook_t) : M unit :=
  pr_step self _bg_attach_hook;;
  pr_step self add_proc_info;;
  pr_step self add_os_info;;
  pr_step self add_hooks_info;;
  pr_step self attach_hardware;;
  env ← gets w_environ;
  pr_setitem self "Package"
    ("subiquity " +:+ default "SNAP_REVISION" (env !! "SNAP_REVISION"));;
  pr_setitem self "SourcePackage" "subiquity";;
  pr_delitem self "ExecutableTimestamp";;
  pr_delitem self "ProcMaps";;
  r ← get_report self;
  data ← lift (pr_write (pr r));
  match _file r with
  | Some f => fd_write f data
  | None => raise AttributeError
  end.

(** [self._file.close()]. *)
Definition close_file (self : nat) : M unit :=
  r ← get_report self;
  match _file r with
  | Some f => fd_close f
  | None => raise AttributeError
  end.

(** The completion callback of [add_info]; [fut] is the outcome of the
    work, which [fut.result()] returns or raises. *)
Definition added_info (self : nat) (fut : res unit) : M unit :=
  r ← get_report self;
  log_debug "done adding info for report %s" (base r);;
  match fut with
  | Raise e =>
      update_report self (with_state ERROR_GENERATING);;
      log_exception "adding info to problem report failed" e
  | Ok _ => update_report self (with_state DONE)
  end;;
  close_file self;;
  update_report self (with_file None);;
  emit_signal self "changed".

Definition add_info (self : nat) (_bg_attach_hook : hook_t) (wait : bool)
  : M unit :=
  r ← get_report self;
  log_debug "begin adding info for report %s" (base r);;
  if wait then _bg_add_info self _bg_attach_hook
  else run_in_bg (WAddInfo self _bg_attach_hook) (CbAddedInfo self).

(** The work of [load]. *)
Definition _bg_load (self : nat) : M unit :=
  r ← get_report self;
  log_debug "loading report %s" (base r);;
  match _file r with
  | Some f =>
      data ← fd_read f;
      p ← lift (pr_load (pr r) data);
      update_report self (with_pr p)
  | None => raise AttributeError
  end.

Definition load (self : nat) (cb : thunk) : M unit :=
  run_in_bg (WLoad self) (CbLoaded self cb).

(** The [kind] property: [getattr(ErrorReportKind, k, UNKNOWN)] finds the
    member called [k], or another attribute of the class, or the default;
    a [k] that is not a string is a [TypeError]. *)
Inductive pyobj :=
  | PyKind (k : ErrorReportKind)
  | PyAttr (name : string).

Definition getattr_ErrorReportKind (name : string) (dflt : pyobj) : pyobj :=
  match kind_of_name name with
  | Some k => PyKind k
  | None => if enum_class_attr name then PyAttr name else dflt
  end.

Definition kind (self : ErrorReport) : res pyobj :=
  match dict_get (meta self) "kind" (JStr "UNKNOWN") with
  | Ok (JStr k) => Ok (getattr_ErrorReportKind k (PyKind UNKNOWN))
  | Ok _ => Raise TypeError
  | Raise e => Raise e
  end.

Definition seen (self : ErrorReport) : res json :=
  dict_get (meta self) "seen" (JBool false).

(** The [for ... else] of [persistent_details] over the lines of the mount
    table: the device and root of the first mount at [looking_for]. *)
Fixpoint find_mount (looking_for : string) (lines : list string)
  : res (option (string * string)) :=
  match lines with
  | [] => Ok None
  | line :: rest =>
      let parts := split_ws (strip line) in
      match parts !! 4%nat with
      | None => Raise IndexError
      | Some mnt =>
          if bool_decide (normpath mnt = looking_for) then
            match parts !! 9%nat, parts !! 3%nat with
            | Some devname, Some root => Ok (Some (devname, root))
            | _, _ => Raise IndexError
            end
          else find_mount looking_for rest
      end
  end.

Definition persistent_details (self : nat)
  : M (option string * option string) :=
  r ← get_report self;
  ctl ← gets w_ctl;
  cwd ← gets w_cwd;
  let looking_for := abspath cwd (normpath (crash_directory ctl)) in
  f ← open_file "/proc/self/mountinfo" RT;
  text ← with_fp f (fd_read f);
  found ← lift (find_mount looking_for (readlines text));
  match found with
  | None =>
      if dry_run ctl then
        mret (Some "casper-rw",
              Some ("install-logs/2019-11-06.0/crash/" +:+ base r +:+ ".crash"))
      else mret (None, None)
  | Some (devname, root) =>
      devs ← lift (udev_list_block_devices (realpath devname));
      match devs with
      | [] => mret (None, None)
      | dev :: _ =>
          let label := default EmptyString (dev !! "ID_FS_LABEL_ENC") in
          mret (Some label,
                Some (str_drop 1 root +:+ "/" +:+ base r +:+ ".crash"))
      end
  end.

(** ** [ErrorController] *)

(** [__init__]: [root] is [app.root]. *)
Definition ErrorController_init (root : string) (dry : bool)
  : ErrorController :=
  mkErrorController (join root "var/crash")
    ([("impl", "launchpad"); ("project", "subiquity")]
       ++ (if dry then [("launchpad_instance", "staging")] else []))
    [] dry.

Definition _report_loaded (to_load : list nat) : M unit :=
  match to_load with
  | [] => mret tt
  | r :: _ => load r (ThReportLoaded to_load)
  end.

(** The call of the [lambda] that [_report_loaded] made. *)
Definition call_thunk (cb : thunk) : M unit :=
  match cb with
  | ThReportLoaded to_load => _report_loaded (tail to_load)
  end.

(** The completion callback of [load]. *)
Definition loaded (self : nat) (cb : thunk) (fut : res unit) : M unit :=
  r ← get_report self;
  log_debug "done loading report %s" (base r);;
  match fut with
  | Raise e =>
      update_report self (with_state ERROR_LOADING);;
      log_exception "loading problem report failed" e
  | Ok _ => update_report self (with_state DONE)
  end;;
  close_file self;;
  update_report self (with_file None);;
  emit_signal self "changed";;
  call_thunk cb.

(** The body of the [for] loop of [scan_crash_dir], over the sorted names. *)
Fixpoint scan_loop (filenames : list string) (to_load : list nat)
  : M (list nat) :=
  match filenames with
  | [] => mret to_load
  | filename :: rest =>
      let '(_, ext) := splitext filename in
      if bool_decide (ext ≠ ".crash") then scan_loop rest to_load
      else
        ctl ← gets w_ctl;
        let path := join (crash_directory ctl) filename in
        r ← from_file path;
        modify (λ w, with_ctl (with_reports (reports (w_ctl w) ++ [r])
                                 (w_ctl w)) w);;
        scan_loop rest (to_load ++ [r])
  end.

Definition scan_crash_dir : M unit :=
  ctl ← gets w_ctl;
  filenames ← listdir (crash_directory ctl);
  to_load ← scan_loop (sorted_reverse filenames) [];
  _report_loaded to_load.

Definition start : M unit :=
  ctl ← gets w_ctl;
  makedirs (crash_directory ctl);;
  scan_crash_dir.

Definition create_report (kind : ErrorReportKind) : M nat :=
  r ← new kind;
  modify (λ w, with_ctl (with_reports (r :: reports (w_ctl w)) (w_ctl w)) w);;
  mret r.

(** ** The background runner and the calls into the core *)

Definition run_work (f : work) : M unit :=
  match f with
  | WAddInfo self hook => _bg_add_info self hook
  | WLoad self => _bg_load self
  end.

Definition run_callback (cb : callback) (fut : res unit) : M unit :=
  match cb with
  | CbAddedInfo self => added_info self fut
  | CbLoaded self th => loaded self th fut
  end.

(** The worker runs the work of task [tid] and stores the outcome in its
    future; nothing happens when the task is unknown or has run. *)
Definition bg_run (tid : nat) : M unit := λ w,
  match w_tasks w !! tid with
  | Some (mkTask f cb None) =>
      let '(r, w') := run_work f w in
      (Ok tt,
       with_tasks (<[tid := mkTask f cb (Some r)]> (w_tasks w'))
         (w_next_task w') w')
  | _ => (Ok tt, w)
  end.

(** The main loop delivers the outcome of task [tid] to its callback, once;
    nothing happens when the task is unknown or has not run yet. *)
Definition bg_deliver (tid : nat) : M unit := λ w,
  match w_tasks w !! tid with
  | Some (mkTask f cb (Some fut)) =>
      run_callback cb fut
        (with_tasks (delete tid (w_tasks w)) (w_next_task w) w)
  | _ => (Ok tt, w)
  end.

(** What happens to the core: the calls of the surrounding program and the
    steps of the background runner. *)
Inductive action :=
  | ACreateReport (kind : ErrorReportKind)
  | AAddInfo (self : nat) (hook : hook_t) (wait : bool)
  | AMarkSeen (self : nat)
  | AScanCrashDir
  | AStart
  | ABgRun (tid : nat)
  | ABgDeliver (tid : nat).

Definition exec (a : action) : M unit :=
  match a with
  | ACreateReport kind => _ ← create_report kind; mret tt
  | AAddInfo self hook wait => add_info self hook wait
  | AMarkSeen self => mark_seen self
  | AScanCrashDir => scan_crash_dir
  | AStart => start
  | ABgRun tid => bg_run tid
  | ABgDeliver tid => bg_deliver tid
  end.

(** A run: the world after the actions, one after the other.  An exception
    that reaches the caller ends that call, not the program. *)
Fixpoint run (acts : list action) (w : world) : world :=
  match acts with
  | [] => w
  | a :: rest => run rest (exec a w).2
  end.

End Program.

(** ** A concrete instance of the libraries

    A small JSON printer and parser (null, booleans, integers, strings with
    the escapes of the quote, the backslash and the line feed, arrays and
    objects) in the layout of [json.dump(..., indent=4)], and plain stand-ins
    for the other libraries.  The examples below run the model on it. *)
Module Sample.

Definition str_of_Z (n : Z) : string :=
  match n with
  | Zneg p => "-" +:+ str_of_N (Npos p)
  | _ => str_of_N (Z.to_N n)
  end.

Definition dquote : ascii := "034"%char.

Fixpoint escape (s : string) : string :=
  match s with
  | EmptyString => EmptyString
  | String a r =>
      if chr_eqb a dquote then String "\" (String dquote (escape r))
      else if chr_eqb a "\" then String "\" (String "\" (escape r))
      else if chr_eqb a "010" then String "\" (String "n" (escape r))
      else String a (escape r)
  end.

Definition quote (s : string) : string :=
  String dquote (escape s +:+ String dquote EmptyString).

Fixpoint spaces (n : nat) : string :=
  match n with
  | O => EmptyString
  | S n' => String " " (spaces n')
  end.

Definition nl : string := String "010" EmptyString.

Fixpoint dumps_go (fuel ind : nat) (j : json) : string :=
  match fuel with
  | O => "null"
  | S fuel' =>
      let block (opening closing : string) (items : list string) :=
        match items with
        | [] => opening +:+ closing
        | _ =>
            opening +:+ nl
              +:+ str_join ("," +:+ nl) ((λ i, spaces (ind + 4) +:+ i) <$> items)
              +:+ nl +:+ spaces ind +:+ closing
        end in
      match j with
      | JNull => "null"
      | JBool true => "true"
      | JBool false => "false"
      | JNum n => str_of_Z n
      | JStr s => quote s
      | JArr l => block "[" "]" (dumps_go fuel' (ind + 4) <$> l)
      | JObj d =>
          block "{" "}"
            ((λ kv, quote kv.1 +:+ ": " +:+ dumps_go fuel' (ind + 4) kv.2)
               <$> map_to_list d)
      end
  end.

Definition dumps (j : json) : string := dumps_go 64 0 j.

Fixpoint skip_ws (s : string) : string :=
  match s with
  | String a r =>
      if chr_eqb a " " || chr_eqb a "010" || chr_eqb a "013" || chr_eqb a "009"
      then skip_ws r else s
  | EmptyString => s
  end.

(** The rest of a string literal, after its opening quote. *)
Fixpoint parse_string (acc : string) (s : string) : option (string * string) :=
  match s with
  | EmptyString => None
  | String a r =>
      if chr_eqb a dquote then Some (String.rev acc, r)
      else if chr_eqb a "\" then
        match r with
        | String b r' =>
            if chr_eqb b "n" then parse_string (String "010" acc) r'
            else if chr_eqb b dquote || chr_eqb b "\" || chr_eqb b "/"
            then parse_string (String b acc) r'
            else None
        | EmptyString => None
        end
      else parse_string (String a acc) r
  end.

Fixpoint parse_digits (acc : N) (seen : bool) (s : string)
  : option (N * string) :=
  match s with
  | String a r =>
      match Ascii.is_nat a with
      | Some d => parse_digits (acc * 10 + N.of_nat d) true r
      | None => if seen then Some (acc, s) else None
      end
  | EmptyString => if seen then Some (acc, s) else None
  end.

Fixpoint parse_elems (pv : string → option (json * string)) (fuel : nat)
    (s : string) : option (list json * string) :=
  match fuel with
  | O => None
  | S fuel' =>
      match pv (skip_ws s) with
      | Some (v, r) =>
          match skip_ws r with
          | String ","%char r' =>
              match parse_elems pv fuel' r' with
              | Some (vs, r'') => Some (v :: vs, r'')
              | None => None
              end
          | String "]"%char r' => Some ([v], r')
          | _ => None
          end
      | None => None
      end
  end.

Fixpoint parse_members (pv : string → option (json * string)) (fuel : nat)
    (acc : gmap string json) (s : string)
  : option (gmap string json * string) :=
  match fuel with
  | O => None
  | S fuel' =>
      match skip_ws s with
      | String a r =>
          if chr_eqb a dquote then
            match parse_string EmptyString r with
            | Some (k, r1) =>
                match skip_ws r1 with
                | String ":"%char r2 =>
                    match pv (skip_ws r2) with
                    | Some (v, r3) =>
                        match skip_ws r3 with
                        | String ","%char r4 =>
                            parse_members pv fuel' (<[k := v]> acc) r4
                        | String "}"%char r4 => Some (<[k := v]> acc, r4)
                        | _ => None
                        end
                    | None => None
                    end
                | _ => None
                end
            | None => None
            end
          else None
      | EmptyString => None
      end
  end.

Fixpoint parse_value (fuel : nat) (s : string) : option (json * string) :=
  match fuel with
  | O => None
  | S fuel' =>
      match s with
      | String "{"%char r =>
          match skip_ws r with
          | String "}"%char r' => Some (JObj ∅, r')
          | _ =>
              match parse_members (parse_value fuel') fuel' ∅ r with
              | Some (d, r') => Some (JObj d, r')
              | None => None
              end
          end
      | String "["%char r =>
          match skip_ws r with
          | String "]"%char r' => Some (JArr [], r')
          | _ =>
              match parse_elems (parse_value fuel') fuel' r with
              | Some (l, r') => Some (JArr l, r')
              | None => None
              end
          end
      | String "034"%char r =>
          match parse_string EmptyString r with
          | Some (k, r') => Some (JStr k, r')
          | None => None
          end
      | String "-"%char r =>
          match parse_digits 0 false r with
          | Some (n, r') => Some (JNum (- Z.of_N n), r')
          | None => None
          end
      | _ =>
          match str_strip_prefix "null" s, str_strip_prefix "true" s,
                str_strip_prefix "false" s with
          | Some r, _, _ => Some (JNull, r)
          | _, Some r, _ => Some (JBool true, r)
          | _, _, Some r => Some (JBool false, r)
          | _, _, _ =>
              match parse_digits 0 false s with
              | Some (n, r') => Some (JNum (Z.of_N n), r')
              | None => None
              end
          end
      end
  end.

Definition loads (s : string) : option json :=
  match parse_value (S (String.length s)) (skip_ws s) with
  | Some (j, r) =>
      if bool_decide (skip_ws r = EmptyString) then Some j else None
  | None => None
  end.

(** The stand-ins for [apport]: the process fields are the ones that
    [add_proc_info] is known for, the written form is one line per field. *)
Definition write_fields (p : pr_t) : string :=
  str_join EmptyString ((λ kv, kv.1 +:+ ": " +:+ kv.2 +:+ nl) <$> map_to_list p).

#[export] Instance externals : Externals := {|
  json_dumps := dumps;
  json_loads := loads;
  apport_Report ty date :=
    <["ProblemType" := ty]> {["Date" := default "Thu Nov  7 10:00:00 2019" date]};
  add_proc_info p :=
    Ok (<["ExecutableTimestamp" := "1573120800"]>
          (<["ProcMaps" := "00400000-00401000 r-xp"]> p));
  add_os_info p := Ok (<["DistroRelease" := "Ubuntu 20.04"]> p);
  add_hooks_info p := Ok p;
  attach_hardware p := Ok p;
  pr_write p := Ok (write_fields p);
  pr_load p text :=
    if bool_decide (text = EmptyString) then Raise (LibraryError "apport")
    else Ok (<["Loaded" := text]> p);
  realpath d := d;
  udev_list_block_devices d :=
    if bool_decide (d = "/dev/sdb1") then Ok [{["ID_FS_LABEL_ENC" := "casper-rw"]}]
    else Ok [];
  enum_class_attr name := bool_decide (name = "__members__")
|}.

(** A world at start-up: the controller as [__init__] leaves it for the
    installer root [root], over the regular files [files]. *)
Definition boot (root : string) (dry : bool) (files : gmap string string)
    (deny : mode → string → bool) : world :=
  let ctl := ErrorController_init root dry in
  mkWorld files {[crash_directory ctl]} deny ∅ 3 (λ n, N.of_nat n + 1573120800123456789)%N 0
    ∅ "/" [] ctl ∅ 0 [].

Definition allow : mode → string → bool := λ _ _, false.

(** A store after one report of a crash of the installer has been
    created. *)
Definition fresh : world := (create_report UI (boot "/" false ∅ allow)).2.

(** Hooks of [add_info]: one that attaches nothing, one that fails. *)
Definition attach_nothing : hook_t := λ p, Ok p.
Definition failing_hook : hook_t := λ _, Raise (LibraryError "hook").

Definition older : string := "1573120700.000000001.ui.crash".
Definition newer : string := "1573120800.000000002.install_fail.crash".
Definition newest : string := "1573120900.000000003.ui.crash".

(** A store with two artifacts; the newer one has its metadata. *)
Definition two_artifacts : gmap string string :=
  list_to_map
    [("/var/crash/" +:+ older, "ProblemType: Bug");
     ("/var/crash/" +:+ newer, "ProblemType: Bug");
     ("/var/crash/1573120800.000000002.install_fail.meta",
      dumps (JObj (<["kind" := JStr "INSTALL_FAIL"]> ∅)))].

(** A store with three artifacts; the metadata of the middle one is not
    JSON. *)
Definition corrupt_middle : gmap string string :=
  <["/var/crash/" +:+ newest := "ProblemType: Bug"]>
    (<["/var/crash/1573120800.000000002.install_fail.meta" := "{kind: "]>
       two_artifacts).

(** Two lines of a mount table; none mounts the store. *)
Definition mounts : string :=
  "22 1 8:1 / / rw,relatime shared:1 - ext4 /dev/sda1 rw" +:+ nl +:+
  "36 22 8:17 / /media/usb rw,noatime shared:2 - vfat /dev/sdb1 rw" +:+ nl.

(** The worlds of [fresh] with that mount table, in an installation and in
    a dry run. *)
Definition installed : world :=
  with_files (<["/proc/self/mountinfo" := mounts]> (w_files fresh)) fresh.

Definition dry_run_world : world :=
  (create_report UI
     (boot "/" true {["/proc/self/mountinfo" := mounts]} allow)).2.


(** The store of two artifacts where the metadata file of the older one
    holds a list. *)
Definition list_metadata : gmap string string :=
  <["/var/crash/1573120700.000000001.ui.meta" := "[1, 2]"]> two_artifacts.


(** The stand-ins again, for a process whose executable [apport] does not
    find: [add_proc_info] adds no field. *)
Definition no_executable : Externals := {|
  json_dumps := dumps;
  json_loads := loads;
  apport_Report ty date :=
    <["ProblemType" := ty]> {["Date" := default "Thu Nov  7 10:00:00 2019" date]};
  add_proc_info p := Ok p;
  add_os_info p := Ok (<["DistroRelease" := "Ubuntu 20.04"]> p);
  add_hooks_info p := Ok p;
  attach_hardware p := Ok p;
  pr_write p := Ok (write_fields p);
  pr_load p text :=
    if bool_decide (text = EmptyString) then Raise (LibraryError "apport")
    else Ok (<["Loaded" := text]> p);
  realpath d := d;
  udev_list_block_devices d :=
    if bool_decide (d = "/dev/sdb1") then Ok [{["ID_FS_LABEL_ENC" := "casper-rw"]}]
    else Ok [];
  enum_class_attr name := bool_decide (name = "__members__")
|}.

(** A line of the mount table that mounts the store, and the table with
    that line last. *)
Definition store_mount : string :=
  "40 22 8:17 /crash /var/crash rw,noatime shared:3 - ext4 /dev/sdb1 rw"
    +:+ nl.

Definition mounts_store : string := mounts +:+ store_mount.

End Sample.

(** ** Notions used in the statements *)

(** A call [m] keeps the relation [R] between the world before and the
    world after, whether it returns or raises. *)
Definition preserves {A} (R : relation world) (m : M A) : Prop :=
  ∀ w, R w (m w).2.

(** The relation of two worlds that agree on the component [f]. *)
Definition same {T} (f : world → T) : relation world :=
  λ w w', f w' = f w.

(** The relation of two worlds where every report of the first is still
    there in the second, changed within [Q]. *)
Definition heap_rel (Q : relation ErrorReport) : relation world :=
  λ w w', ∀ i r, w_heap w !! i = Some r →
                 ∃ r', w_heap w' !! i = Some r' ∧ Q r r'.

(** Two states of a report that differ in the [apport] fields only. *)
Definition same_but_pr : relation ErrorReport :=
  λ r r', base r' = base r ∧ state r' = state r ∧ _file r' = _file r ∧
          meta r' = meta r.

(** [meta["kind"]], when [meta] is a dict that has the key. *)
Definition meta_kind (r : ErrorReport) : option json :=
  match meta r with
  | JObj d => d !! "kind"
  | _ => None
  end.

(** The [meta["kind"]] of the first state, if set, is that of the second. *)
Definition kind_kept : relation ErrorReport :=
  λ r r', ∀ v, meta_kind r = Some v → meta_kind r' = Some v.

(** *** The loads of the background runner *)

(** A task whose work is a load; the loads in flight of a world are its
    tasks of that kind, from the call of [load] to the delivery of the
    outcome to [loaded]. *)
Definition is_load (t : task) : bool :=
  match t_work t with
  | WLoad _ => true
  | WAddInfo _ _ => false
  end.

Definition load_tasks (w : world) : gmap nat task :=
  filter (λ kv, is_load kv.2 = true) (w_tasks w).


(** The records that a load leaves in the log: [_bg_load] logs when it
    begins, [loaded] when the outcome is delivered. *)
Definition is_load_event (e : event) : bool :=
  match e with
  | LogDebug fmt _ =>
      bool_decide (fmt = "loading report %s")
      || bool_decide (fmt = "done loading report %s")
  | _ => false
  end.

Definition load_events (w : world) : list event :=
  filter (λ e, is_load_event e = true) (w_log w).


(** The callback of a task is the one its work was submitted with. *)
Definition paired (t : task) : Prop :=
  match t_work t, t_callback t with
  | WAddInfo _ _, CbAddedInfo _ => True
  | WLoad _, CbLoaded _ _ => True
  | _, _ => False
  end.

(** The tasks of a world were all submitted through [run_in_bg]. *)
Definition tasks_wf (w : world) : Prop :=
  ∀ tid t, w_tasks w !! tid = Some t → tid < w_next_task w ∧ paired t.

Definition same_base : relation ErrorReport := λ r r', base r' = base r.

Definition base_of (w : world) (r : nat) : string :=
  default EmptyString (base <$> w_heap w !! r).

(** Two worlds with the same tasks and the same log. *)
Definition same_tl : relation world := λ w w',
  w_tasks w' = w_tasks w ∧ w_next_task w' = w_next_task w ∧
  w_log w' = w_log w.

(** What the operations that are no load leave alone: the loads in flight
    and the records of the loads. *)
Definition load_frame : relation world := λ w w',
  tasks_wf w →
  tasks_wf w' ∧ load_tasks w' = load_tasks w ∧ load_events w' = load_events w.




(** Two states of a report with the same base name and metadata. *)
Definition same_meta : relation ErrorReport :=
  λ r r', base r' = base r ∧ meta r' = meta r.

(** The files that are open for writing are artifacts: their names end
    like [.crash]. *)
Definition writes_artifacts (w : world) : Prop :=
  ∀ fd p m, w_fds w !! fd = Some (p, m) → is_write m = true →
            str_last p = Some "h"%char.

(** What the operations that write no metadata leave alone, as long as
    the files open for writing are artifacts: the files whose names end
    like [.meta]. *)
Definition meta_files_frame : relation world := λ w w',
  writes_artifacts w →
  writes_artifacts w' ∧
  ∀ p, str_last p = Some "a"%char → w_files w' !! p = w_files w !! p.

Section Notions.
Context `{Externals}.

(** The base name and the report object that [new] makes in world [w]. *)
Definition new_base (kind0 : ErrorReportKind) (w : world) : string :=
  format_9f (w_clock w (w_clock_reads w)) +:+ "." +:+ lower (kind_name kind0).

Definition new_report (kind0 : ErrorReportKind) (w : world) : ErrorReport :=
  mkErrorReport (new_base kind0 w)
    (<["CrashDB" := repr_dict (crashdb_spec (w_ctl w))]>
       (apport_Report "Bug" None))
    INCOMPLETE (Some (w_next_fd w))
    (JObj (<["kind" := JStr (kind_name kind0)]> ∅)).

(** The report object that [from_file] makes for the artifact at [fpath],
    before it reads the metadata. *)
Definition loading_report (fpath : string) (w : world) : ErrorReport :=
  mkErrorReport (splitext (basename fpath)).1
    (apport_Report "Crash" (Some "???")) LOADING (Some (w_next_fd w))
    (JObj ∅).

(** The path that [persistent_details] looks for in the mount table. *)
Definition looking_for (w : world) : string :=
  abspath (w_cwd w) (normpath (crash_directory (w_ctl w))).

(** The mount point that a line of the mount table names: its fifth field. *)
Definition mount_point (line : string) : option string :=
  split_ws (strip line) !! 4%nat.

(** No line of the mount table [text] mounts something at [d]. *)
Definition not_mounted (text d : string) : Prop :=
  Forall (λ line, ∃ mnt, mount_point line = Some mnt ∧ normpath mnt ≠ d)
    (readlines text).

(** What a completion callback leaves of a report: the final state, no
    file. *)
Definition finished (st : ErrorReportState) (r : ErrorReport) : ErrorReport :=
  with_file None (with_state st r).

(** The state and the log records that the completion of [add_info] and
    of [load] make of the outcome [fut] of the work. *)
Definition added_state (fut : res unit) : ErrorReportState :=
  match fut with Ok _ => DONE | Raise _ => ERROR_GENERATING end.


Definition added_events (self : nat) (b : string) (fut : res unit)
  : list event :=
  LogDebug "done adding info for report %s" b ::
  match fut with
  | Ok _ => []
  | Raise e => [LogException "adding info to problem report failed" e]
  end ++ [Signal self "changed"].


(** The world after a completion callback has closed the file [fd] of
    report [self] and logged [evs]. *)
Definition completed (self fd : nat) (st : ErrorReportState)
    (evs : list event) (w : world) : world :=
  with_log (w_log w ++ evs)
    (with_heap (alter (finished st) self (w_heap w))
       (with_fds (delete fd (w_fds w)) (w_next_fd w) w)).

(** The task that [add_info] hands to the background runner. *)
Definition add_info_task (self : nat) (hook : hook_t) : task :=
  mkTask (WAddInfo self hook) (CbAddedInfo self) None.

(** The exception, if any, with which [from_file] fails on [fpath]: the
    artifact is missing or unreadable, or its metadata file exists and is
    unreadable or is not valid JSON. *)
Definition artifact_error (w : world) (fpath : string) : option exn :=
  match w_files w !! fpath with
  | None => Some FileNotFoundError
  | Some _ =>
      if w_deny w RB fpath then Some PermissionError
      else
        match w_files w !! meta_path (w_ctl w) (loading_report fpath w) with
        | None => None
        | Some text =>
            if w_deny w RT (meta_path (w_ctl w) (loading_report fpath w))
            then Some PermissionError
            else
              match json_loads text with
              | Some _ => None
              | None => Some JSONDecodeError
              end
        end
  end.

(** The entries of a listing that [scan_crash_dir] takes for artifacts. *)
Definition is_crash (filename : string) : bool :=
  bool_decide ((splitext filename).2 = ".crash").

Definition crash_entries (w : world) : list string :=
  filter (λ f, is_crash f = true)
    (sorted_reverse
       (listdir_names (w_files w) (crash_directory (w_ctl w)))).

(** Report [rid] of world [w] was built by [from_file] from the entry
    [filename] of the store and still holds the file it opened on it. *)
Definition scanned (w : world) (rid : nat) (filename : string) : Prop :=
  ∃ rep fd,
    w_heap w !! rid = Some rep ∧
    base rep = (splitext (basename (join (crash_directory (w_ctl w)) filename))).1 ∧
    state rep = LOADING ∧
    _file rep = Some fd ∧ fd < w_next_fd w ∧
    w_fds w !! fd = Some (join (crash_directory (w_ctl w)) filename, RB).

(** What a directory scan leaves alone: the files, the permissions, the
    tasks, the log, the place of the store, the file objects and the
    reports that were there. *)
Definition scan_rel : relation world := λ w w',
  w_files w' = w_files w ∧ w_deny w' = w_deny w ∧
  w_tasks w' = w_tasks w ∧ w_next_task w' = w_next_task w ∧
  w_log w' = w_log w ∧
  crash_directory (w_ctl w') = crash_directory (w_ctl w) ∧
  w_next_fd w ≤ w_next_fd w' ∧
  (∀ fd, fd < w_next_fd w → w_fds w' !! fd = w_fds w !! fd) ∧
  (∀ i r, w_heap w !! i = Some r → w_heap w' !! i = Some r).

(** The task by which [load] runs for report [r], with the rest of the
    chain, and the world after a task is handed to the runner. *)
Definition load_task (r : nat) (to_load : list nat) : task :=
  mkTask (WLoad r) (CbLoaded r (ThReportLoaded to_load)) None.

Definition submit (t : task) (w : world) : world :=
  with_tasks (<[w_next_task w := t]> (w_tasks w)) (S (w_next_task w)) w.

(** *** Metadata on disk *)

(** The metadata of report [r] as read off the disk, the way [from_file]
    reads it: no file is the empty mapping, a file that is not JSON is
    nothing. *)
Definition disk_meta (w : world) (r : ErrorReport) : option json :=
  match w_files w !! meta_path (w_ctl w) r with
  | Some text => json_loads text
  | None => Some (JObj ∅)
  end.

(** A value that comes back from [json.dump] and [json.load] as it was. *)
Definition json_compatible (j : json) : Prop :=
  json_loads (json_dumps j) = Some j.

(** The metadata file of [r] holds what [set_meta] wrote of [meta], or what
    [from_file] read [meta] from; or there is no file and [meta] is
    empty. *)
Definition on_disk (w : world) (r : ErrorReport) : Prop :=
  match w_files w !! meta_path (w_ctl w) r with
  | Some text => text = json_dumps (meta r) ∨ json_loads text = Some (meta r)
  | None => meta r = JObj ∅
  end.

(** The metadata of the reports of the controller is on disk, and those
    reports exist. *)
Definition meta_inv (w : world) : Prop :=
  (∀ i, i ∈ reports (w_ctl w) →
        ∃ r, w_heap w !! i = Some r ∧ on_disk w r) ∧
  writes_artifacts w.



(** The operations on the reports: the actions of the core and, for any
    key and value, a call of [set_meta] by the surrounding program. *)
Inductive op :=
  | OSetMeta (self : nat) (key : string) (value : json)
  | OCore (a : action).

Definition do_op (o : op) : M unit :=
  match o with
  | OSetMeta self key value => set_meta self key value
  | OCore a => exec a
  end.

Fixpoint run_ops (ops : list op) (w : world) : world :=
  match ops with
  | [] => w
  | o :: rest => run_ops rest (do_op o w).2
  end.




End Notions.

(** ** Notions for the further properties of the report manager *)

(** The action is [mark_seen] on report [self]. *)
Definition marks_seen (self : nat) (a : action) : bool :=
  match a with
  | AMarkSeen s => bool_decide (s = self)
  | _ => false
  end.

(** Report [self] keeps its base name and its metadata. *)
Definition meta_kept (self : nat) : relation world := λ w w',
  ∀ r, w_heap w !! self = Some r →
       ∃ r', w_heap w' !! self = Some r' ∧ same_meta r r'.

(** The decimal digits. *)
Definition is_digit (c : ascii) : bool :=
  let n := N_of_ascii c in ((48 <=? n) && (n <=? 57))%N.

(** A base name that [from_file] gets back from the path of the artifact:
    it has no slash and does not start with a dot. *)
Definition plain_base (b : string) : bool :=
  negb (str_contains "/" b) &&
  match b with
  | String a _ => negb (chr_eqb a ".")
  | EmptyString => false
  end.

(** The fields of the report after the fixups of [_bg_add_info], which
    found the fields [p5] and the process environment [env]. *)
Definition fixed_up (env : gmap string string) (p5 : pr_t) : pr_t :=
  delete "ProcMaps"
    (delete "ExecutableTimestamp"
       (<["SourcePackage" := "subiquity"]>
          (<["Package" :=
               "subiquity " +:+ default "SNAP_REVISION" (env !! "SNAP_REVISION")]>
             p5))).

Section MoreNotions.
Context `{Externals}.

(** The calls of [_bg_add_info] that attach fields to the report: the
    caller's hook, then [apport]'s. *)
Definition attach_all (hook : hook_t) (p : pr_t) : res pr_t :=
  match hook p with
  | Ok p1 =>
      match add_proc_info p1 with
      | Ok p2 =>
          match add_os_info p2 with
          | Ok p3 =>
              match add_hooks_info p3 with
              | Ok p4 => attach_hardware p4
              | Raise e => Raise e
              end
          | Raise e => Raise e
          end
      | Raise e => Raise e
      end
  | Raise e => Raise e
  end.

End MoreNotions.

(** Every character of a string satisfies [P]. *)
Fixpoint str_forall (P : ascii → bool) (s : string) : bool :=
  match s with
  | EmptyString => true
  | String a r => P a && str_forall P r
  end.

(** * The update checker

    Source: [subiquity/controllers/refresh.py] (classes [CheckState] and
    [RefreshController]).  The values that come from YAML answers and from
    the responses of [snapd] are [json] values; [None] is [JNull].
    [get_refresh_channel] reads files and logs in the world of the report
    manager; the methods that change the controller run in a state monad
    of their own, over the controller and what an observer sees of it. *)
Module Refresh.

Inductive CheckState :=
  | NOT_STARTED | CHECKING | FAILED | AVAILABLE | UNAVAILABLE.

#[global] Instance CheckState_eq_dec : EqDecision CheckState.
Proof. solve_decision. Defined.

Definition is_definite (self : CheckState) : bool :=
  bool_decide (self ∈ [AVAILABLE; UNAVAILABLE]).

(** A [RefreshController]; [answers], [dry_run], [updated] and [showing]
    are [self.answers], [self.opts.dry_run], [self.app.updated] and
    [self.showing].  The two task objects are left to the events. *)
Record RefreshController := mkRefreshController {
  snap_name : string;
  check_state : CheckState;
  current_snap_version : json;
  new_snap_version : json;
  offered_first_time : bool;
  answers : gmap string json;
  dry_run : bool;
  updated : bool;
  showing : bool
}.

Definition with_check_state (v : CheckState) (c : RefreshController)
  : RefreshController :=
  mkRefreshController (snap_name c) v (current_snap_version c)
    (new_snap_version c) (offered_first_time c) (answers c) (dry_run c)
    (updated c) (showing c).
Definition with_new_snap_version (v : json) (c : RefreshController)
  : RefreshController :=
  mkRefreshController (snap_name c) (check_state c) (current_snap_version c)
    v (offered_first_time c) (answers c) (dry_run c) (updated c) (showing c).
Definition with_offered_first_time (v : bool) (c : RefreshController)
  : RefreshController :=
  mkRefreshController (snap_name c) (check_state c) (current_snap_version c)
    (new_snap_version c) v (answers c) (dry_run c) (updated c) (showing c).

(** The exceptions of the controller: [Skip] of [subiquitycore], the
    [RequestException]s of [requests], and the built-in ones. *)
Inductive rexn :=
  | Skip
  | AssertionError (msg : string)
  | RequestException
  | Builtin (e : exn).

Inductive rres (A : Type) :=
  | ROk (a : A)
  | RRaise (e : rexn).
Arguments ROk {A} a.
Arguments RRaise {A} e.

(** What an observer sees: the records of the logger, the calls on the
    user interface, the signals, and the restart of the check task. *)
Inductive revent :=
  | RLogDebug (fmt : string) (args : list string)
  | RLogException (msg : string) (e : rexn)
  | SetBodyRefreshView
  | BodyUpdate
  | BodyUpdateCheckState
  | EmitSignal (name : string)
  | CheckTaskStartSync.

Record rstate := mkRState {
  ctl : RefreshController;
  seen_events : list revent
}.

Definition RM (A : Type) : Type := rstate → rres A * rstate.

#[global] Instance RM_ret : MRet RM := λ A a s, (ROk a, s).
#[global] Instance RM_bind : MBind RM := λ A B f m s,
  match m s with
  | (ROk a, s') => f a s'
  | (RRaise e, s') => (RRaise e, s')
  end.

Definition rraise {A} (e : rexn) : RM A := λ s, (RRaise e, s).
Definition rlift {A} (r : rres A) : RM A := λ s, (r, s).
Definition rself : RM RefreshController := λ s, (ROk (ctl s), s).
Definition rset (f : RefreshController → RefreshController) : RM unit :=
  λ s, (ROk tt, mkRState (f (ctl s)) (seen_events s)).
Definition remit (e : revent) : RM unit :=
  λ s, (ROk tt, mkRState (ctl s) (seen_events s ++ [e])).

(** [bool(v)]. *)
Definition truthy (v : json) : bool :=
  match v with
  | JNull => false
  | JBool b => b
  | JNum n => negb (n =? 0)%Z
  | JStr s => negb (bool_decide (s = EmptyString))
  | JArr l => match l with [] => false | _ => true end
  | JObj d => match map_to_list d with [] => false | _ => true end
  end.

(** [v[key]] for a string [key]. *)
Definition getitem (v : json) (key : string) : rres json :=
  match v with
  | JObj d =>
      match d !! key with
      | Some x => ROk x
      | None => RRaise (Builtin KeyError)
      end
  | _ => RRaise (Builtin TypeError)
  end.

(** The values that [for x in v] goes through; the keys of a dict come in
    the order of the map. *)
Definition iterate (v : json) : rres (list json) :=
  match v with
  | JArr l => ROk l
  | JObj d => ROk ((λ kv, JStr kv.1) <$> map_to_list d)
  | JStr s => ROk ((λ c, JStr (String c EmptyString)) <$> String.list_ascii_of_string s)
  | _ => RRaise (Builtin TypeError)
  end.

(** [v == s] for a string [s]. *)
Definition eq_str (v : json) (s : string) : bool :=
  match v with
  | JStr t => bool_decide (t = s)
  | _ => false
  end.

(** [str(n)] of an integer. *)
Definition str_of_Z (n : Z) : string :=
  match n with
  | Zneg p => "-" +:+ str_of_N (Npos p)
  | _ => str_of_N (Z.to_N n)
  end.

(** [s.startswith(pre)]. *)
Definition str_startswith (pre s : string) : bool :=
  match str_strip_prefix pre s with
  | Some _ => true
  | None => false
  end.

Definition prefix : string := "subiquity-channel=".
Definition info_file : string := "/cdrom/.disk/info".

(** The text that stands for the [.disk/info] of the medium in a dry
    run. *)
Definition dry_run_info : string :=
  "Ubuntu-Server 18.04.2 LTS " +:+
  String "034" ("Bionic Beaver" +:+
  String "034" " - Release amd64 (20190214.3)").

(** [get_refresh_channel]: the channel of the answers, or of the kernel
    command line, or the stable channel of the release of the medium; the
    result is [None] when the medium has no [.disk/info]. *)
Definition get_refresh_channel (self : RefreshController) : M json :=
  match answers self !! "channel" with
  | Some c => mret c
  | None =>
      fp ← open_file "/proc/cmdline" RT;
      cmdline ← with_fp fp (fd_read fp);
      match find (str_startswith prefix) (split_ws cmdline) with
      | Some arg =>
          log_debug "get_refresh_channel: found %s on kernel cmdline" arg;;
          mret (JStr (str_drop (String.length prefix) arg))
      | None =>
          o ← try_except (fp ← open_file info_file RT; mret (Some fp))
                (λ e, match e with
                      | FileNotFoundError => mret None
                      | _ => raise e
                      end);
          info ← match o with
                 | Some fp => text ← with_fp fp (fd_read fp); mret (Some text)
                 | None =>
                     if dry_run self then mret (Some dry_run_info)
                     else
                       log_debug
                         "get_refresh_channel: failed to find .disk/info file"
                         EmptyString;;
                       mret None
                 end;
          match info with
          | None => mret JNull
          | Some info =>
              match split_ws info !! 1%nat with
              | Some release => mret (JStr ("stable/ubuntu-" +:+ release))
              | None => raise IndexError
              end
          end
      end
  end.

Definition snapd_network_changed : RM unit :=
  self ← rself;
  if negb (is_definite (check_state self)) then remit CheckTaskStartSync
  else mret tt.

Definition done : RM unit :=
  remit (RLogDebug "RefreshController.done next-screen" []);;
  remit (EmitSignal "next-screen").

Definition cancel : RM unit := remit (EmitSignal "prev-screen").

Definition start_ui (index : Z) : RM unit :=
  self ← rself;
  if updated self then rraise Skip
  else
    show ←
      (if bool_decide (index = 1%Z) then
         if bool_decide (check_state self = AVAILABLE) then
           rset (with_offered_first_time true);; mret true
         else mret false
       else if bool_decide (index = 2%Z) then
         if negb (offered_first_time self) then
           if bool_decide (check_state self ∈ [AVAILABLE; CHECKING])
           then mret true else mret false
         else mret false
       else
         rraise (AssertionError ("unexpected index " +:+ str_of_Z index)));
    if show : bool then
      remit SetBodyRefreshView;;
      self ← rself;
      match answers self !! "update" with
      | Some u => if truthy u then remit BodyUpdate else done
      | None => mret tt
      end
    else rraise Skip.

Section CheckForUpdate.
(** [str(v)] and [repr(v)], as [%s] and [%r] format them. *)
Context (py_str py_repr : json → string).

(** The loop of [check_for_update] over the snaps of the response; the
    result says whether it ended by [break]. *)
Fixpoint check_snaps (snaps : list json) : RM bool :=
  match snaps with
  | [] => mret false
  | snap :: rest =>
      self ← rself;
      name ← rlift (getitem snap "name");
      if eq_str name (snap_name self) then
        rset (with_check_state AVAILABLE);;
        version ← rlift (getitem snap "version");
        rset (with_new_snap_version version);;
        remit (RLogDebug "new version of snap available: %r"
                 [py_repr version]);;
        mret true
      else check_snaps rest
  end.

(** [check_for_update] up to its request to [snapd]: [configured] is the
    outcome of [await self.configure_task]; the result says whether the
    request is made. *)
Definition check_for_update_begin (configured : rres unit) : RM bool :=
  rlift configured;;
  self ← rself;
  if updated self then rset (with_check_state UNAVAILABLE);; mret false
  else rset (with_check_state CHECKING);; mret true.

(** [check_for_update] from the outcome [response] of the request on. *)
Definition check_for_update_resume (response : rres json) : RM unit :=
  match response with
  | RRaise RequestException =>
      remit (RLogException "checking for update" RequestException);;
      rset (with_check_state FAILED)
  | RRaise e => rraise e
  | ROk result =>
      remit (RLogDebug "check_for_update received %s" [py_str result]);;
      r ← rlift (getitem result "result");
      snaps ← rlift (iterate r);
      found ← check_snaps snaps;
      (if found : bool then mret tt
       else rset (with_check_state UNAVAILABLE));;
      self ← rself;
      if showing self then remit BodyUpdateCheckState else mret tt
  end.

Definition check_for_update (configured : rres unit) (response : rres json)
  : RM unit :=
  go ← check_for_update_begin configured;
  if go : bool then check_for_update_resume response else mret tt.

(** What happens to the controller: the screens that are entered, the
    checks for an update with the outcomes of their awaits, the changes of
    the network, and the buttons of the view. *)
Inductive raction :=
  | RStartUi (index : Z)
  | RCheckForUpdate (configured : rres unit) (response : rres json)
  | RSnapdNetworkChanged
  | RDone
  | RCancel.

Definition rexec (a : raction) : RM unit :=
  match a with
  | RStartUi index => start_ui index
  | RCheckForUpdate configured response =>
      check_for_update configured response
  | RSnapdNetworkChanged => snapd_network_changed
  | RDone => done
  | RCancel => cancel
  end.

(** A run: an exception ends the call that raised it. *)
Fixpoint rrun (acts : list raction) (s : rstate) : rstate :=
  match acts with
  | [] => s
  | a :: rest => rrun rest (rexec a s).2
  end.

End CheckForUpdate.

End Refresh.

(** Concrete data for the update checker: an installer that shows its
    views, the response of [snapd] to the search for refreshes, and a
    machine with a kernel command line. *)
Module RefreshSample.
Import Refresh.

Definition controller (st : CheckState) (ans : gmap string json)
  : RefreshController :=
  mkRefreshController "subiquity" st (JStr "unknown") (JStr EmptyString)
    false ans false false true.

Definition snap (name version : string) : json :=
  JObj (<["name" := JStr name]> (<["version" := JStr version]> ∅)).

Definition find_response : json :=
  JObj (<["result" :=
            JArr [snap "core" "16-2.42"; snap "subiquity" "19.11.1";
                  snap "subiquity" "0"]]> ∅).

(** A response where the snap of the installer has no version. *)
Definition find_response_no_version : json :=
  JObj (<["result" :=
            JArr [snap "core" "16-2.42";
                  JObj (<["name" := JStr "subiquity"]> ∅)]]> ∅).

(** A stand-in for [str] and [repr]. *)
Definition py_text (v : json) : string :=
  match v with
  | JStr s => s
  | _ => "<value>"
  end.

Definition machine (cmdline : string) (files : gmap string string) : world :=
  Sample.boot "/" false (<["/proc/cmdline" := cmdline]> files) Sample.allow.

End RefreshSample.

(** * Properties *)

(** ** Reasoning in the monad *)

Lemma bind_ok {A B} (m : M A) (f : A → M B) w a w1 :
  m w = (Ok a, w1) → (m ≫= f) w = f a w1.
Proof. unfold mbind, M_bind. by intros ->. Qed.

Lemma bind_raise {A B} (m : M A) (f : A → M B) w e w1 :
  m w = (Raise e, w1) → (m ≫= f) w = (Raise e, w1).
Proof. unfold mbind, M_bind. by intros ->. Qed.

Lemma bind_inv_ok {A B} (m : M A) (f : A → M B) w b w2 :
  (m ≫= f) w = (Ok b, w2) →
  ∃ a w1, m w = (Ok a, w1) ∧ f a w1 = (Ok b, w2).
Proof.
  unfold mbind, M_bind. destruct (m w) as [[a|e] w1]; [eauto|done].
Qed.

Lemma bind_inv_raise {A B} (m : M A) (f : A → M B) w e w2 :
  (m ≫= f) w = (Raise e, w2) →
  m w = (Raise e, w2) ∨ ∃ a w1, m w = (Ok a, w1) ∧ f a w1 = (Raise e, w2).
Proof.
  unfold mbind, M_bind. destruct (m w) as [[a|e'] w1]; [eauto|].
  intros [= -> ->]. by left.
Qed.

(** Splits an equation on a sequence of calls that returned into one
    equation for each call. *)
Ltac minv H :=
  repeat
    (let a := fresh "a" in
     let w := fresh "w" in
     let Ha := fresh "Hstep" in
     apply bind_inv_ok in H as (a & w & Ha & H)).

Lemma world_eq (w1 w2 : world) :
  w_files w1 = w_files w2 → w_dirs w1 = w_dirs w2 → w_deny w1 = w_deny w2 →
  w_fds w1 = w_fds w2 → w_next_fd w1 = w_next_fd w2 →
  w_clock w1 = w_clock w2 → w_clock_reads w1 = w_clock_reads w2 →
  w_environ w1 = w_environ w2 → w_cwd w1 = w_cwd w2 →
  w_heap w1 = w_heap w2 → w_ctl w1 = w_ctl w2 → w_tasks w1 = w_tasks w2 →
  w_next_task w1 = w_next_task w2 → w_log w1 = w_log w2 → w1 = w2.
Proof. destruct w1, w2; simpl; intros; by subst. Qed.

(** Proves that two worlds are equal, field by field. *)
Ltac world_eq := apply world_eq; simpl; try done.

(** ** What a call leaves alone *)

#[global] Instance same_preorder {T} (f : world → T) : PreOrder (same f).
Proof. split; [done|]. unfold same. intros x y z ??. congruence. Qed.

#[global] Instance heap_rel_preorder Q `{!PreOrder Q} : PreOrder (heap_rel Q).
Proof.
  split.
  - intros w i r Hr. by exists r.
  - intros x y z Hxy Hyz i r Hr.
    destruct (Hxy i r Hr) as (r1 & Hr1 & HQ1).
    destruct (Hyz i r1 Hr1) as (r2 & Hr2 & HQ2).
    exists r2. split; [done|]. by etrans.
Qed.

#[global] Instance same_but_pr_preorder : PreOrder same_but_pr.
Proof.
  split; [done|]. unfold same_but_pr. intros x y z ??. intuition congruence.
Qed.

Section preserves.
Context (R : relation world) `{!PreOrder R}.

Lemma preserves_ret {A} (a : A) : preserves R (mret a).
Proof. intros w. done. Qed.

Lemma preserves_raise {A} e : preserves R (@raise A e).
Proof. intros w. done. Qed.

Lemma preserves_gets {A} (f : world → A) : preserves R (gets f).
Proof. intros w. done. Qed.

Lemma preserves_lift {A} (r : res A) : preserves R (lift r).
Proof. intros w. done. Qed.

Lemma preserves_bind {A B} (m : M A) (f : A → M B) :
  preserves R m → (∀ a, preserves R (f a)) → preserves R (m ≫= f).
Proof.
  intros Hm Hf w. unfold mbind, M_bind. specialize (Hm w).
  destruct (m w) as [[a|e] w1]; simpl in *; [|done].
  etrans; [done|]. apply Hf.
Qed.

Lemma preserves_try_except {A} (m : M A) (h : exn → M A) :
  preserves R m → (∀ e, preserves R (h e)) → preserves R (try_except m h).
Proof.
  intros Hm Hh w. unfold try_except. specialize (Hm w).
  destruct (m w) as [[a|e] w1]; simpl in *; [done|].
  etrans; [done|]. apply Hh.
Qed.

Lemma preserves_try_finally {A} (m : M A) (f : M unit) :
  preserves R m → preserves R f → preserves R (try_finally m f).
Proof.
  intros Hm Hf w. unfold try_finally. specialize (Hm w).
  destruct (m w) as [r w1]. specialize (Hf w1).
  destruct (f w1) as [[u|e] w2]; simpl in *; by etrans.
Qed.

Lemma preserves_modify (f : world → world) :
  (∀ w, R w (f w)) → preserves R (modify f).
Proof. intros Hf w. apply Hf. Qed.

End preserves.

(** Takes a call apart, down to the primitive effects. *)
Ltac pres_step :=
  lazymatch goal with
  | |- preserves _ (mbind _ _) => apply preserves_bind; [apply _| |intros ?]
  | |- preserves _ (mret _) => apply preserves_ret; apply _
  | |- preserves _ (raise _) => apply preserves_raise; apply _
  | |- preserves _ (gets _) => apply preserves_gets; apply _
  | |- preserves _ (lift _) => apply preserves_lift; apply _
  | |- preserves _ (try_except _ _) =>
      apply preserves_try_except; [apply _| |intros ?]
  | |- preserves _ (with_fp _ _) => apply preserves_try_finally; [apply _| |]
  | |- preserves _ (try_finally _ _) =>
      apply preserves_try_finally; [apply _| |]
  | |- preserves _ (match ?x with _ => _ end) => destruct x
  end.

Lemma preserves_weaken {A} (R1 R2 : relation world) (m : M A) :
  (∀ w w', R1 w w' → R2 w w') → preserves R1 m → preserves R2 m.
Proof. intros HR Hm w. apply HR, Hm. Qed.

Lemma same_heap_rel Q `{!Reflexive Q} w w' :
  same w_heap w w' → heap_rel Q w w'.
Proof. unfold same. intros Hh i r Hr. exists r. by rewrite Hh. Qed.

Lemma preserves_heap_alloc Q `{!Reflexive Q} r :
  preserves (heap_rel Q) (alloc_report r).
Proof.
  intros w i r0 Hr. exists r0. split; [|done].
  simpl. by apply lookup_app_l_Some.
Qed.

Lemma preserves_heap_update Q `{!Reflexive Q} self f :
  (∀ r, Q r (f r)) → preserves (heap_rel Q) (update_report self f).
Proof.
  intros Hf w i r Hr. simpl.
  destruct (decide (i = self)) as [->|Hne].
  - exists (f r). split; [|done].
    rewrite list_lookup_alter_eq. by rewrite Hr.
  - exists r. split; [|done]. by rewrite list_lookup_alter_ne.
Qed.

(** Settles a primitive effect that does not touch the component. *)
Ltac pres_prim :=
  let w := fresh "w" in
  intros w;
  unfold same, same_tl, get_report, update_report, fd_write, fd_read,
    fd_close,
    open_file, alloc_report, time_time, emit_signal, log_debug, log_exception,
    emit, run_in_bg, modify, listdir, makedirs;
  simpl; repeat case_match; simpl; rewrite ?length_alter; done.

Ltac pres_heap_prim :=
  first
    [ apply preserves_heap_alloc; apply _
    | apply preserves_heap_update; [apply _|intros ?; done]
    | eapply preserves_weaken; [apply same_heap_rel; apply _|pres_prim] ].

#[global] Instance kind_kept_preorder : PreOrder kind_kept.
Proof.
  split; [by intros x v|]. unfold kind_kept. intros x y z ?? v ?. eauto.
Qed.

Lemma same_but_pr_kind_kept r r' : same_but_pr r r' → kind_kept r r'.
Proof. intros (_ & _ & _ & Hm) v. unfold meta_kind. by rewrite Hm. Qed.

#[global] Instance scan_rel_preorder : PreOrder scan_rel.
Proof.
  split.
  - intros w. unfold scan_rel. split_and!; done.
  - intros x y z (F1 & D1 & T1 & N1 & L1 & C1 & B1 & K1 & P1)
      (F2 & D2 & T2 & N2 & L2 & C2 & B2 & K2 & P2).
    unfold scan_rel. split_and!; try congruence.
    + lia.
    + intros fd Hfd. rewrite K2 by lia. by apply K1.
    + intros i r Hr. by apply P2, P1.
Qed.

Lemma first_error_unique {A} (P : A → Prop) pre bad post pre' bad' post' :
  pre ++ bad :: post = pre' ++ bad' :: post' →
  Forall P pre → ¬ P bad → Forall P pre' → ¬ P bad' →
  pre = pre' ∧ bad = bad' ∧ post = post'.
Proof.
  revert pre'. induction pre as [|x pre IH]; intros [|y pre'] Heq Hp Hb Hp' Hb';
    simplify_eq/=.
  - done.
  - by apply Forall_cons_1 in Hp' as [? _].
  - by apply Forall_cons_1 in Hp as [? _].
  - apply Forall_cons_1 in Hp as [_ Hp]. apply Forall_cons_1 in Hp' as [_ Hp'].
    destruct (IH pre' H0 Hp Hb Hp' Hb') as (-> & -> & ->). done.
Qed.

(** *** Paths *)

Lemma str_contains_startswith c s :
  str_contains c s = false → startswith_chr c s = false.
Proof. destruct s as [|a s]; simpl; [done|]. by destruct (chr_eqb a c). Qed.

Lemma str_app_nil_r (s : string) : s +:+ EmptyString = s.
Proof. induction s as [|a s IH]; [done|]. unfold String.app in *. simpl. by f_equal. Qed.

Lemma str_app_assoc (s t u : string) : (s +:+ t) +:+ u = s +:+ (t +:+ u).
Proof.
  induction s as [|a s IH]; [done|]. unfold String.app in *. simpl.
  by f_equal.
Qed.

Lemma join_no_slash d f :
  startswith_chr "/" f = false → join d f = join d EmptyString +:+ f.
Proof.
  intros Hf. unfold join. rewrite Hf. simpl.
  destruct (bool_decide (d = EmptyString) || endswith_chr "/" d).
  - by rewrite str_app_nil_r.
  - by rewrite str_app_assoc.
Qed.

Lemma join_inj d f f' :
  startswith_chr "/" f = false → startswith_chr "/" f' = false →
  join d f = join d f' → f = f'.
Proof.
  intros Hf Hf'.
  rewrite (join_no_slash d f), (join_no_slash d f') by done.
  apply (inj (String.app _)).
Qed.

Lemma rfind_app_no c s t :
  str_contains c t = false → rfind c (s +:+ t) = rfind c s.
Proof.
  intros Ht. induction s as [|a s IH].
  - change (EmptyString +:+ t) with t. simpl.
    induction t as [|b t IHt]; simpl in *; [done|].
    destruct (chr_eqb b c); [done|]. simpl in Ht. by rewrite IHt.
  - change (String a s +:+ t) with (String a (s +:+ t)). simpl.
    by rewrite IH.
Qed.

Lemma rfind_ends c s :
  rfind c (s +:+ String c EmptyString) = Z.of_nat (String.length s).
Proof.
  induction s as [|a s IH].
  - change (EmptyString +:+ String c EmptyString) with (String c EmptyString).
    simpl. unfold chr_eqb. by rewrite Ascii.eqb_refl.
  - change (String a s +:+ String c EmptyString)
      with (String a (s +:+ String c EmptyString)).
    simpl rfind. rewrite IH.
    destruct (0 <=? Z.of_nat (String.length s))%Z eqn:Hle; [simpl; lia|].
    apply Z.leb_gt in Hle. lia.
Qed.

Lemma str_drop_app s t : str_drop (String.length s) (s +:+ t) = t.
Proof.
  induction s as [|a s IH]; [by destruct t|].
  change (String a s +:+ t) with (String a (s +:+ t)). by simpl.
Qed.

Lemma str_length_app s t :
  String.length (s +:+ t) = String.length s + String.length t.
Proof.
  induction s as [|a s IH]; [done|].
  change (String a s +:+ t) with (String a (s +:+ t)). simpl. by rewrite IH.
Qed.

Lemma endswith_chr_split c s :
  endswith_chr c s = true → ∃ x, s = x +:+ String c EmptyString.
Proof.
  induction s as [|a s IH]; [done|]. simpl. destruct s as [|b s].
  - unfold chr_eqb. intros ->%Ascii.eqb_eq. by exists EmptyString.
  - intros Hs. destruct (IH Hs) as [x Hx]. exists (String a x).
    rewrite Hx. reflexivity.
Qed.

Lemma basename_slash x f :
  str_contains "/" f = false → basename ((x +:+ "/") +:+ f) = f.
Proof.
  intros Hf. unfold basename. rewrite rfind_app_no by done.
  rewrite rfind_ends.
  replace (Z.to_nat (Z.of_nat (String.length x) + 1))
    with (String.length (x +:+ "/")) by (rewrite str_length_app; simpl; lia).
  apply str_drop_app.
Qed.

Lemma basename_join d f :
  str_contains "/" f = false → basename (join d f) = f.
Proof.
  intros Hf. unfold join.
  rewrite (str_contains_startswith _ _ Hf).
  destruct (decide (d = EmptyString)) as [->|Hd].
  - simpl. change (EmptyString +:+ f) with f.
    pose proof (rfind_app_no "/" EmptyString f Hf) as Hr.
    change (EmptyString +:+ f) with f in Hr.
    unfold basename. rewrite Hr. by destruct f.
  - rewrite bool_decide_eq_false_2 by done. simpl.
    destruct (endswith_chr "/" d) eqn:He.
    + destruct (endswith_chr_split _ _ He) as [x ->].
      by apply basename_slash.
    + rewrite <- str_app_assoc. by apply basename_slash.
Qed.

(** *** The order of the scan *)

#[global] Instance flip_str_le_total : Total (flip String.le).
Proof. intros x y. unfold flip. destruct (total String.le x y); auto. Qed.

#[global] Instance flip_str_le_antisymm : AntiSymm (=) (flip String.le).
Proof. intros x y ??. unfold flip in *. by apply (anti_symm String.le). Qed.



Lemma StronglySorted_filter {A} (R : relation A) (P : A → Prop)
    `{∀ x, Decision (P x)} (l : list A) :
  StronglySorted R l → StronglySorted R (filter P l).
Proof.
  induction 1 as [|x l Hl IH Hx]; [constructor|].
  destruct (decide (P x)).
  - rewrite filter_cons_True by done. constructor; [done|].
    apply Forall_forall. intros y [_ Hy]%list_elem_of_filter.
    by eapply Forall_forall in Hx.
  - by rewrite filter_cons_False.
Qed.


Lemma str_strip_prefix_Some pre s n :
  str_strip_prefix pre s = Some n → s = pre +:+ n.
Proof.
  revert s. induction pre as [|a pre IH]; intros [|b s]; simpl; try done.
  - intros [= <-]. reflexivity.
  - intros [= <-]. reflexivity.
  - unfold chr_eqb. destruct (Ascii.eqb_spec a b) as [->|]; [|done].
    intros Hs. rewrite (IH _ Hs). reflexivity.
Qed.

Lemma dir_entry_Some d p n :
  dir_entry d p = Some n →
  str_contains "/" n = false ∧ n ≠ EmptyString ∧ p = join d n.
Proof.
  unfold dir_entry.
  destruct (str_strip_prefix (join d EmptyString) p) as [n'|] eqn:Hp; [|done].
  destruct (bool_decide (n' = EmptyString)) eqn:Hn; [done|].
  destruct (str_contains "/" n') eqn:Hs; [done|]. simpl.
  intros [= <-]. apply bool_decide_eq_false in Hn. split_and!; try done.
  rewrite (join_no_slash d n') by by apply str_contains_startswith.
  by apply str_strip_prefix_Some.
Qed.

Lemma listdir_names_spec files d n :
  n ∈ listdir_names files d →
  str_contains "/" n = false ∧ is_Some (files !! join d n).
Proof.
  unfold listdir_names. intros (p & Hp & Hn)%list_elem_of_omap.
  apply list_elem_of_fmap in Hp as ([p' c] & -> & Hpc).
  apply elem_of_map_to_list in Hpc. simpl in *.
  apply dir_entry_Some in Hn as (Hs & _ & ->). eauto.
Qed.

#[global] Instance same_base_preorder : PreOrder same_base.
Proof. split; [done|]. unfold same_base. intros x y z ??. congruence. Qed.

#[global] Instance same_tl_preorder : PreOrder same_tl.
Proof.
  split; [done|]. unfold same_tl. intros x y z (?&?&?) (?&?&?).
  split_and!; congruence.
Qed.

#[global] Instance load_frame_preorder : PreOrder load_frame.
Proof.
  split.
  - intros w Hwf. done.
  - intros x y z Hxy Hyz Hwf.
    destruct (Hxy Hwf) as (Hwf1 & Ht1 & He1).
    destruct (Hyz Hwf1) as (Hwf2 & Ht2 & He2).
    split_and!; [done|congruence..].
Qed.

Lemma same_tl_load_frame w w' : same_tl w w' → load_frame w w'.
Proof.
  intros (Ht & Hn & Hl) Hwf. unfold tasks_wf, load_tasks, load_events.
  rewrite Ht, Hn, Hl. done.
Qed.

Lemma emit_load_frame e :
  is_load_event e = false → preserves load_frame (emit e).
Proof.
  intros He w Hwf. unfold emit, modify. simpl. split_and!; try done.
  unfold load_events. simpl. rewrite filter_app.
  rewrite (filter_cons_False _ e) by (by rewrite He).
  by rewrite filter_nil, app_nil_r.
Qed.

Lemma submit_tasks_wf t w :
  paired t → tasks_wf w → tasks_wf (submit t w).
Proof.
  intros Hp Hwf tid t' Ht. unfold submit in *. simpl in *.
  apply lookup_insert_Some in Ht as [[<- <-]|[Hne Ht]].
  - split; [lia|done].
  - destruct (Hwf tid t' Ht). split; [lia|done].
Qed.

Lemma tasks_wf_fresh w : tasks_wf w → w_tasks w !! w_next_task w = None.
Proof.
  intros Hwf. destruct (w_tasks w !! w_next_task w) as [t|] eqn:Ht; [|done].
  destruct (Hwf _ _ Ht). lia.
Qed.

Lemma run_in_bg_load_frame self hook cb :
  paired (mkTask (WAddInfo self hook) cb None) →
  preserves load_frame (run_in_bg (WAddInfo self hook) cb).
Proof.
  intros Hp w Hwf. simpl. split_and!.
  - by apply (submit_tasks_wf (mkTask (WAddInfo self hook) cb None)).
  - unfold load_tasks. simpl.
    rewrite map_filter_insert_False by (simpl; done).
    rewrite delete_id by by apply tasks_wf_fresh. done.
  - done.
Qed.

(** Settles a primitive effect with respect to [load_frame]. *)
Ltac frame_leaf :=
  first
    [ apply run_in_bg_load_frame; exact I
    | apply emit_load_frame; reflexivity
    | eapply preserves_weaken; [apply same_tl_load_frame|pres_prim] ].

#[global] Instance same_meta_preorder : PreOrder same_meta.
Proof.
  split; [done|]. unfold same_meta. intros x y z [??] [??].
  split; congruence.
Qed.

#[global] Instance meta_files_frame_preorder : PreOrder meta_files_frame.
Proof.
  split.
  - intros w Hw. done.
  - intros x y z Hxy Hyz Hx.
    destruct (Hxy Hx) as [Hy Hf1]. destruct (Hyz Hy) as [Hz Hf2].
    split; [done|]. intros p Hp. rewrite Hf2, Hf1; done.
Qed.


Lemma str_last_app s t :
  t ≠ EmptyString → str_last (s +:+ t) = str_last t.
Proof.
  intros Ht. induction s as [|a s IH]; [done|].
  change (String a s +:+ t) with (String a (s +:+ t)). simpl.
  rewrite IH. destruct (s +:+ t) eqn:Hst; [|done].
  destruct s; [|done]. by destruct t.
Qed.

Lemma str_last_join d f :
  f ≠ EmptyString → str_last (join d f) = str_last f.
Proof.
  intros Hf. unfold join. destruct (startswith_chr "/" f); [done|].
  destruct (bool_decide (d = EmptyString) || endswith_chr "/" d).
  - by apply str_last_app.
  - rewrite str_last_app; [by apply str_last_app|]. by destruct f.
Qed.




Section Properties.
Context `{Externals}.

(** The methods, unfolded one level. *)
Ltac unfold_ops :=
  unfold set_meta, mark_seen, new, from_file, pr_step, pr_setitem,
    pr_delitem, _bg_add_info, close_file, added_info, add_info, _bg_load,
    load, _report_loaded, call_thunk, loaded, create_report, run_work,
    run_callback, scan_crash_dir, start.

Ltac pres := repeat first [pres_step | progress unfold_ops].

(** The same, with [leaf] tried on each call before it is unfolded. *)
Ltac pres_with leaf :=
  repeat first [pres_step | leaf | progress unfold_ops].

Lemma _bg_add_info_fds self hook :
  preserves (same w_fds) (_bg_add_info self hook).
Proof. pres; pres_prim. Qed.

Lemma _bg_add_info_log self hook :
  preserves (same w_log) (_bg_add_info self hook).
Proof. pres; pres_prim. Qed.

Lemma _bg_add_info_tasks self hook :
  preserves (same w_tasks) (_bg_add_info self hook).
Proof. pres; pres_prim. Qed.


Lemma _bg_add_info_ctl self hook :
  preserves (same w_ctl) (_bg_add_info self hook).
Proof. pres; pres_prim. Qed.

Lemma _bg_add_info_heap self hook :
  preserves (heap_rel same_but_pr) (_bg_add_info self hook).
Proof. pres; pres_heap_prim. Qed.

Lemma kind_of_name_kind_name (k : ErrorReportKind) :
  kind_of_name (kind_name k) = Some k.
Proof. by destruct k. Qed.

Lemma str_app_empty_l (s : string) : EmptyString +:+ s = s.
Proof. done. Qed.

(** *** What [set_meta] does, case by case *)

Lemma set_meta_no_report self key value w :
  w_heap w !! self = None →
  set_meta self key value w = (Raise ReferenceError, w).
Proof.
  intros Hr. unfold set_meta, get_report.
  unfold mbind, M_bind. by rewrite Hr.
Qed.

Lemma set_meta_not_dict self key value w r :
  w_heap w !! self = Some r → (∀ d, meta r ≠ JObj d) →
  set_meta self key value w = (Raise TypeError, w).
Proof.
  intros Hr Hm. unfold set_meta, get_report, lift.
  unfold mbind, M_bind. rewrite Hr.
  destruct (meta r); simpl; try done. by destruct (Hm d).
Qed.

Lemma set_meta_dict self key value w r d :
  w_heap w !! self = Some r → meta r = JObj d →
  set_meta self key value w =
    let m := JObj (<[key := value]> d) in
    let mp := meta_path (w_ctl w) r in
    let fd := w_next_fd w in
    let w1 := with_heap (alter (with_meta m) self (w_heap w)) w in
    if w_deny w WT mp then (Raise PermissionError, w1)
    else
      (Ok tt,
       with_fds (delete fd (<[fd := (mp, WT)]> (w_fds w))) (S fd)
         (with_files (<[mp := json_dumps m]> (w_files w)) w1)).
Proof.
  intros Hr Hm. unfold set_meta, get_report, lift, update_report, gets,
    modify, open_file, with_fp, try_finally, fd_write, fd_close.
  unfold mbind, M_bind. rewrite Hr, Hm. simpl.
  destruct (w_deny w WT (meta_path (w_ctl w) r)); [done|].
  simpl. rewrite lookup_insert_eq. simpl.
  rewrite lookup_insert_eq. simpl. by rewrite insert_insert_eq.
Qed.

Lemma alter_app_last {A} (f : A → A) (l : list A) (x : A) :
  alter f (length l) (l ++ [x]) = l ++ [f x].
Proof. induction l; simpl; [done|]. by f_equal. Qed.

(** *** What [new] and [create_report] do *)

Lemma new_eq kind0 w :
  new kind0 w =
    let rep := new_report kind0 w in
    let cp := path (w_ctl w) rep in
    let mp := meta_path (w_ctl w) rep in
    let fd := w_next_fd w in
    let wa := with_clock_reads (S (w_clock_reads w)) w in
    let wb :=
      with_heap (w_heap w ++ [rep])
        (with_fds (<[fd := (cp, WB)]> (w_fds w)) (S fd)
           (with_files (<[cp := EmptyString]> (w_files w)) wa)) in
    if w_deny w WB cp then (Raise PermissionError, wa)
    else if w_deny w WT mp then (Raise PermissionError, wb)
    else
      (Ok (length (w_heap w)),
       with_fds (delete (S fd) (<[S fd := (mp, WT)]> (w_fds wb))) (S (S fd))
         (with_files (<[mp := json_dumps (meta rep)]> (w_files wb)) wb)).
Proof.
  unfold new, time_time, gets, open_file, alloc_report.
  unfold mbind at 1 2 3 4, M_bind. simpl.
  unfold path, meta_path, _path_with_ext, new_report, new_base. simpl.
  change ("." +:+ "crash") with ".crash".
  change ("." +:+ "meta") with ".meta".
  match goal with |- context [w_deny w WB ?p] => destruct (w_deny w WB p) end;
    [done|].
  simpl. unfold mbind, M_bind.
  erewrite set_meta_dict; [|by apply list_lookup_middle|done].
  simpl. unfold meta_path, _path_with_ext. simpl.
  change ("." +:+ "meta") with ".meta".
  match goal with |- context [w_deny w WT ?p] => destruct (w_deny w WT p) end.
  - f_equal. world_eq. apply (alter_app_last (with_meta _)).
  - unfold mret, M_ret. f_equal. world_eq.
    apply (alter_app_last (with_meta _)).
Qed.

(** *** What [from_file] does *)

Lemma from_file_eq fpath w :
  from_file fpath w =
    let rep := loading_report fpath w in
    let mp := meta_path (w_ctl w) rep in
    let fd := w_next_fd w in
    let w1 :=
      with_heap (w_heap w ++ [rep])
        (with_fds (<[fd := (fpath, RB)]> (w_fds w)) (S fd) w) in
    let w2 :=
      with_fds (delete (S fd) (<[S fd := (mp, RT)]> (w_fds w1))) (S (S fd))
        w1 in
    match w_files w !! fpath with
    | None => (Raise FileNotFoundError, w)
    | Some _ =>
        if w_deny w RB fpath then (Raise PermissionError, w)
        else
          match w_files w !! mp with
          | None => (Ok (length (w_heap w)), w1)
          | Some text =>
              if w_deny w RT mp then (Raise PermissionError, w1)
              else
                match json_loads text with
                | Some j =>
                    (Ok (length (w_heap w)),
                     with_heap (w_heap w ++ [with_meta j rep]) w2)
                | None => (Raise JSONDecodeError, w2)
                end
          end
    end.
Proof.
  unfold from_file, open_file, alloc_report, gets, get_report, try_except,
    with_fp, try_finally, fd_read, fd_close, update_report, modify, raise.
  unfold mbind, M_bind, mret, M_ret. simpl.
  destruct (w_files w !! fpath) as [c|]; [|done].
  destruct (w_deny w RB fpath) eqn:Hdeny; [done|].
  simpl. rewrite list_lookup_middle by done. simpl.
  fold (loading_report fpath w).
  destruct (w_files w !! meta_path (w_ctl w) (loading_report fpath w))
    as [text|] eqn:Hmp; simpl; [|done].
  destruct (w_deny w RT _); simpl; [done|].
  rewrite lookup_insert_eq. simpl. rewrite Hmp. simpl.
  destruct (json_loads text) as [j|]; simpl.
  - f_equal. world_eq. apply (alter_app_last (with_meta _)).
  - f_equal.
Qed.

Lemma create_report_eq kind0 w :
  create_report kind0 w =
    match new kind0 w with
    | (Ok r, w1) =>
        (Ok r, with_ctl (with_reports (r :: reports (w_ctl w1)) (w_ctl w1)) w1)
    | (Raise e, w1) => (Raise e, w1)
    end.
Proof.
  unfold create_report, modify. unfold mbind, M_bind.
  by destruct (new kind0 w) as [[r|e] w1].
Qed.

(** [create_report] returns whenever the system lets it create the two
    files of the report. *)
Lemma create_report_returns kind0 w :
  w_deny w WB (path (w_ctl w) (new_report kind0 w)) = false →
  w_deny w WT (meta_path (w_ctl w) (new_report kind0 w)) = false →
  ∃ w', create_report kind0 w = (Ok (length (w_heap w)), w').
Proof.
  intros H1 H2. rewrite create_report_eq, new_eq. simpl.
  rewrite H1, H2. eauto.
Qed.

(** C1. For every kind, when [create_report kind] returns a report, that
    report is in state [INCOMPLETE], its [kind] property is that kind, and
    it is the first element of the reports of the controller. *)
Theorem create_report_incomplete_kind_first (kind0 : ErrorReportKind)
    (w w' : world) (r : nat) :
  create_report kind0 w = (Ok r, w') →
  ∃ rep, w_heap w' !! r = Some rep ∧ state rep = INCOMPLETE ∧
         kind rep = Ok (PyKind kind0) ∧
         reports (w_ctl w') !! 0%nat = Some r.
Proof.
  rewrite create_report_eq, new_eq. simpl.
  destruct (w_deny w WB _); [done|].
  destruct (w_deny w WT _); [done|].
  intros [= <- <-]; simpl.
  exists (new_report kind0 w). split_and!; try done.
  - by apply list_lookup_middle.
  - unfold kind, dict_get, new_report. cbn [meta].
    rewrite lookup_insert_eq. unfold default, from_option, id.
    unfold getattr_ErrorReportKind. by rewrite kind_of_name_kind_name.
Qed.

Lemma kind_empty_meta (rep : ErrorReport) :
  meta rep = JObj ∅ → kind rep = Ok (PyKind UNKNOWN).
Proof. unfold kind. by intros ->. Qed.

(** C7. For every artifact path that can be read and whose metadata file
    does not exist, [from_file] returns a report whose [meta] is empty,
    whose state is [LOADING] and whose [kind] property is [UNKNOWN]. *)
Theorem from_file_without_metadata (fpath : string) (w : world) :
  is_Some (w_files w !! fpath) →
  w_deny w RB fpath = false →
  w_files w !! meta_path (w_ctl w) (loading_report fpath w) = None →
  ∃ r w' rep,
    from_file fpath w = (Ok r, w') ∧
    w_heap w' !! r = Some rep ∧
    meta rep = JObj ∅ ∧ state rep = LOADING ∧
    kind rep = Ok (PyKind UNKNOWN).
Proof.
  intros [c Hc] Hd Hm. rewrite from_file_eq. simpl. rewrite Hc, Hd, Hm.
  eexists _, _, (loading_report fpath w). split_and!; try done.
  simpl. by apply list_lookup_middle.
Qed.

(** *** [add_info], its work and its completion *)

Lemma add_info_eq self hook wait w r :
  w_heap w !! self = Some r →
  add_info self hook wait w =
    let w1 :=
      with_log
        (w_log w ++ [LogDebug "begin adding info for report %s" (base r)]) w in
    if wait then _bg_add_info self hook w1
    else
      (Ok tt,
       with_tasks (<[w_next_task w := add_info_task self hook]> (w_tasks w))
         (S (w_next_task w)) w1).
Proof.
  intros Hr. unfold add_info, get_report, log_debug, emit, modify, run_in_bg.
  unfold mbind, M_bind. rewrite Hr. simpl. by destruct wait.
Qed.

Lemma added_info_eq self fut w r fd :
  w_heap w !! self = Some r → _file r = Some fd →
  added_info self fut w =
    (Ok tt,
     completed self fd (added_state fut) (added_events self (base r) fut) w).
Proof.
  intros Hr Hf.
  unfold added_info, close_file, get_report, log_debug, log_exception,
    emit_signal, emit, update_report, fd_close, modify.
  unfold mbind, M_bind. rewrite Hr. simpl.
  destruct fut as [[]|e]; simpl; rewrite list_lookup_alter_eq, Hr; simpl;
    rewrite Hf; simpl; f_equal; unfold completed; world_eq;
    rewrite ?list_alter_alter_eq, <- ?(assoc_L (++)); done.
Qed.

Lemma bg_run_eq tid w f cb :
  w_tasks w !! tid = Some (mkTask f cb None) →
  bg_run tid w =
    (Ok tt,
     with_tasks
       (<[tid := mkTask f cb (Some (run_work f w).1)]>
          (w_tasks (run_work f w).2))
       (w_next_task (run_work f w).2) (run_work f w).2).
Proof.
  intros Ht. unfold bg_run. rewrite Ht. by destruct (run_work f w).
Qed.

Lemma bg_deliver_eq tid w f cb fut :
  w_tasks w !! tid = Some (mkTask f cb (Some fut)) →
  bg_deliver tid w =
    run_callback cb fut
      (with_tasks (delete tid (w_tasks w)) (w_next_task w) w).
Proof. intros Ht. unfold bg_deliver. by rewrite Ht. Qed.

(** A failure of the hook is a failure of the work. *)
Lemma _bg_add_info_hook_fails self hook w r e :
  w_heap w !! self = Some r → hook (pr r) = Raise e →
  _bg_add_info self hook w = (Raise e, w).
Proof.
  intros Hr Hh. unfold _bg_add_info, pr_step, get_report, lift.
  unfold mbind, M_bind. by rewrite Hr, Hh.
Qed.

(** The background run of [add_info], from the call to the delivery of the
    outcome [fut] of the work. *)
Lemma add_info_background self hook w r fd :
  w_heap w !! self = Some r → _file r = Some fd →
  let tid := w_next_task w in
  let w1 := (add_info self hook false w).2 in
  let fut := (run_work (WAddInfo self hook) w1).1 in
  let w2 := run [AAddInfo self hook false; ABgRun tid] w in
  let w3 := run [AAddInfo self hook false; ABgRun tid; ABgDeliver tid] w in
  (add_info self hook false w).1 = Ok tt ∧
  (bg_run tid w1).1 = Ok tt ∧
  (bg_deliver tid w2).1 = Ok tt ∧
  (∃ r3, w_heap w3 !! self = Some r3 ∧ state r3 = added_state fut ∧
         _file r3 = None ∧ meta r3 = meta r ∧ base r3 = base r) ∧
  w_fds w3 = delete fd (w_fds w) ∧
  w_tasks w3 = delete tid (w_tasks w) ∧
  w_log w3 =
    w_log w ++ LogDebug "begin adding info for report %s" (base r) ::
               added_events self (base r) fut.
Proof.
  intros Hr Hf tid w1 fut w2 w3.
  assert (Hadd : add_info self hook false w =
                 (Ok tt,
                  with_tasks
                    (<[tid := add_info_task self hook]> (w_tasks w)) (S tid)
                    (with_log
                       (w_log w ++
                          [LogDebug "begin adding info for report %s" (base r)])
                       w))) by by rewrite (add_info_eq _ _ _ _ r).
  assert (Hw1 : w1 = (add_info self hook false w).2) by done.
  rewrite Hadd in Hw1. simpl in Hw1.
  assert (Ht1 : w_tasks w1 !! tid = Some (add_info_task self hook))
    by (rewrite Hw1; simpl; apply lookup_insert_eq).
  pose proof (bg_run_eq tid w1 _ _ Ht1) as Hrun.
  set (wk := (run_work (WAddInfo self hook) w1).2) in *.
  assert (Hfds : w_fds wk = w_fds w1) by apply _bg_add_info_fds.
  assert (Hlog : w_log wk = w_log w1) by apply _bg_add_info_log.
  assert (Htasks : w_tasks wk = w_tasks w1) by apply _bg_add_info_tasks.
  assert (Hr1 : w_heap w1 !! self = Some r) by by rewrite Hw1.
  destruct (_bg_add_info_heap self hook w1 self r Hr1)
    as (rk & Hrk & Hb & Hs & Hfile & Hm).
  fold (run_work (WAddInfo self hook)) in Hrk. fold wk in Hrk.
  assert (Hw2 : w2 = (bg_run tid w1).2) by done.
  rewrite Hrun in Hw2. simpl in Hw2. fold fut in Hw2.
  assert (Ht2 : w_tasks w2 !! tid =
                Some (mkTask (WAddInfo self hook) (CbAddedInfo self)
                        (Some fut)))
    by (rewrite Hw2; simpl; apply lookup_insert_eq).
  pose proof (bg_deliver_eq tid w2 _ _ _ Ht2) as Hdel. simpl in Hdel.
  rewrite (added_info_eq self fut _ rk fd) in Hdel;
    [|by rewrite Hw2|congruence].
  assert (Hw3 : w3 = (bg_deliver tid w2).2) by done.
  rewrite Hdel in Hw3. simpl in Hw3.
  split_and!.
  - by rewrite Hadd.
  - by rewrite Hrun.
  - by rewrite Hdel.
  - exists (finished (added_state fut) rk). rewrite Hw3. simpl.
    rewrite Hw2. simpl. rewrite list_lookup_alter_eq, Hrk. done.
  - rewrite Hw3. simpl. rewrite Hw2. simpl. rewrite Hfds, Hw1. done.
  - rewrite Hw3. simpl. rewrite Hw2. simpl. rewrite delete_insert_eq.
    rewrite Htasks, Hw1. simpl. by rewrite delete_insert_eq.
  - rewrite Hw3. simpl. rewrite Hw2. simpl. rewrite Hlog, Hw1. simpl.
    rewrite Hb. by rewrite <- (assoc_L (++)).
Qed.

(** C2, amended. For every report that holds its open file, when
    [add_info] is called with [wait=False] and the work, run by the
    background runner, meets no failure, the delivery of the outcome leaves
    the report in state [DONE], its file closed and [_file] set to [None],
    and one ["changed"] signal emitted. *)
Theorem add_info_background_done (self : nat) (hook : hook_t) (w : world)
    (r : ErrorReport) (fd : nat) :
  w_heap w !! self = Some r → _file r = Some fd →
  let tid := w_next_task w in
  (run_work (WAddInfo self hook) (add_info self hook false w).2).1 = Ok tt →
  let w3 := run [AAddInfo self hook false; ABgRun tid; ABgDeliver tid] w in
  (∃ r3, w_heap w3 !! self = Some r3 ∧ state r3 = DONE ∧ _file r3 = None) ∧
  w_fds w3 !! fd = None ∧
  w_log w3 =
    w_log w ++ [LogDebug "begin adding info for report %s" (base r);
                LogDebug "done adding info for report %s" (base r);
                Signal self "changed"].
Proof.
  intros Hr Hf tid Hok w3.
  destruct (add_info_background self hook w r fd Hr Hf)
    as (_ & _ & _ & (r3 & Hr3 & Hs & Hn & _) & Hfds & _ & Hlog).
  rewrite Hok in Hs, Hlog. split_and!.
  - by exists r3.
  - unfold w3, tid. rewrite Hfds. apply lookup_delete_eq.
  - done.
Qed.


(** *** [meta["kind"]] stays *)

Lemma set_meta_kind_kept self key value :
  key ≠ "kind" → preserves (heap_rel kind_kept) (set_meta self key value).
Proof.
  intros Hk w i r Hr.
  destruct (w_heap w !! self) as [r0|] eqn:Hself.
  2: { rewrite set_meta_no_report by done. by exists r. }
  destruct (meta r0) as [| | | | |d] eqn:Hm.
  1-5: rewrite (set_meta_not_dict _ _ _ _ r0) by (done || congruence);
       by exists r.
  rewrite (set_meta_dict _ _ _ _ r0 d) by done. simpl.
  assert (∃ r', alter (with_meta (JObj (<[key:=value]> d))) self (w_heap w)
                  !! i = Some r' ∧ kind_kept r r') as Hgoal.
  { destruct (decide (self = i)) as [->|Hne].
    - rewrite list_lookup_alter_eq, Hr. eexists; split; [done|].
      intros v. unfold meta_kind. simplify_eq. rewrite Hm. simpl.
      by rewrite lookup_insert_ne.
    - rewrite list_lookup_alter_ne by done. by exists r. }
  by destruct (w_deny w WT _).
Qed.

Lemma new_kind_kept kind0 : preserves (heap_rel kind_kept) (new kind0).
Proof.
  intros w i r Hr. rewrite new_eq. simpl.
  exists r. split; [|done].
  destruct (w_deny w WB _); [done|].
  destruct (w_deny w WT _); simpl; by apply lookup_app_l_Some.
Qed.

Lemma from_file_kind_kept fpath :
  preserves (heap_rel kind_kept) (from_file fpath).
Proof.
  intros w i r Hr. rewrite from_file_eq. simpl.
  exists r. split; [|done].
  repeat case_match; simpl; try done; by apply lookup_app_l_Some.
Qed.

Ltac kind_leaf :=
  first
    [ apply new_kind_kept
    | apply from_file_kind_kept
    | apply set_meta_kind_kept; done
    | apply preserves_heap_alloc; apply _
    | apply preserves_heap_update;
        [apply _|intros ???; done]
    | eapply preserves_weaken; [apply same_heap_rel; apply _|pres_prim] ].

Lemma scan_loop_kind_kept filenames to_load :
  preserves (heap_rel kind_kept) (scan_loop filenames to_load).
Proof.
  revert to_load. induction filenames as [|f fs IH]; intros to_load; simpl.
  - pres_with kind_leaf.
  - destruct (splitext f) as [b ext]. case_bool_decide; [apply IH|].
    pres_with kind_leaf. apply IH.
Qed.

Lemma run_work_kind_kept f : preserves (heap_rel kind_kept) (run_work f).
Proof. destruct f; pres_with kind_leaf. Qed.

Lemma run_callback_kind_kept cb fut :
  preserves (heap_rel kind_kept) (run_callback cb fut).
Proof. destruct cb as [self|self [to_load]]; pres_with kind_leaf. Qed.

Lemma exec_kind_kept a : preserves (heap_rel kind_kept) (exec a).
Proof.
  destruct a; simpl.
  - pres_with kind_leaf.
  - pres_with kind_leaf.
  - pres_with kind_leaf.
  - pres_with ltac:(first [apply scan_loop_kind_kept | kind_leaf]).
  - pres_with ltac:(first [apply scan_loop_kind_kept | kind_leaf]).
  - intros w. unfold bg_run.
    destruct (w_tasks w !! tid) as [[f cb [fut|]]|]; try done.
    pose proof (run_work_kind_kept f w) as Hw.
    by destruct (run_work f w).
  - intros w. unfold bg_deliver.
    destruct (w_tasks w !! tid) as [[f cb [fut|]]|]; try done.
    apply (run_callback_kind_kept cb fut
             (with_tasks (delete tid (w_tasks w)) (w_next_task w) w)).
Qed.

Lemma run_kind_kept acts w : heap_rel kind_kept w (run acts w).
Proof.
  revert w. induction acts as [|a acts IH]; intros w; simpl; [done|].
  etrans; [apply exec_kind_kept|apply IH].
Qed.

(** C9. For every report, once [meta["kind"]] has a value, that value
    stays through every sequence of operations of the core: creating
    reports, [add_info] in either mode, [mark_seen], the directory scan
    and the loads and completions of the background runner. *)
Theorem meta_kind_never_overwritten (acts : list action) (w : world)
    (self : nat) (r : ErrorReport) (v : json) :
  w_heap w !! self = Some r → meta_kind r = Some v →
  ∃ r', w_heap (run acts w) !! self = Some r' ∧ meta_kind r' = Some v.
Proof.
  intros Hr Hk. destruct (run_kind_kept acts w self r Hr) as (r' & Hr' & Hkk).
  exists r'. split; [done|]. by apply Hkk.
Qed.

(** *** The directory scan *)

Lemma artifact_error_scan_rel w w' fpath :
  scan_rel w w' → artifact_error w' fpath = artifact_error w fpath.
Proof.
  intros (F & D & _ & _ & _ & C & _).
  unfold artifact_error, meta_path, _path_with_ext, loading_report. simpl.
  by rewrite F, D, C.
Qed.

Lemma scanned_scan_rel w w' rid f :
  scan_rel w w' → scanned w rid f → scanned w' rid f.
Proof.
  intros (_ & _ & _ & _ & _ & C & B & K & P)
    (rep & fd & Hr & Hb & Hs & Hf & Hlt & Hfd).
  exists rep, fd. rewrite C. split_and!; try done.
  - by apply P.
  - lia.
  - by rewrite K.
Qed.

Lemma from_file_ok fpath w :
  artifact_error w fpath = None →
  ∃ w', from_file fpath w = (Ok (length (w_heap w)), w') ∧ scan_rel w w' ∧
        w_ctl w' = w_ctl w ∧
        ∃ rep, w_heap w' !! length (w_heap w) = Some rep ∧
               base rep = (splitext (basename fpath)).1 ∧
               state rep = LOADING ∧ _file rep = Some (w_next_fd w) ∧
               w_next_fd w < w_next_fd w' ∧
               w_fds w' !! w_next_fd w = Some (fpath, RB).
Proof.
  unfold artifact_error. rewrite from_file_eq. simpl.
  destruct (w_files w !! fpath) as [c|]; [|done].
  destruct (w_deny w RB fpath); [done|].
  destruct (w_files w !! meta_path _ _) as [text|].
  - destruct (w_deny w RT _); [done|].
    destruct (json_loads text) as [j|]; [|done]. intros _.
    eexists. split; [done|]. split_and!.
    + unfold scan_rel. simpl. split_and!; try done; try lia.
      * intros fd Hfd. rewrite delete_insert_eq.
        rewrite lookup_delete_ne by lia. by rewrite lookup_insert_ne by lia.
      * intros i r Hr. by apply lookup_app_l_Some.
    + done.
    + exists (with_meta j (loading_report fpath w)). simpl.
      split_and!; try done; try lia.
      * by apply list_lookup_middle.
      * rewrite lookup_delete_ne by lia. rewrite lookup_insert_ne by lia.
        apply lookup_insert_eq.
  - intros _. eexists. split; [done|]. split_and!.
    + unfold scan_rel. simpl. split_and!; try done; try lia.
      * intros fd Hfd. by rewrite lookup_insert_ne by lia.
      * intros i r Hr. by apply lookup_app_l_Some.
    + done.
    + exists (loading_report fpath w). simpl.
      split_and!; try done; try lia.
      * by apply list_lookup_middle.
      * apply lookup_insert_eq.
Qed.

Lemma from_file_error fpath w e :
  artifact_error w fpath = Some e →
  ∃ w', from_file fpath w = (Raise e, w') ∧ scan_rel w w' ∧
        w_ctl w' = w_ctl w.
Proof.
  unfold artifact_error. rewrite from_file_eq. simpl.
  destruct (w_files w !! fpath) as [c|].
  2: { intros [= <-]. by eexists. }
  destruct (w_deny w RB fpath).
  { intros [= <-]. by eexists. }
  destruct (w_files w !! meta_path _ _) as [text|]; [|done].
  destruct (w_deny w RT _).
  - intros [= <-]. eexists. split; [done|]. split; [|done].
    unfold scan_rel. simpl. split_and!; try done; try lia.
    + intros fd Hfd. by rewrite lookup_insert_ne by lia.
    + intros i r Hr. by apply lookup_app_l_Some.
  - destruct (json_loads text) as [j|]; [done|]. intros [= <-].
    eexists. split; [done|]. split; [|done].
    unfold scan_rel. simpl. split_and!; try done; try lia.
    + intros fd Hfd. rewrite delete_insert_eq.
      rewrite lookup_delete_ne by lia. by rewrite lookup_insert_ne by lia.
    + intros i r Hr. by apply lookup_app_l_Some.
Qed.

(** The loop of the scan: reports are built, in order, for the entries
    with the extension [.crash], up to the first one on which [from_file]
    fails. *)
Lemma scan_loop_spec filenames to_load w :
  ∃ rids pre res w',
    scan_loop filenames to_load w = (res, w') ∧ scan_rel w w' ∧
    reports (w_ctl w') = reports (w_ctl w) ++ rids ∧
    Forall2 (scanned w') rids pre ∧
    Forall (λ f, artifact_error w (join (crash_directory (w_ctl w)) f) = None)
      pre ∧
    match res with
    | Ok l => l = to_load ++ rids ∧
              pre = filter (λ f, is_crash f = true) filenames
    | Raise e =>
        ∃ bad post,
          filter (λ f, is_crash f = true) filenames = pre ++ bad :: post ∧
          artifact_error w (join (crash_directory (w_ctl w)) bad) = Some e
    end.
Proof.
  revert to_load w.
  induction filenames as [|f fs IH]; intros to_load w; simpl.
  { exists [], [], (Ok to_load), w. rewrite app_nil_r.
    split_and!; try done; by rewrite ?app_nil_r. }
  destruct (splitext f) as [b ext] eqn:Hsplit.
  assert (Hcrash : is_crash f = bool_decide (ext = ".crash"))
    by (unfold is_crash; by rewrite Hsplit).
  destruct (decide (ext = ".crash")) as [Hext|Hext].
  2: { rewrite bool_decide_eq_true_2 by done.
       destruct (IH to_load w) as (rids & pre & res & w' & IH').
       exists rids, pre, res, w'.
       rewrite filter_cons_False; [done|].
       rewrite Hcrash. by rewrite bool_decide_eq_false_2. }
  rewrite bool_decide_eq_false_2 by (by intros ?).
  assert (Hf : is_crash f = true)
    by (rewrite Hcrash; by apply bool_decide_eq_true_2).
  rewrite filter_cons_True by done.
  unfold mbind at 1, M_bind, gets.
  unfold mbind at 1, M_bind.
  destruct (artifact_error w (join (crash_directory (w_ctl w)) f))
    as [e|] eqn:Herr.
  - destruct (from_file_error _ _ _ Herr) as (w1 & Hff & Hrel & Hctl).
    rewrite Hff. exists [], [], (Raise e), w1.
    split_and!; try done.
    + by rewrite Hctl, app_nil_r.
    + by exists f, (filter (λ f, is_crash f = true) fs).
  - destruct (from_file_ok _ _ Herr)
      as (w1 & Hff & Hrel & Hctl & rep & Hrep & Hb & Hs & Hfile & Hlt & Hfd).
    rewrite Hff. unfold mbind at 1, M_bind, modify.
    set (r := length (w_heap w)) in *.
    set (w2 := with_ctl (with_reports (reports (w_ctl w1) ++ [r]) (w_ctl w1))
                 w1).
    assert (Hrel2 : scan_rel w w2).
    { etrans; [done|]. unfold scan_rel, w2. simpl. split_and!; done. }
    destruct (IH (to_load ++ [r]) w2) as
      (rids & pre & res & w' & Hloop & Hrel' & Hreps & Hsc & Hpre & Hres).
    exists (r :: rids), (f :: pre), res, w'.
    assert (Hdir : crash_directory (w_ctl w2) = crash_directory (w_ctl w))
      by (unfold w2; simpl; by rewrite Hctl).
    split_and!.
    + done.
    + by etrans.
    + rewrite Hreps. unfold w2. simpl. rewrite Hctl.
      by rewrite <- (assoc_L (++)).
    + constructor; [|done].
      apply (scanned_scan_rel w2 w'); [done|].
      exists rep, (w_next_fd w). unfold w2. simpl. rewrite Hctl.
      split_and!; done.
    + constructor; [done|].
      eapply Forall_impl; [done|]. intros f0 Hf0. cbv beta in Hf0.
      rewrite Hdir in Hf0.
      by rewrite (artifact_error_scan_rel w w2) in Hf0.
    + destruct res as [l|e].
      * destruct Hres as [-> ->]. by rewrite <- (assoc_L (++)).
      * destruct Hres as (bad & post & -> & Hbad).
        exists bad, post. split; [done|].
        rewrite Hdir in Hbad.
        by rewrite (artifact_error_scan_rel w w2) in Hbad.
Qed.

Lemma crash_entries_spec w f :
  f ∈ crash_entries w →
  is_crash f = true ∧ str_contains "/" f = false ∧
  is_Some (w_files w !! join (crash_directory (w_ctl w)) f).
Proof.
  unfold crash_entries, sorted_reverse.
  intros [Hc Hf]%list_elem_of_filter.
  rewrite merge_sort_Permutation in Hf.
  apply listdir_names_spec in Hf as [? ?]. done.
Qed.

Lemma _report_loaded_eq to_load w :
  _report_loaded to_load w =
    (Ok tt,
     match to_load with
     | [] => w
     | r :: _ => submit (load_task r to_load) w
     end).
Proof. by destruct to_load. Qed.

(** The scan as a whole: the reports of [scan_loop] over the sorted
    listing, then the first load, if the loop returned. *)
Lemma scan_crash_dir_spec w :
  crash_directory (w_ctl w) ∈ w_dirs w →
  ∃ rids pre (res : res (list nat)) w1,
    scan_rel w w1 ∧
    reports (w_ctl w1) = reports (w_ctl w) ++ rids ∧
    Forall2 (scanned w1) rids pre ∧
    Forall (λ f, artifact_error w (join (crash_directory (w_ctl w)) f) = None)
      pre ∧
    match res with
    | Ok _ =>
        pre = crash_entries w ∧
        scan_crash_dir w =
          (Ok tt,
           match rids with
           | [] => w1
           | r :: _ => submit (load_task r rids) w1
           end)
    | Raise e =>
        (∃ bad post,
           crash_entries w = pre ++ bad :: post ∧
           artifact_error w (join (crash_directory (w_ctl w)) bad) = Some e) ∧
        scan_crash_dir w = (Raise e, w1)
    end.
Proof.
  intros Hdir.
  destruct (scan_loop_spec
              (sorted_reverse
                 (listdir_names (w_files w) (crash_directory (w_ctl w))))
              [] w)
    as (rids & pre & res & w1 & Hloop & Hrel & Hreps & Hsc & Hpre & Hres).
  assert (Hscan : scan_crash_dir w =
                  match res with
                  | Ok l => _report_loaded l w1
                  | Raise e => (Raise e, w1)
                  end).
  { unfold scan_crash_dir, gets, listdir.
    unfold mbind at 1 2, M_bind. simpl.
    rewrite bool_decide_eq_true_2 by done.
    unfold mbind, M_bind. by rewrite Hloop. }
  exists rids, pre, res, w1. split_and!; try done.
  destruct res as [l|e].
  - destruct Hres as [-> ->]. split; [done|]. simpl in Hscan.
    by rewrite Hscan, _report_loaded_eq.
  - done.
Qed.

Lemma scan_crash_dir_no_directory w :
  crash_directory (w_ctl w) ∉ w_dirs w →
  scan_crash_dir w = (Raise FileNotFoundError, w).
Proof.
  intros Hdir. unfold scan_crash_dir, gets, listdir.
  unfold mbind, M_bind. simpl. by rewrite bool_decide_eq_false_2.
Qed.

Lemma artifact_error_corrupt w fpath text :
  is_Some (w_files w !! fpath) → w_deny w RB fpath = false →
  w_files w !! meta_path (w_ctl w) (loading_report fpath w) = Some text →
  w_deny w RT (meta_path (w_ctl w) (loading_report fpath w)) = false →
  json_loads text = None →
  artifact_error w fpath = Some JSONDecodeError.
Proof.
  intros [c Hc] Hd Hm Hdm Hj. unfold artifact_error.
  by rewrite Hc, Hd, Hm, Hdm, Hj.
Qed.

(** C4, amended. When the metadata file of an artifact exists and is not
    valid JSON, and the artifacts before it in the descending order of the
    names load their metadata, [scan_crash_dir] raises the parse error at
    that artifact: the reports of the artifacts before it have been
    appended, no artifact after it gets a report, and no load is started. *)
Theorem scan_stops_at_corrupt_metadata (w : world) (pre : list string)
    (bad : string) (post : list string) (text : string) :
  let dir := crash_directory (w_ctl w) in
  dir ∈ w_dirs w →
  crash_entries w = pre ++ bad :: post →
  Forall (λ f, artifact_error w (join dir f) = None) pre →
  is_Some (w_files w !! join dir bad) →
  w_deny w RB (join dir bad) = false →
  w_files w !! meta_path (w_ctl w) (loading_report (join dir bad) w)
    = Some text →
  w_deny w RT (meta_path (w_ctl w) (loading_report (join dir bad) w))
    = false →
  json_loads text = None →
  ∃ w' rids,
    scan_crash_dir w = (Raise JSONDecodeError, w') ∧
    reports (w_ctl w') = reports (w_ctl w) ++ rids ∧
    Forall2 (scanned w') rids pre ∧
    w_tasks w' = w_tasks w.
Proof.
  intros dir Hdir Hent Hpre Hc Hd Hm Hdm Hj. subst dir.
  pose proof (artifact_error_corrupt _ _ _ Hc Hd Hm Hdm Hj) as Hbad.
  destruct (scan_crash_dir_spec w Hdir)
    as (rids & pre' & res & w1 & Hrel & Hreps & Hsc & Hpre' & Hres).
  destruct res as [l|e].
  - destruct Hres as [-> _]. rewrite Hent in Hpre'.
    apply Forall_app in Hpre' as [_ Hb]. apply Forall_cons_1 in Hb as [Hb _].
    congruence.
  - destruct Hres as [(bad' & post' & Hent' & Hbad') Hscan].
    rewrite Hent in Hent'.
    destruct (first_error_unique
                (λ f, artifact_error w
                        (join (crash_directory (w_ctl w)) f) = None)
                _ _ _ _ _ _ Hent' Hpre) as (-> & -> & ->);
      [congruence|done|congruence|].
    assert (e = JSONDecodeError) as -> by congruence.
    exists w1, rids. split_and!; try done. apply Hrel.
Qed.

(** C10. Every report that [scan_crash_dir] appends was built from an
    entry of the store whose extension is [.crash], in the descending order
    of the names; when the scan returns, every such entry has its report;
    and no report is built from a file with another extension, the
    [.meta] files included. *)
Theorem scan_builds_reports_of_crash_files_only (w : world) :
  ∃ rids pre,
    reports (w_ctl (scan_crash_dir w).2) = reports (w_ctl w) ++ rids ∧
    Forall2 (scanned (scan_crash_dir w).2) rids pre ∧
    pre `prefix_of` crash_entries w ∧
    Forall (λ f, (splitext f).2 = ".crash") pre ∧
    (∀ u, (scan_crash_dir w).1 = Ok u → pre = crash_entries w) ∧
    (∀ f rid, str_contains "/" f = false → (splitext f).2 ≠ ".crash" →
              rid ∈ rids → ¬ scanned (scan_crash_dir w).2 rid f).
Proof.
  destruct (decide (crash_directory (w_ctl w) ∈ w_dirs w)) as [Hdir|Hdir].
  2: { rewrite scan_crash_dir_no_directory by done. exists [], []. simpl.
       rewrite app_nil_r. split_and!; try done.
       - apply prefix_nil.
       - intros f rid _ _ Hin. by apply not_elem_of_nil in Hin. }
  destruct (scan_crash_dir_spec w Hdir)
    as (rids & pre & res & w1 & Hrel & Hreps & Hsc & Hpre & Hres).
  set (w' := match rids with
             | [] => w1 | r :: _ => submit (load_task r rids) w1 end).
  assert (Hw' : (scan_crash_dir w).2 = w' ∨ (scan_crash_dir w).2 = w1).
  { destruct res; [left|right]; destruct Hres as [_ ->]; done. }
  assert (Hsc' : Forall2 (scanned (scan_crash_dir w).2) rids pre).
  { destruct Hw' as [-> | ->]; [|done]. unfold w'. by destruct rids. }
  assert (Hreps' : reports (w_ctl (scan_crash_dir w).2)
                   = reports (w_ctl w) ++ rids).
  { destruct Hw' as [-> | ->]; [|done]. unfold w'. by destruct rids. }
  assert (Hprefix : pre `prefix_of` crash_entries w).
  { destruct res.
    - destruct Hres as [-> _]. done.
    - destruct Hres as [(bad & post & -> & _) _]. by eexists. }
  assert (Hdir' : crash_directory (w_ctl (scan_crash_dir w).2)
                  = crash_directory (w_ctl w)).
  { destruct Hw' as [-> | ->]; [unfold w'; destruct rids|]; apply Hrel. }
  assert (Hall : ∀ f, f ∈ pre → is_crash f = true ∧
                              str_contains "/" f = false).
  { intros f Hf. destruct Hprefix as [post Hpost].
    destruct (crash_entries_spec w f) as (? & ? & _); [|done].
    rewrite Hpost. apply elem_of_app. by left. }
  exists rids, pre. split_and!; try done.
  - apply Forall_forall. intros f Hf. destruct (Hall f Hf) as [Hc _].
    unfold is_crash in Hc. by apply bool_decide_eq_true in Hc.
  - intros u Hu. destruct res; [by destruct Hres|].
    destruct Hres as [_ Hr]. rewrite Hr in Hu. done.
  - intros f rid Hslash Hext Hin (rep & fd & Hr & _ & _ & Hf & _ & Hfd).
    apply list_elem_of_lookup in Hin as [i Hi].
    destruct (Forall2_lookup_l _ _ _ _ _ Hsc' Hi)
      as (f' & Hf' & (rep' & fd' & Hr' & _ & _ & Hfile' & _ & Hfd')).
    assert (Hp : join (crash_directory (w_ctl (scan_crash_dir w).2)) f' =
                 join (crash_directory (w_ctl (scan_crash_dir w).2)) f)
      by congruence.
    destruct (Hall f') as [Hc Hs]; [by eapply list_elem_of_lookup_2|].
    apply join_inj in Hp; [|by apply str_contains_startswith..].
    subst f'. unfold is_crash in Hc. by apply bool_decide_eq_true in Hc.
Qed.

(** *** The chain of loads *)

Ltac unfold_log := unfold log_debug, log_exception, emit_signal.

Lemma set_meta_load_frame self key value :
  preserves load_frame (set_meta self key value).
Proof. pres_with ltac:(first [frame_leaf | progress unfold_log]). Qed.





























Lemma scanned_submit t w rid f :
  scanned w rid f → scanned (submit t w) rid f.
Proof. done. Qed.

Lemma scanned_base w rid f :
  scanned w rid f → str_contains "/" f = false →
  is_Some (w_heap w !! rid) ∧ base_of w rid = (splitext f).1.
Proof.
  intros (rep & fd & Hr & Hb & _) Hf. split; [by eexists|].
  unfold base_of. rewrite Hr. simpl. by rewrite Hb, basename_join.
Qed.


(** *** The metadata on disk *)

Lemma str_last_meta_path ctl r : str_last (meta_path ctl r) = Some "a"%char.
Proof.
  unfold meta_path, _path_with_ext.
  rewrite str_last_join, str_last_app; try done. by destruct (base r).
Qed.

Lemma str_last_path ctl r : str_last (path ctl r) = Some "h"%char.
Proof.
  unfold path, _path_with_ext.
  rewrite str_last_join, str_last_app; try done. by destruct (base r).
Qed.





Lemma add_info_same_meta self hook wait :
  preserves (heap_rel same_meta) (add_info self hook wait).
Proof. pres_with pres_heap_prim. Qed.

Lemma run_work_same_meta f : preserves (heap_rel same_meta) (run_work f).
Proof. destruct f; pres_with pres_heap_prim. Qed.

Lemma run_callback_same_meta cb fut :
  preserves (heap_rel same_meta) (run_callback cb fut).
Proof. destruct cb as [self|self [to_load]]; pres_with pres_heap_prim. Qed.






















Lemma meta_inv_tasks w tasks n :
  meta_inv (with_tasks tasks n w) ↔ meta_inv w.
Proof. done. Qed.









Lemma str_last_differ p q a b :
  str_last p = Some a → str_last q = Some b → a ≠ b → p ≠ q.
Proof. intros Hp Hq Hab ->. congruence. Qed.

Lemma path_not_meta_path ctl ctl' r r' : path ctl r ≠ meta_path ctl' r'.
Proof.
  eapply str_last_differ;
    [apply str_last_path|apply str_last_meta_path|done].
Qed.









(** When the metadata file cannot be written, [set_meta] raises after it
    has changed [meta]: the files are as they were. *)
Lemma set_meta_write_fails self key value w r d :
  w_heap w !! self = Some r → meta r = JObj d →
  w_deny w WT (meta_path (w_ctl w) r) = true →
  (set_meta self key value w).1 = Raise PermissionError ∧
  w_heap (set_meta self key value w).2 !! self =
    Some (with_meta (JObj (<[key := value]> d)) r) ∧
  w_files (set_meta self key value w).2 = w_files w.
Proof.
  intros Hr Hm Hdeny. rewrite (set_meta_dict self key value w r d Hr Hm).
  simpl. rewrite Hdeny. simpl. split_and!; try done.
  by rewrite list_lookup_alter_eq, Hr.
Qed.


(** *** [persistent_details] *)

Lemma find_mount_not_mounted text d :
  not_mounted text d → find_mount d (readlines text) = Ok None.
Proof.
  unfold not_mounted. induction 1 as [|line lines (mnt & Hm & Hne) _ IH];
    simpl; [done|].
  unfold mount_point in Hm. rewrite Hm.
  by rewrite bool_decide_eq_false_2.
Qed.

Lemma persistent_details_eq self w r text :
  w_heap w !! self = Some r →
  w_files w !! "/proc/self/mountinfo" = Some text →
  w_deny w RT "/proc/self/mountinfo" = false →
  persistent_details self w =
    let fd := w_next_fd w in
    let w1 :=
      with_fds (delete fd (<[fd := ("/proc/self/mountinfo", RT)]> (w_fds w)))
        (S fd) w in
    (match find_mount (looking_for w) (readlines text) with
     | Raise e => Raise e
     | Ok None =>
         if dry_run (w_ctl w) then
           Ok (Some "casper-rw",
               Some ("install-logs/2019-11-06.0/crash/" +:+ base r
                       +:+ ".crash"))
         else Ok (None, None)
     | Ok (Some (devname, root)) =>
         match udev_list_block_devices (realpath devname) with
         | Raise e => Raise e
         | Ok [] => Ok (None, None)
         | Ok (dev :: _) =>
             Ok (Some (default EmptyString (dev !! "ID_FS_LABEL_ENC")),
                 Some (str_drop 1 root +:+ "/" +:+ base r +:+ ".crash"))
         end
     end, w1).
Proof.
  intros Hr Hf Hd.
  unfold persistent_details, get_report, gets, open_file, with_fp,
    try_finally, fd_read, fd_close, modify, lift.
  unfold mbind, M_bind, mret, M_ret. simpl. rewrite Hr, Hf, Hd. simpl.
  rewrite lookup_insert_eq. simpl. rewrite Hf. simpl.
  fold (looking_for w).
  destruct (find_mount (looking_for w) (readlines text))
    as [[[devname root]|]|e]; simpl; try done.
  - destruct (udev_list_block_devices (realpath devname)) as [[|dev devs]|e];
      by simpl.
  - by destruct (dry_run (w_ctl w)).
Qed.

(** Without a readable mount table the failure reaches the caller. *)
Lemma persistent_details_no_mount_table self w r :
  w_heap w !! self = Some r →
  w_files w !! "/proc/self/mountinfo" = None →
  persistent_details self w = (Raise FileNotFoundError, w).
Proof.
  intros Hr Hf.
  unfold persistent_details, get_report, gets, open_file.
  unfold mbind, M_bind. simpl. by rewrite Hr, Hf.
Qed.

(** When the mount is found and no block device answers, the result is
    [(None, None)]. *)
Lemma persistent_details_no_device self w r text devname root :
  w_heap w !! self = Some r →
  w_files w !! "/proc/self/mountinfo" = Some text →
  w_deny w RT "/proc/self/mountinfo" = false →
  find_mount (looking_for w) (readlines text) = Ok (Some (devname, root)) →
  udev_list_block_devices (realpath devname) = Ok [] →
  (persistent_details self w).1 = Ok (None, None).
Proof.
  intros Hr Hf Hd Hm Hu.
  rewrite (persistent_details_eq _ _ _ _ Hr Hf Hd). simpl.
  by rewrite Hm, Hu.
Qed.

(** C8, amended. For every report whose store directory is not a mount
    point of the mount table, [persistent_details] returns [(None, None)]
    when the controller is not in dry-run mode, and the fixed pair of the
    dry run otherwise. *)
Theorem persistent_details_not_a_mount_point (self : nat) (w : world)
    (r : ErrorReport) (text : string) :
  w_heap w !! self = Some r →
  w_files w !! "/proc/self/mountinfo" = Some text →
  w_deny w RT "/proc/self/mountinfo" = false →
  not_mounted text (looking_for w) →
  (persistent_details self w).1 =
    if dry_run (w_ctl w) then
      Ok (Some "casper-rw",
          Some ("install-logs/2019-11-06.0/crash/" +:+ base r +:+ ".crash"))
    else Ok (None, None).
Proof.
  intros Hr Hf Hd Hm.
  rewrite (persistent_details_eq _ _ _ _ Hr Hf Hd). simpl.
  by rewrite (find_mount_not_mounted _ _ Hm).
Qed.

End Properties.

(** ** The claims at work on concrete worlds *)

Import Sample.

(** C1 at work: an install failure reported on a writable store. *)
Lemma create_report_incomplete_kind_first_witness :
  let w := boot "/" false ∅ allow in
  ∃ rep, w_heap (create_report INSTALL_FAIL w).2 !! 0 = Some rep ∧
         state rep = INCOMPLETE ∧ kind rep = Ok (PyKind INSTALL_FAIL) ∧
         reports (w_ctl (create_report INSTALL_FAIL w).2) !! 0 = Some 0.
Proof.
  intros w.
  apply (create_report_incomplete_kind_first INSTALL_FAIL w
           (create_report INSTALL_FAIL w).2 0).
  vm_compute. reflexivity.
Defined.

(** C2 as stated fails for [wait=True]: the work runs and returns, and the
    report stays [INCOMPLETE], its file open, with no signal. *)
Lemma add_info_wait_stays_incomplete :
  let w' := (add_info 0 attach_nothing true fresh).2 in
  (add_info 0 attach_nothing true fresh).1 = Ok tt ∧
  state <$> w_heap w' !! 0 = Some INCOMPLETE ∧
  _file <$> w_heap w' !! 0 = Some (Some 3) ∧
  w_fds w' !! 3 = Some ("/var/crash/1573120800.123456789.ui.crash", WB) ∧
  w_log w' =
    [LogDebug "begin adding info for report %s" "1573120800.123456789.ui"].
Proof. vm_compute. done. Qed.

(** C2 at work, in the background. *)
Lemma add_info_background_done_witness :
  let w3 := run [AAddInfo 0 attach_nothing false; ABgRun (w_next_task fresh);
                 ABgDeliver (w_next_task fresh)] fresh in
  (∃ r3, w_heap w3 !! 0 = Some r3 ∧ state r3 = DONE ∧ _file r3 = None) ∧
  w_fds w3 !! 3 = None ∧
  w_log w3 =
    w_log fresh ++
      [LogDebug "begin adding info for report %s" (base (new_report UI (boot "/" false ∅ allow)));
       LogDebug "done adding info for report %s" (base (new_report UI (boot "/" false ∅ allow)));
       Signal 0 "changed"].
Proof.
  apply (add_info_background_done 0 attach_nothing fresh
           (new_report UI (boot "/" false ∅ allow)) 3);
    vm_compute; reflexivity.
Defined.



(** C4 as stated fails: the newest artifact has corrupt metadata, the scan
    raises there, and the older artifact, whose load would be fine, gets no
    report. *)
Lemma scan_aborts_on_corrupt_metadata :
  let w := boot "/" false
             (<["/var/crash/1573120800.000000002.install_fail.meta" := "{kind: "]>
                two_artifacts) allow in
  crash_entries w = [newer; older] ∧
  artifact_error w ("/var/crash/" +:+ older) = None ∧
  (scan_crash_dir w).1 = Raise JSONDecodeError ∧
  reports (w_ctl (scan_crash_dir w).2) = [] ∧
  w_tasks (scan_crash_dir w).2 = ∅.
Proof. vm_compute. done. Qed.

(** C4, amended, at work: of three artifacts the middle one has corrupt
    metadata; the newest has its report, the scan stops. *)
Lemma scan_stops_at_corrupt_metadata_witness :
  let w := boot "/" false corrupt_middle allow in
  ∃ w' rids,
    scan_crash_dir w = (Raise JSONDecodeError, w') ∧
    reports (w_ctl w') = reports (w_ctl w) ++ rids ∧
    Forall2 (scanned w') rids [newest] ∧
    w_tasks w' = w_tasks w.
Proof.
  intros w.
  apply (scan_stops_at_corrupt_metadata w [newest] newer [older] "{kind: ").
  - vm_compute. done.
  - vm_compute. done.
  - repeat constructor.
  - vm_compute. eauto.
  - vm_compute. done.
  - vm_compute. done.
  - vm_compute. done.
  - vm_compute. done.
Defined.

(** C7 at work: the older artifact of the store has no metadata file. *)
Lemma from_file_without_metadata_witness :
  let w := boot "/" false two_artifacts allow in
  ∃ r w' rep,
    from_file ("/var/crash/" +:+ older) w = (Ok r, w') ∧
    w_heap w' !! r = Some rep ∧
    meta rep = JObj ∅ ∧ state rep = LOADING ∧
    kind rep = Ok (PyKind UNKNOWN).
Proof.
  intros w. apply (from_file_without_metadata ("/var/crash/" +:+ older) w).
  - vm_compute. eauto.
  - vm_compute. done.
  - vm_compute. done.
Defined.

(** C8 as stated fails in a dry run: the store is not a mount point and the
    result is the fixed pair. *)
Lemma persistent_details_dry_run :
  (persistent_details 0 dry_run_world).1 =
    Ok (Some "casper-rw",
        Some "install-logs/2019-11-06.0/crash/1573120800.123456789.ui.crash").
Proof. vm_compute. done. Qed.

(** Nor is every failure turned into [(None, None)]: without a mount table
    the exception reaches the caller. *)
Lemma persistent_details_raises :
  (persistent_details 0 fresh).1 = Raise FileNotFoundError.
Proof. vm_compute. done. Qed.

(** C8, amended, at work. *)
Lemma persistent_details_not_a_mount_point_witness :
  (persistent_details 0 installed).1 =
    if dry_run (w_ctl installed) then
      Ok (Some "casper-rw",
          Some ("install-logs/2019-11-06.0/crash/" +:+
                base (new_report UI (boot "/" false ∅ allow)) +:+ ".crash"))
    else Ok (None, None).
Proof.
  apply (persistent_details_not_a_mount_point 0 installed
           (new_report UI (boot "/" false ∅ allow)) mounts).
  - vm_compute. done.
  - vm_compute. done.
  - vm_compute. done.
  - unfold not_mounted.
    assert (readlines mounts =
            ["22 1 8:1 / / rw,relatime shared:1 - ext4 /dev/sda1 rw" +:+ nl;
             "36 22 8:17 / /media/usb rw,noatime shared:2 - vfat /dev/sdb1 rw"
               +:+ nl]) as -> by (vm_compute; done).
    repeat constructor.
    + exists "/". vm_compute. done.
    + exists "/media/usb". vm_compute. done.
Defined.

(** C9 at work: the kind of a fresh report through a background
    [add_info], a [mark_seen] and a scan of the store. *)
Lemma meta_kind_never_overwritten_witness :
  ∃ r', w_heap
          (run [AAddInfo 0 attach_nothing false; ABgRun 0; AMarkSeen 0;
                ABgDeliver 0; AStart; AAddInfo 0 failing_hook true] fresh)
          !! 0 = Some r' ∧
        meta_kind r' = Some (JStr "UI").
Proof.
  apply (meta_kind_never_overwritten _ fresh 0
           (new_report UI (boot "/" false ∅ allow)) (JStr "UI"));
    vm_compute; done.
Defined.

(** C10 at work: of the five files of the store, the three artifacts have
    their reports, newest first. *)
Example scan_of_corrupt_free_store :
  let w := boot "/" false
             (<["/var/crash/" +:+ newest := "ProblemType: Bug"]> two_artifacts)
             allow in
  (scan_crash_dir w).1 = Ok tt ∧
  reports (w_ctl (scan_crash_dir w).2) = [0; 1; 2] ∧
  base <$> w_heap (scan_crash_dir w).2 =
    ["1573120900.000000003.ui"; "1573120800.000000002.install_fail";
     "1573120700.000000001.ui"].
Proof. vm_compute. done. Qed.


(** The chain runs to its end when the runner does its steps: both reports
    are loaded, the newer one first, and no file stays open. *)
Example scan_then_loads_complete :
  let w := boot "/" false two_artifacts allow in
  let w' := run [AStart; ABgRun 0; ABgDeliver 0; ABgRun 1; ABgDeliver 1] w in
  load_events w' =
    [LogDebug "loading report %s" "1573120800.000000002.install_fail";
     LogDebug "done loading report %s" "1573120800.000000002.install_fail";
     LogDebug "loading report %s" "1573120700.000000001.ui";
     LogDebug "done loading report %s" "1573120700.000000001.ui"] ∧
  state <$> w_heap w' = [DONE; DONE] ∧
  kind <$> w_heap w' = [Ok (PyKind INSTALL_FAIL); Ok (PyKind UNKNOWN)] ∧
  w_fds w' = ∅ ∧ w_tasks w' = ∅.
Proof. vm_compute. done. Qed.



(** Why C6 asks that no two report objects share a metadata file: a second
    scan builds a second object for the newer artifact; after [mark_seen]
    on the first, the second lacks what the disk has. *)
Example rescan_shares_metadata_file :
  let w := run_ops [OCore AStart; OCore AScanCrashDir; OCore (AMarkSeen 0)]
             (boot "/" false two_artifacts allow) in
  base <$> w_heap w =
    ["1573120800.000000002.install_fail"; "1573120700.000000001.ui";
     "1573120800.000000002.install_fail"; "1573120700.000000001.ui"] ∧
  meta <$> w_heap w !! 2 =
    Some (JObj (<["kind" := JStr "INSTALL_FAIL"]> ∅)) ∧
  w_heap w !! 2 ≫= disk_meta w =
    Some (JObj (<["seen" := JBool true]>
                  (<["kind" := JStr "INSTALL_FAIL"]> ∅))).
Proof. vm_compute. done. Qed.

(** * Further properties of the report manager *)

From Stdlib Require DecimalN DecimalPos.

#[global] Instance meta_kept_preorder self : PreOrder (meta_kept self).
Proof.
  split.
  - intros w r Hr. by exists r.
  - intros x y z Hxy Hyz r Hr.
    destruct (Hxy r Hr) as (r1 & Hr1 & H1).
    destruct (Hyz r1 Hr1) as (r2 & Hr2 & H2).
    exists r2. split; [done|]. by etrans.
Qed.

Lemma heap_rel_meta_kept self w w' :
  heap_rel same_meta w w' → meta_kept self w w'.
Proof. intros Hheap r Hr. by apply Hheap. Qed.

Section More.
Context `{Externals}.

Ltac expand_ops :=
  unfold set_meta, mark_seen, new, from_file, pr_step, pr_setitem,
    pr_delitem, _bg_add_info, close_file, added_info, add_info, _bg_load,
    load, _report_loaded, call_thunk, loaded, create_report, run_work,
    run_callback, scan_crash_dir, start.

Ltac frame_with leaf :=
  repeat first [pres_step | leaf | progress expand_ops].

(** ** [mark_seen] and [seen] *)

(** What a [set_meta] that returns has done, as a world. *)
Lemma set_meta_ok_world self key value w w' :
  set_meta self key value w = (Ok tt, w') →
  ∃ r d,
    w_heap w !! self = Some r ∧ meta r = JObj d ∧
    w_deny w WT (meta_path (w_ctl w) r) = false ∧
    w' =
      with_fds
        (delete (w_next_fd w)
           (<[w_next_fd w := (meta_path (w_ctl w) r, WT)]> (w_fds w)))
        (S (w_next_fd w))
        (with_files
           (<[meta_path (w_ctl w) r :=
                json_dumps (JObj (<[key := value]> d))]> (w_files w))
           (with_heap
              (alter (with_meta (JObj (<[key := value]> d))) self (w_heap w))
              w)).
Proof.
  destruct (w_heap w !! self) as [r|] eqn:Hr.
  2: { by rewrite set_meta_no_report. }
  destruct (meta r) as [| | | | |d] eqn:Hm.
  6: { rewrite (set_meta_dict self key value w r d Hr Hm). simpl.
       destruct (w_deny w WT (meta_path (w_ctl w) r)) eqn:Hd; [done|].
       intros [= <-]. by exists r, d. }
  all: rewrite (set_meta_not_dict self key value w r Hr);
    [done|by rewrite Hm].
Qed.

(** X1. When [mark_seen] returns, the [seen] property of the report is
    [True]; a second [mark_seen] returns too and changes neither the
    reports nor the files: it only emits its signal. *)
Theorem mark_seen_idempotent (self : nat) (w w1 : world) :
  mark_seen self w = (Ok tt, w1) →
  (∃ r1, w_heap w1 !! self = Some r1 ∧ seen r1 = Ok (JBool true)) ∧
  ∃ w2, mark_seen self w1 = (Ok tt, w2) ∧
        w_heap w2 = w_heap w1 ∧ w_files w2 = w_files w1 ∧
        w_ctl w2 = w_ctl w1 ∧
        w_log w2 = w_log w1 ++ [Signal self "changed"].
Proof.
  intros Hms. unfold mark_seen in Hms.
  apply bind_inv_ok in Hms as ([] & wa & Hset & Hsig).
  destruct (set_meta_ok_world _ _ _ _ _ Hset) as (r & d & Hr & Hm & Hd & ->).
  injection Hsig as <-.
  set (m := JObj (<["seen" := JBool true]> d)).
  set (mp := meta_path (w_ctl w) r).
  split.
  - exists (with_meta m r). split.
    + simpl. by rewrite list_lookup_alter_eq, Hr.
    + unfold seen, m. simpl. by rewrite lookup_insert_eq.
  - unfold mark_seen. unfold mbind, M_bind.
    match goal with |- context [set_meta self _ _ ?w0] => set (w1 := w0) end.
    assert (w_heap w1 !! self = Some (with_meta m r)) as Hr1
      by (simpl; by rewrite list_lookup_alter_eq, Hr).
    rewrite (set_meta_dict self "seen" (JBool true) w1 (with_meta m r)
               (<["seen" := JBool true]> d) Hr1 eq_refl).
    simpl.
    change (meta_path (w_ctl w) (with_meta m r)) with mp.
    unfold mp at 1. rewrite Hd. simpl. eexists. split; [done|]. simpl.
    rewrite !insert_insert_eq. split_and!; try done.
    rewrite list_alter_alter_eq. apply list_eq. intros i.
    destruct (decide (i = self)) as [->|Hi].
    + rewrite !list_lookup_alter_eq, Hr. reflexivity.
    + by rewrite !list_lookup_alter_ne.
Qed.

(** ** Nothing but [mark_seen] changes the metadata of a report *)

(** Settles [heap_rel same_meta] for a heap that kept its reports as they
    were, at most with new ones behind them. *)
Ltac heap_kept :=
  let i := fresh "i" in
  let r := fresh "r" in
  let Hr := fresh "Hr" in
  simpl; intros i r Hr; exists r;
  split; [first [done | by apply lookup_app_l_Some]|done].

Lemma new_same_meta kind0 : preserves (heap_rel same_meta) (new kind0).
Proof.
  intros w. rewrite new_eq. simpl.
  destruct (w_deny w WB _); [heap_kept|].
  destruct (w_deny w WT _); heap_kept.
Qed.

Lemma from_file_same_meta fpath :
  preserves (heap_rel same_meta) (from_file fpath).
Proof.
  intros w. rewrite from_file_eq. simpl.
  destruct (w_files w !! fpath); [|heap_kept].
  destruct (w_deny w RB fpath); [heap_kept|].
  destruct (w_files w !! meta_path _ _); [|heap_kept].
  destruct (w_deny w RT _); [heap_kept|].
  destruct (json_loads _); heap_kept.
Qed.

Lemma scan_loop_same_meta filenames to_load :
  preserves (heap_rel same_meta) (scan_loop filenames to_load).
Proof.
  revert to_load. induction filenames as [|f fs IH]; intros to_load; simpl.
  - frame_with idtac.
  - destruct (splitext f) as [b ext]. case_bool_decide; [apply IH|].
    frame_with ltac:(first [apply IH | apply from_file_same_meta
                           | pres_heap_prim]).
Qed.

Lemma set_meta_meta_kept self s key value :
  s ≠ self → preserves (meta_kept self) (set_meta s key value).
Proof.
  intros Hs w r Hr.
  destruct (w_heap w !! s) as [rs|] eqn:Hrs.
  2: { rewrite set_meta_no_report by done. by exists r. }
  destruct (meta rs) as [| | | | |d] eqn:Hm.
  6: { rewrite (set_meta_dict s key value w rs d Hrs Hm). simpl.
       destruct (w_deny w WT _); simpl; exists r;
         (split; [by rewrite list_lookup_alter_ne|done]). }
  all: rewrite (set_meta_not_dict s key value w rs Hrs);
    [by exists r|by rewrite Hm].
Qed.

Lemma exec_meta_kept self a :
  marks_seen self a = false → preserves (meta_kept self) (exec a).
Proof.
  destruct a as [kind0|s hook wait|s| | |tid|tid]; simpl; intros Ha.
  - eapply preserves_weaken; [apply heap_rel_meta_kept|].
    frame_with ltac:(first [apply new_same_meta | pres_heap_prim]).
  - eapply preserves_weaken; [apply heap_rel_meta_kept|].
    apply add_info_same_meta.
  - apply bool_decide_eq_false in Ha.
    unfold mark_seen. apply preserves_bind; [apply _| |intros ?].
    + by apply set_meta_meta_kept.
    + eapply preserves_weaken; [apply heap_rel_meta_kept|]. pres_heap_prim.
  - eapply preserves_weaken; [apply heap_rel_meta_kept|].
    frame_with ltac:(first [apply scan_loop_same_meta | pres_heap_prim]).
  - eapply preserves_weaken; [apply heap_rel_meta_kept|].
    frame_with ltac:(first [apply scan_loop_same_meta | pres_heap_prim]).
  - eapply preserves_weaken; [apply heap_rel_meta_kept|].
    intros w. unfold bg_run.
    destruct (w_tasks w !! tid) as [[f cb [fut|]]|]; try done.
    pose proof (run_work_same_meta f w) as Hw.
    by destruct (run_work f w).
  - eapply preserves_weaken; [apply heap_rel_meta_kept|].
    intros w. unfold bg_deliver.
    destruct (w_tasks w !! tid) as [[f cb [fut|]]|]; try done.
    apply (run_callback_same_meta cb fut
             (with_tasks (delete tid (w_tasks w)) (w_next_task w) w)).
Qed.

(** X2. Through every sequence of operations of the core that does not
    call [mark_seen] on it, a report keeps its [meta] (and its base name)
    as it was: creating reports, [add_info], the scan, the work and the
    completions of the background runner, and [mark_seen] on other
    reports leave it alone. *)
Theorem meta_changes_only_by_mark_seen (acts : list action) (w : world)
    (self : nat) (r : ErrorReport) :
  w_heap w !! self = Some r →
  forallb (λ a, negb (marks_seen self a)) acts = true →
  ∃ r', w_heap (run acts w) !! self = Some r' ∧
        meta r' = meta r ∧ base r' = base r.
Proof.
  revert w r. induction acts as [|a acts IH]; intros w r Hr; simpl.
  { intros _. by exists r. }
  intros [Ha Hacts]%andb_prop. apply negb_true_iff in Ha.
  destruct (exec_meta_kept self a Ha w r Hr) as (r1 & Hr1 & Hb1 & Hm1).
  destruct (IH _ r1 Hr1 Hacts) as (r' & Hr' & Hm' & Hb').
  exists r'. split_and!; [done|congruence|congruence].
Qed.

(** ** Metadata that is not a mapping *)

(** X3. When the metadata file of an artifact holds JSON that is not an
    object (a list, a string, a number, [null]), [from_file] returns a
    report with that value as its [meta]; on that report the [kind] and
    [seen] properties raise [AttributeError] and [mark_seen] raises
    [TypeError], leaving the world as it was. *)
Theorem from_file_metadata_not_a_mapping (fpath : string) (w : world)
    (text : string) (j : json) :
  is_Some (w_files w !! fpath) →
  w_deny w RB fpath = false →
  w_files w !! meta_path (w_ctl w) (loading_report fpath w) = Some text →
  w_deny w RT (meta_path (w_ctl w) (loading_report fpath w)) = false →
  json_loads text = Some j →
  (∀ d, j ≠ JObj d) →
  ∃ r w' rep,
    from_file fpath w = (Ok r, w') ∧
    w_heap w' !! r = Some rep ∧ meta rep = j ∧
    kind rep = Raise AttributeError ∧
    seen rep = Raise AttributeError ∧
    mark_seen r w' = (Raise TypeError, w').
Proof.
  intros [c Hc] Hd Hm Hdm Hj Hnot. rewrite from_file_eq. simpl.
  rewrite Hc, Hd, Hm, Hdm, Hj.
  eexists _, _, (with_meta j (loading_report fpath w)).
  split; [done|].
  assert (Hrep : ∀ w0 : world,
            w_heap (with_heap
                      (w_heap w ++ [with_meta j (loading_report fpath w)]) w0)
              !! length (w_heap w)
            = Some (with_meta j (loading_report fpath w)))
    by (intros w0; simpl; by apply list_lookup_middle).
  split_and!; try done.
  - unfold kind, dict_get. simpl. destruct j; try done. by destruct (Hnot d).
  - unfold seen, dict_get. simpl. destruct j; try done. by destruct (Hnot d).
  - unfold mark_seen. apply bind_raise.
    eapply set_meta_not_dict; [apply Hrep|done].
Qed.

(** ** [create_report] when a file cannot be created *)


(** ** [start] and the directory of the store *)

Lemma scan_loop_dirs filenames to_load :
  preserves (same w_dirs) (scan_loop filenames to_load).
Proof.
  revert to_load. induction filenames as [|f fs IH]; intros to_load; simpl.
  - frame_with idtac.
  - destruct (splitext f) as [b ext]. case_bool_decide; [apply IH|].
    frame_with ltac:(first [apply IH | pres_prim]).
Qed.

Lemma scan_crash_dir_dirs : preserves (same w_dirs) scan_crash_dir.
Proof. frame_with ltac:(first [apply scan_loop_dirs | pres_prim]). Qed.

(** A scan never raises [FileNotFoundError] once the directory is
    there. *)
Lemma scan_crash_dir_finds_files w :
  crash_directory (w_ctl w) ∈ w_dirs w →
  (scan_crash_dir w).1 ≠ Raise FileNotFoundError.
Proof.
  intros Hdir.
  destruct (scan_crash_dir_spec w Hdir)
    as (rids & pre & [l|e] & w1 & _ & _ & _ & _ & Hres).
  - destruct Hres as [_ ->]. done.
  - destruct Hres as [(bad & post & Hent & Herr) ->]. simpl.
    intros [= ->].
    assert (bad ∈ crash_entries w) as Hbad
      by (rewrite Hent; set_solver).
    destruct (crash_entries_spec w bad Hbad) as (_ & _ & [c Hc]).
    unfold artifact_error in Herr. rewrite Hc in Herr.
    repeat case_match; done.
Qed.

(** X5. [start] makes the directory of the store when it is missing:
    unless the system refuses to create it, the directory exists
    afterwards and [start] does not raise [FileNotFoundError], whereas
    [scan_crash_dir] alone raises it when the directory is missing. *)
Theorem start_makes_crash_directory (w : world) :
  let dir := crash_directory (w_ctl w) in
  w_deny w WT dir = false →
  dir ∈ w_dirs (start w).2 ∧
  (start w).1 ≠ Raise FileNotFoundError ∧
  (dir ∉ w_dirs w → scan_crash_dir w = (Raise FileNotFoundError, w)).
Proof.
  intros dir Hdeny. split_and!.
  3: { apply scan_crash_dir_no_directory. }
  all: unfold start, makedirs, gets; unfold mbind at 1 2, M_bind; simpl;
    fold dir; rewrite ?Hdeny; case_bool_decide as Hdir.
  - pose proof (scan_crash_dir_dirs w) as Hd. unfold same in Hd.
    rewrite Hd. done.
  - pose proof (scan_crash_dir_dirs (with_dirs ({[dir]} ∪ w_dirs w) w))
      as Hd.
    unfold same in Hd. rewrite Hd. simpl. clear Hd. set_solver.
  - by apply scan_crash_dir_finds_files.
  - apply scan_crash_dir_finds_files. simpl. set_solver.
Qed.

(** ** The work of [add_info] *)

Lemma pr_step_ok self f w r p :
  w_heap w !! self = Some r → f (pr r) = Ok p →
  pr_step self f w =
    (Ok tt, with_heap (alter (with_pr p) self (w_heap w)) w).
Proof.
  intros Hr Hf. unfold pr_step, get_report, lift, update_report, modify.
  unfold mbind, M_bind. rewrite Hr, Hf. reflexivity.
Qed.

Lemma pr_step_inv self f w w' :
  pr_step self f w = (Ok tt, w') →
  ∃ r p, w_heap w !! self = Some r ∧ f (pr r) = Ok p ∧
         w' = with_heap (alter (with_pr p) self (w_heap w)) w.
Proof.
  unfold pr_step, get_report, lift, update_report, modify.
  unfold mbind, M_bind.
  destruct (w_heap w !! self) as [r|]; [|done].
  destruct (f (pr r)) as [p|e] eqn:Hf; [|done].
  intros [= <-]. by exists r, p.
Qed.

Lemma pr_delitem_inv self key w w' :
  pr_delitem self key w = (Ok tt, w') →
  ∃ r, w_heap w !! self = Some r ∧ is_Some (pr r !! key) ∧
       w' = with_heap
              (alter (λ r, with_pr (delete key (pr r)) r) self (w_heap w)) w.
Proof.
  unfold pr_delitem, get_report, update_report, modify.
  unfold mbind, M_bind.
  destruct (w_heap w !! self) as [r|]; [|done].
  destruct (pr r !! key) as [v|] eqn:Hv; [|done].
  intros [= <-]. exists r. by rewrite Hv.
Qed.

(** The world after the calls that attach fields have returned [p5], and
    what is left of [_bg_add_info] to do there. *)
Lemma _bg_add_info_attached self hook w r p5 :
  w_heap w !! self = Some r → attach_all hook (pr r) = Ok p5 →
  _bg_add_info self hook w =
    (env ← gets w_environ;
     pr_setitem self "Package"
       ("subiquity " +:+ default "SNAP_REVISION" (env !! "SNAP_REVISION"));;
     pr_setitem self "SourcePackage" "subiquity";;
     pr_delitem self "ExecutableTimestamp";;
     pr_delitem self "ProcMaps";;
     r ← get_report self;
     data ← lift (pr_write (pr r));
     match _file r with
     | Some f => fd_write f data
     | None => raise AttributeError
     end)
      (with_heap (alter (with_pr p5) self (w_heap w)) w).
Proof.
  intros Hr. unfold attach_all.
  destruct (hook (pr r)) as [p1|] eqn:H1; [|done].
  destruct (add_proc_info p1) as [p2|] eqn:H2; [|done].
  destruct (add_os_info p2) as [p3|] eqn:H3; [|done].
  destruct (add_hooks_info p3) as [p4|] eqn:H4; [|done].
  intros H5. unfold _bg_add_info.
  assert (Halter : ∀ p q (l : list ErrorReport),
            alter (with_pr q) self (alter (with_pr p) self l)
            = alter (with_pr q) self l).
  { intros p q l. rewrite list_alter_alter_eq. by apply list_alter_ext. }
  assert (Hlook : ∀ p, alter (with_pr p) self (w_heap w) !! self
                       = Some (with_pr p r))
    by (intros p; by rewrite list_lookup_alter_eq, Hr).
  erewrite bind_ok; [|by apply (pr_step_ok _ _ _ r p1)].
  erewrite bind_ok;
    [|apply (pr_step_ok _ _ _ (with_pr p1 r) p2); [apply Hlook|exact H2]].
  simpl. rewrite Halter.
  erewrite bind_ok;
    [|apply (pr_step_ok _ _ _ (with_pr p2 r) p3); [apply Hlook|exact H3]].
  simpl. rewrite Halter.
  erewrite bind_ok;
    [|apply (pr_step_ok _ _ _ (with_pr p3 r) p4); [apply Hlook|exact H4]].
  simpl. rewrite Halter.
  erewrite bind_ok;
    [|apply (pr_step_ok _ _ _ (with_pr p4 r) p5); [apply Hlook|exact H5]].
  simpl. by rewrite Halter.
Qed.

Lemma pr_step_raise self f w r e :
  w_heap w !! self = Some r → f (pr r) = Raise e →
  pr_step self f w = (Raise e, w).
Proof.
  intros Hr Hf. unfold pr_step, get_report, lift.
  unfold mbind, M_bind. rewrite Hr, Hf. reflexivity.
Qed.

(** A failure of a call that attaches fields is the failure of the work;
    nothing has been written then. *)
Lemma _bg_add_info_attach_fails self hook w r e :
  w_heap w !! self = Some r → attach_all hook (pr r) = Raise e →
  (_bg_add_info self hook w).1 = Raise e ∧
  w_files (_bg_add_info self hook w).2 = w_files w.
Proof.
  intros Hr. unfold attach_all, _bg_add_info.
  assert (Hlook : ∀ p, alter (with_pr p) self (w_heap w) !! self
                       = Some (with_pr p r))
    by (intros p; by rewrite list_lookup_alter_eq, Hr).
  assert (Halter : ∀ p q (l : list ErrorReport),
            alter (with_pr q) self (alter (with_pr p) self l)
            = alter (with_pr q) self l).
  { intros p q l. rewrite list_alter_alter_eq. by apply list_alter_ext. }
  destruct (hook (pr r)) as [p1|e1] eqn:H1.
  2: { intros [= ->].
       erewrite bind_raise; [|by apply (pr_step_raise _ _ _ r)]. done. }
  erewrite bind_ok; [|by apply (pr_step_ok _ _ _ r p1)].
  destruct (add_proc_info p1) as [p2|e2] eqn:H2.
  2: { intros [= ->].
       erewrite bind_raise;
         [|apply (pr_step_raise _ _ _ (with_pr p1 r));
           [apply Hlook|exact H2]].
       done. }
  erewrite bind_ok;
    [|apply (pr_step_ok _ _ _ (with_pr p1 r) p2); [apply Hlook|exact H2]].
  simpl. rewrite Halter.
  destruct (add_os_info p2) as [p3|e3] eqn:H3.
  2: { intros [= ->].
       erewrite bind_raise;
         [|apply (pr_step_raise _ _ _ (with_pr p2 r));
           [apply Hlook|exact H3]].
       done. }
  erewrite bind_ok;
    [|apply (pr_step_ok _ _ _ (with_pr p2 r) p3); [apply Hlook|exact H3]].
  simpl. rewrite Halter.
  destruct (add_hooks_info p3) as [p4|e4] eqn:H4.
  2: { intros [= ->].
       erewrite bind_raise;
         [|apply (pr_step_raise _ _ _ (with_pr p3 r));
           [apply Hlook|exact H4]].
       done. }
  erewrite bind_ok;
    [|apply (pr_step_ok _ _ _ (with_pr p3 r) p4); [apply Hlook|exact H4]].
  simpl. rewrite Halter.
  intros H5.
  erewrite bind_raise;
    [|apply (pr_step_raise _ _ _ (with_pr p4 r)); [apply Hlook|exact H5]].
  done.
Qed.

Lemma fixed_up_fields env p5 :
  fixed_up env p5 !! "Package" =
    Some ("subiquity " +:+ default "SNAP_REVISION" (env !! "SNAP_REVISION")) ∧
  fixed_up env p5 !! "SourcePackage" = Some "subiquity" ∧
  fixed_up env p5 !! "ExecutableTimestamp" = None ∧
  fixed_up env p5 !! "ProcMaps" = None ∧
  ∀ k, k ∉ ["Package"; "SourcePackage"; "ExecutableTimestamp"; "ProcMaps"] →
       fixed_up env p5 !! k = p5 !! k.
Proof.
  unfold fixed_up. split_and!.
  - rewrite !lookup_delete_ne by done.
    rewrite lookup_insert_ne by done. apply lookup_insert_eq.
  - rewrite !lookup_delete_ne by done. apply lookup_insert_eq.
  - rewrite lookup_delete_ne by done. apply lookup_delete_eq.
  - apply lookup_delete_eq.
  - intros k Hk.
    rewrite !lookup_delete_ne by set_solver.
    by rewrite !lookup_insert_ne by set_solver.
Qed.

(** The rest of the work, after the fields have been attached. *)
Lemma _bg_add_info_fixups self hook w r p5 :
  w_heap w !! self = Some r → attach_all hook (pr r) = Ok p5 →
  let put (p : pr_t) := with_heap (alter (with_pr p) self (w_heap w)) w in
  let p7 :=
    <["SourcePackage" := "subiquity"]>
      (<["Package" :=
           "subiquity " +:+
             default "SNAP_REVISION" (w_environ w !! "SNAP_REVISION")]> p5) in
  _bg_add_info self hook w =
    match p5 !! "ExecutableTimestamp" with
    | None => (Raise KeyError, put p7)
    | Some _ =>
        match p5 !! "ProcMaps" with
        | None => (Raise KeyError, put (delete "ExecutableTimestamp" p7))
        | Some _ =>
            match pr_write (fixed_up (w_environ w) p5) with
            | Raise e => (Raise e, put (fixed_up (w_environ w) p5))
            | Ok data =>
                match _file r with
                | None =>
                    (Raise AttributeError, put (fixed_up (w_environ w) p5))
                | Some f => fd_write f data (put (fixed_up (w_environ w) p5))
                end
            end
        end
    end.
Proof.
  intros Hr Hatt put p7.
  rewrite (_bg_add_info_attached self hook w r p5 Hr Hatt).
  assert (Hal : ∀ (f g : ErrorReport → ErrorReport) (l : list ErrorReport),
            alter f self (alter g self l) = alter (f ∘ g) self l)
    by (intros; by rewrite list_alter_alter_eq).
  assert (Hput : ∀ (f : ErrorReport → ErrorReport) p,
            (∀ x, f x = with_pr p x) →
            alter f self (w_heap w) = alter (with_pr p) self (w_heap w))
    by (intros f p Hf; by apply list_alter_ext).
  assert (Hlook : ∀ f : ErrorReport → ErrorReport,
            alter f self (w_heap w) !! self = Some (f r))
    by (intros f; by rewrite list_lookup_alter_eq, Hr).
  unfold gets, pr_setitem, pr_delitem, get_report, update_report, modify,
    lift.
  unfold mbind, M_bind. simpl. rewrite !Hal, !Hlook. simpl.
  rewrite lookup_insert_ne by done. rewrite lookup_insert_ne by done.
  destruct (p5 !! "ExecutableTimestamp") as [v|] eqn:Het; [|reflexivity].
  simpl. rewrite !Hal, !Hlook. simpl.
  rewrite lookup_delete_ne by done.
  rewrite lookup_insert_ne by done. rewrite lookup_insert_ne by done.
  destruct (p5 !! "ProcMaps") as [v'|] eqn:Hpm; [|reflexivity].
  simpl. rewrite !Hal, !Hlook. simpl. fold p7.
  change (delete "ProcMaps" (delete "ExecutableTimestamp" p7))
    with (fixed_up (w_environ w) p5).
  destruct (pr_write (fixed_up (w_environ w) p5)) as [data|e]; [|reflexivity].
  destruct (_file r) as [f|]; reflexivity.
Qed.

(** X6. When the work of [add_info] returns, every call that attaches
    fields has returned, the report has the fields they left with
    [Package] set to ["subiquity "] and the snap revision of the
    environment (or the text [SNAP_REVISION]), [SourcePackage] set to
    ["subiquity"], and neither [ExecutableTimestamp] nor [ProcMaps]; and
    what [pr.write] makes of these fields has been added to the file of
    the report. *)
Theorem _bg_add_info_writes_fixed_up (self : nat) (hook : hook_t)
    (w w' : world) (r : ErrorReport) :
  w_heap w !! self = Some r →
  _bg_add_info self hook w = (Ok tt, w') →
  ∃ p5 r' fd p m data,
    attach_all hook (pr r) = Ok p5 ∧
    w_heap w' !! self = Some r' ∧
    pr r' = fixed_up (w_environ w) p5 ∧
    pr r' !! "Package" =
      Some ("subiquity " +:+
            default "SNAP_REVISION" (w_environ w !! "SNAP_REVISION")) ∧
    pr r' !! "SourcePackage" = Some "subiquity" ∧
    pr r' !! "ExecutableTimestamp" = None ∧
    pr r' !! "ProcMaps" = None ∧
    _file r = Some fd ∧ w_fds w !! fd = Some (p, m) ∧ is_write m = true ∧
    pr_write (pr r') = Ok data ∧
    w_files w' = <[p := default EmptyString (w_files w !! p) +:+ data]>
                   (w_files w).
Proof.
  intros Hr Hok.
  destruct (attach_all hook (pr r)) as [p5|e] eqn:Hatt.
  2: { destruct (_bg_add_info_attach_fails self hook w r e Hr Hatt)
         as [Hfail _].
       by rewrite Hok in Hfail. }
  rewrite (_bg_add_info_fixups self hook w r p5 Hr Hatt) in Hok.
  simpl in Hok.
  destruct (p5 !! "ExecutableTimestamp"); [|done].
  destruct (p5 !! "ProcMaps"); [|done].
  destruct (pr_write (fixed_up (w_environ w) p5)) as [data|] eqn:Hwr; [|done].
  destruct (_file r) as [fd|] eqn:Hfd; [|done].
  unfold fd_write in Hok. simpl in Hok.
  destruct (w_fds w !! fd) as [[p m]|] eqn:Hfds; [|done].
  destruct (is_write m) eqn:Hm; [|done].
  injection Hok as <-.
  destruct (fixed_up_fields (w_environ w) p5) as (Hp & Hs & He & Hm' & _).
  exists p5, (with_pr (fixed_up (w_environ w) p5) r), fd, p, m, data.
  split_and!; try done.
  simpl. by rewrite list_lookup_alter_eq, Hr.
Qed.

(** X7. When the calls that attach fields return and leave the report
    without [ExecutableTimestamp] or without [ProcMaps], the work of
    [add_info] raises [KeyError] at the [del] of that field, and nothing is
    written to the file of the report. *)
Theorem _bg_add_info_missing_field (self : nat) (hook : hook_t) (w : world)
    (r : ErrorReport) (p5 : pr_t) :
  w_heap w !! self = Some r →
  attach_all hook (pr r) = Ok p5 →
  p5 !! "ExecutableTimestamp" = None ∨ p5 !! "ProcMaps" = None →
  (_bg_add_info self hook w).1 = Raise KeyError ∧
  w_files (_bg_add_info self hook w).2 = w_files w.
Proof.
  intros Hr Hatt Hmiss.
  rewrite (_bg_add_info_fixups self hook w r p5 Hr Hatt). simpl.
  destruct (p5 !! "ExecutableTimestamp"); [|done].
  destruct Hmiss as [?| ->]; done.
Qed.

(** ** [add_info] on a report whose file is closed *)

Lemma _bg_add_info_no_file self hook w r :
  w_heap w !! self = Some r → _file r = None →
  ∃ e, (_bg_add_info self hook w).1 = Raise e.
Proof.
  intros Hr Hf.
  destruct (attach_all hook (pr r)) as [p5|e] eqn:Hatt.
  2: { exists e. by apply (_bg_add_info_attach_fails self hook w r). }
  rewrite (_bg_add_info_fixups self hook w r p5 Hr Hatt). simpl.
  rewrite Hf. repeat case_match; eauto.
Qed.

Lemma added_info_no_file self fut w r :
  w_heap w !! self = Some r → _file r = None →
  added_info self fut w =
    (Raise AttributeError,
     with_log
       (w_log w ++ LogDebug "done adding info for report %s" (base r) ::
          match fut with
          | Ok _ => []
          | Raise e =>
              [LogException "adding info to problem report failed" e]
          end)
       (with_heap (alter (with_state (added_state fut)) self (w_heap w)) w)).
Proof.
  intros Hr Hf.
  unfold added_info, close_file, get_report, log_debug, log_exception,
    emit_signal, emit, update_report, fd_close, modify.
  unfold mbind, M_bind. rewrite Hr. simpl.
  destruct fut as [[]|e]; simpl; rewrite list_lookup_alter_eq, Hr; simpl;
    rewrite Hf; simpl; f_equal.
  world_eq. by rewrite <- (assoc_L (++)).
Qed.

(** X8. [add_info] in the background on a report whose file has been
    closed ([_file] is [None], as after a completed [add_info] or load):
    the work fails, the report ends in state [ERROR_GENERATING] with the
    failure logged, and the completion callback itself raises
    [AttributeError] at [self._file.close()], before any ["changed"]
    signal. *)
Theorem add_info_without_file (self : nat) (hook : hook_t) (w : world)
    (r : ErrorReport) :
  w_heap w !! self = Some r → _file r = None →
  let tid := w_next_task w in
  let w2 := run [AAddInfo self hook false; ABgRun tid] w in
  let w3 := (bg_deliver tid w2).2 in
  ∃ e,
    (run_work (WAddInfo self hook) (add_info self hook false w).2).1
      = Raise e ∧
    (bg_deliver tid w2).1 = Raise AttributeError ∧
    (∃ r3, w_heap w3 !! self = Some r3 ∧ state r3 = ERROR_GENERATING ∧
           _file r3 = None) ∧
    w_log w3 =
      w_log w ++ [LogDebug "begin adding info for report %s" (base r);
                  LogDebug "done adding info for report %s" (base r);
                  LogException "adding info to problem report failed" e].
Proof.
  intros Hr Hf tid w2 w3.
  set (w1 := (add_info self hook false w).2).
  assert (Hadd : add_info self hook false w =
                 (Ok tt,
                  with_tasks
                    (<[tid := add_info_task self hook]> (w_tasks w)) (S tid)
                    (with_log
                       (w_log w ++
                          [LogDebug "begin adding info for report %s" (base r)])
                       w))) by by rewrite (add_info_eq _ _ _ _ r).
  assert (Hw1 : w1 = (add_info self hook false w).2) by done.
  rewrite Hadd in Hw1. simpl in Hw1.
  assert (Ht1 : w_tasks w1 !! tid = Some (add_info_task self hook))
    by (rewrite Hw1; simpl; apply lookup_insert_eq).
  assert (Hr1 : w_heap w1 !! self = Some r) by by rewrite Hw1.
  destruct (_bg_add_info_no_file self hook w1 r Hr1 Hf) as [e He].
  exists e. split; [exact He|].
  pose proof (bg_run_eq tid w1 _ _ Ht1) as Hrun.
  set (wk := (run_work (WAddInfo self hook) w1).2) in *.
  assert (Hlog : w_log wk = w_log w1) by apply _bg_add_info_log.
  destruct (_bg_add_info_heap self hook w1 self r Hr1)
    as (rk & Hrk & Hb & Hs & Hfile & Hm).
  fold (run_work (WAddInfo self hook)) in Hrk. fold wk in Hrk.
  assert (Hw2 : w2 = (bg_run tid w1).2) by done.
  rewrite Hrun in Hw2. simpl in Hw2.
  rewrite He in Hw2.
  assert (Ht2 : w_tasks w2 !! tid =
                Some (mkTask (WAddInfo self hook) (CbAddedInfo self)
                        (Some (Raise e))))
    by (rewrite Hw2; simpl; apply lookup_insert_eq).
  pose proof (bg_deliver_eq tid w2 _ _ _ Ht2) as Hdel. simpl in Hdel.
  rewrite (added_info_no_file self (Raise e) _ rk) in Hdel;
    [|by rewrite Hw2|congruence].
  unfold w3. rewrite Hdel. simpl. split_and!; try done.
  - exists (with_state ERROR_GENERATING rk). rewrite Hw2. simpl.
    rewrite list_lookup_alter_eq, Hrk. simpl. split_and!; try done.
    congruence.
  - rewrite Hw2. simpl. rewrite Hlog, Hw1. simpl. rewrite Hb.
    by rewrite <- (assoc_L (++)).
Qed.

(** ** The load of a report in the background *)



(** ** [persistent_details] when the store is a mount point *)

Lemma find_mount_skip d pre lines :
  Forall (λ l, ∃ mnt, mount_point l = Some mnt ∧ normpath mnt ≠ d) pre →
  find_mount d (pre ++ lines) = find_mount d lines.
Proof.
  induction 1 as [|l pre (mnt & Hm & Hne) _ IH]; simpl; [done|].
  unfold mount_point in Hm. rewrite Hm.
  by rewrite bool_decide_eq_false_2.
Qed.

(** X10. When the first line of the mount table whose fifth field
    normalises to the directory of the store has ten fields or more, and
    [pyudev] lists a device for the resolved tenth field,
    [persistent_details] returns the [ID_FS_LABEL_ENC] of the first device
    (or the empty string when it has none) and the path made of the fourth
    field without its first character, a slash and the name of the
    artifact. *)
Theorem persistent_details_mounted (self : nat) (w : world)
    (r : ErrorReport) (text : string) (pre : list string) (line : string)
    (post : list string) (mnt devname root : string)
    (dev : gmap string string) (devs : list (gmap string string)) :
  w_heap w !! self = Some r →
  w_files w !! "/proc/self/mountinfo" = Some text →
  w_deny w RT "/proc/self/mountinfo" = false →
  readlines text = pre ++ line :: post →
  Forall (λ l, ∃ mnt, mount_point l = Some mnt ∧ normpath mnt ≠ looking_for w)
    pre →
  split_ws (strip line) !! 4%nat = Some mnt →
  normpath mnt = looking_for w →
  split_ws (strip line) !! 9%nat = Some devname →
  split_ws (strip line) !! 3%nat = Some root →
  udev_list_block_devices (realpath devname) = Ok (dev :: devs) →
  (persistent_details self w).1 =
    Ok (Some (default EmptyString (dev !! "ID_FS_LABEL_ENC")),
        Some (str_drop 1 root +:+ "/" +:+ base r +:+ ".crash")).
Proof.
  intros Hr Hf Hd Hlines Hpre H4 Hmnt H9 H3 Hdev.
  rewrite (persistent_details_eq _ _ _ _ Hr Hf Hd). simpl.
  rewrite Hlines, (find_mount_skip _ _ _ Hpre). simpl.
  rewrite H4, bool_decide_eq_true_2, H9, H3 by done.
  by rewrite Hdev.
Qed.

(** X11. A line of the mount table with fewer than five fields (a blank
    line, say) that comes before any line mounting the store makes
    [persistent_details] raise [IndexError]; so does the line that mounts
    the store when it has fewer than ten fields. *)
Theorem persistent_details_short_line (self : nat) (w : world)
    (r : ErrorReport) (text : string) (pre : list string) (line : string)
    (post : list string) :
  w_heap w !! self = Some r →
  w_files w !! "/proc/self/mountinfo" = Some text →
  w_deny w RT "/proc/self/mountinfo" = false →
  readlines text = pre ++ line :: post →
  Forall (λ l, ∃ mnt, mount_point l = Some mnt ∧ normpath mnt ≠ looking_for w)
    pre →
  mount_point line = None ∨
  (∃ mnt, mount_point line = Some mnt ∧ normpath mnt = looking_for w ∧
          split_ws (strip line) !! 9%nat = None) →
  (persistent_details self w).1 = Raise IndexError.
Proof.
  intros Hr Hf Hd Hlines Hpre Hshort.
  rewrite (persistent_details_eq _ _ _ _ Hr Hf Hd). simpl.
  rewrite Hlines, (find_mount_skip _ _ _ Hpre). simpl.
  unfold mount_point in Hshort.
  destruct Hshort as [-> | (mnt & -> & Hmnt & ->)]; [done|].
  by rewrite bool_decide_eq_true_2.
Qed.

(** ** The names of the files of a report *)

Lemma rfind_none c s : str_contains c s = false → rfind c s = (-1)%Z.
Proof.
  induction s as [|a s IH]; simpl; [done|].
  destruct (chr_eqb a c); [done|]. simpl. intros Hs. by rewrite IH.
Qed.

Lemma str_contains_app c s t :
  str_contains c (s +:+ t) = str_contains c s || str_contains c t.
Proof.
  induction s as [|a s IH]; [done|].
  change (String a s +:+ t) with (String a (s +:+ t)). simpl.
  rewrite IH. by rewrite orb_assoc.
Qed.

Lemma str_take_app s t : str_take (String.length s) (s +:+ t) = s.
Proof.
  induction s as [|a s IH]; [by destruct t|].
  change (String a s +:+ t) with (String a (s +:+ t)). simpl. by rewrite IH.
Qed.

Lemma str_take_drop n s : str_take n s +:+ str_drop n s = s.
Proof.
  revert s. induction n as [|n IH]; intros [|a s]; simpl; try done.
  change (String a (str_take n s) +:+ str_drop n s)
    with (String a (str_take n s +:+ str_drop n s)).
  by rewrite IH.
Qed.

Lemma splitext_loop_app p d i n :
  (splitext_loop p d i n).1 +:+ (splitext_loop p d i n).2 = p.
Proof.
  revert i. induction n as [|n IH]; intros i; simpl.
  { apply str_app_nil_r. }
  destruct (String.get i p) as [a|]; [|apply str_take_drop].
  destruct a as [[] [] [] [] [] [] [] []];
    first [apply IH | apply str_take_drop].
Qed.

(** [splitext] cuts its argument in two. *)
Lemma splitext_app p : (splitext p).1 +:+ (splitext p).2 = p.
Proof.
  unfold splitext. case_match; [apply splitext_loop_app|].
  apply str_app_nil_r.
Qed.

Lemma splitext_loop_first p d a rest n :
  p = String a rest → chr_eqb a "." = false →
  splitext_loop p d 0 (S n) = (str_take d p, str_drop d p).
Proof.
  intros -> Ha. simpl.
  destruct a as [[] [] [] [] [] [] [] []]; done.
Qed.

(** The extension of a plain base name followed by a dot and an extension
    without dots is that extension. *)
Lemma splitext_plain b ext :
  plain_base b = true →
  str_contains "." ext = false → str_contains "/" ext = false →
  splitext (b +:+ "." +:+ ext) = (b, "." +:+ ext).
Proof.
  unfold plain_base. intros [Hslash Hdot]%andb_prop Hext Hext'.
  apply negb_true_iff in Hslash.
  destruct b as [|a b']; [done|]. apply negb_true_iff in Hdot.
  unfold splitext.
  assert (rfind "/" (String a b' +:+ "." +:+ ext) = (-1)%Z) as ->.
  { apply rfind_none. rewrite !str_contains_app, Hslash, Hext'. done. }
  assert (rfind "." (String a b' +:+ "." +:+ ext)
          = Z.of_nat (String.length (String a b'))) as ->.
  { rewrite <- str_app_assoc. rewrite rfind_app_no by done.
    apply rfind_ends. }
  replace (-1 <? Z.of_nat (String.length (String a b')))%Z with true
    by (symmetry; apply Z.ltb_lt; lia).
  rewrite Nat2Z.id.
  replace (Z.to_nat (Z.of_nat (String.length (String a b')) - (-1 + 1)))
    with (S (String.length b')) by (simpl; lia).
  change (Z.to_nat (-1 + 1)) with 0.
  rewrite (splitext_loop_first _ _ a (b' +:+ "." +:+ ext)) by done.
  by rewrite str_take_app, str_drop_app.
Qed.

(** [from_file] on the path of a report with a plain base name finds that
    base name. *)
Lemma loading_report_base ctl r w :
  plain_base (base r) = true →
  base (loading_report (path ctl r) w) = base r ∧
  meta_path ctl (loading_report (path ctl r) w) = meta_path ctl r.
Proof.
  intros Hplain.
  assert (base (loading_report (path ctl r) w) = base r) as Hb.
  { unfold loading_report, path, _path_with_ext. simpl.
    pose proof Hplain as [Hslash _]%andb_prop.
    apply negb_true_iff in Hslash.
    rewrite basename_join
      by (rewrite !str_contains_app, Hslash; done).
    by rewrite splitext_plain. }
  split; [done|]. unfold meta_path, _path_with_ext. by rewrite Hb.
Qed.

(** [from_file] on the artifact of a report with a plain base name, when
    the artifact and the metadata file are there. *)
Lemma from_file_of_report w r c text j :
  plain_base (base r) = true →
  w_files w !! path (w_ctl w) r = Some c →
  w_deny w RB (path (w_ctl w) r) = false →
  w_files w !! meta_path (w_ctl w) r = Some text →
  w_deny w RT (meta_path (w_ctl w) r) = false →
  json_loads text = Some j →
  ∃ w2 rep2,
    from_file (path (w_ctl w) r) w = (Ok (length (w_heap w)), w2) ∧
    w_heap w2 !! length (w_heap w) = Some rep2 ∧
    base rep2 = base r ∧ meta rep2 = j ∧ state rep2 = LOADING.
Proof.
  intros Hplain Hc Hrb Hm Hrt Hj. rewrite from_file_eq.
  destruct (loading_report_base (w_ctl w) r w Hplain) as [Hb Hmp].
  cbv zeta. rewrite Hc, Hrb, Hmp, Hm, Hrt, Hj.
  eexists _, (with_meta j (loading_report (path (w_ctl w) r) w)).
  split; [done|]. simpl.
  split_and!; [by apply list_lookup_middle|exact Hb|done|done].
Qed.

(** X12. After [set_meta] has returned on a report with a plain base
    name whose artifact exists and can be read, [from_file] on the path of
    the artifact builds a report with the same base name and, when [json]
    can represent the new [meta], the same [meta]: the path of the
    artifact leads back to the metadata file that [set_meta] wrote. *)
Theorem set_meta_then_from_file (self : nat) (key : string) (value : json)
    (w w1 : world) (r : ErrorReport) (d : gmap string json) :
  w_heap w !! self = Some r → meta r = JObj d →
  set_meta self key value w = (Ok tt, w1) →
  plain_base (base r) = true →
  is_Some (w_files w !! path (w_ctl w) r) →
  w_deny w RB (path (w_ctl w) r) = false →
  w_deny w RT (meta_path (w_ctl w) r) = false →
  json_compatible (JObj (<[key := value]> d)) →
  ∃ r2 w2 rep2,
    from_file (path (w_ctl w1) r) w1 = (Ok r2, w2) ∧
    w_heap w2 !! r2 = Some rep2 ∧
    base rep2 = base r ∧ meta rep2 = JObj (<[key := value]> d) ∧
    state rep2 = LOADING.
Proof.
  intros Hr Hm Hset Hplain [c Hc] Hrb Hrt Hjson.
  destruct (set_meta_ok_world _ _ _ _ _ Hset)
    as (r0 & d0 & Hr0 & Hm0 & _ & Hw1).
  assert (r0 = r) as -> by congruence.
  assert (d0 = d) as -> by congruence.
  assert (Hctl : w_ctl w1 = w_ctl w) by by rewrite Hw1.
  assert (Hfiles : w_files w1 =
                   <[meta_path (w_ctl w) r :=
                       json_dumps (JObj (<[key := value]> d))]> (w_files w))
    by by rewrite Hw1.
  assert (Hdeny : w_deny w1 = w_deny w) by by rewrite Hw1.
  destruct (from_file_of_report w1 r c
              (json_dumps (JObj (<[key := value]> d)))
              (JObj (<[key := value]> d)) Hplain)
    as (w2 & rep2 & Hff & Hrep2 & Hres); rewrite ?Hctl, ?Hfiles, ?Hdeny;
    try done.
  - by rewrite lookup_insert_ne by (symmetry; apply path_not_meta_path).
  - apply lookup_insert_eq.
  - rewrite Hctl in Hff. by eexists _, _, _.
Qed.

(** *** The names that [new] gives *)

Lemma string_of_uint_digits c d :
  is_digit c = false → str_contains c (NilEmpty.string_of_uint d) = false.
Proof.
  intros Hc.
  induction d; cbn [NilEmpty.string_of_uint str_contains]; [done|..];
    rewrite IHd, orb_false_r; unfold chr_eqb;
    match goal with
    | |- Ascii.eqb ?a c = false =>
        destruct (Ascii.eqb_spec a c) as [<-|]; [done|done]
    end.
Qed.

Lemma str_of_N_digits c n :
  is_digit c = false → str_contains c (str_of_N n) = false.
Proof. apply string_of_uint_digits. Qed.

Lemma str_of_N_first n :
  ∃ a s, str_of_N n = String a s ∧ is_digit a = true.
Proof.
  unfold str_of_N. destruct n as [|p]; [by eexists _, _|].
  pose proof (DecimalPos.Unsigned.to_uint_nonnil p) as Hp.
  unfold N.to_uint. destruct (Pos.to_uint p); [done|..];
    by eexists _, _.
Qed.

Lemma zfill_go_contains c k s :
  chr_eqb "0" c = false →
  str_contains c (zfill_go k s) = str_contains c s.
Proof.
  intros Hc. induction k as [|k IH]; cbn [zfill_go str_contains]; [done|].
  by rewrite Hc.
Qed.

Lemma is_digit_eqb a c :
  is_digit a = true → is_digit c = false → chr_eqb a c = false.
Proof.
  intros Ha Hc. unfold chr_eqb.
  destruct (Ascii.eqb_spec a c) as [->|]; [congruence|done].
Qed.

Lemma format_9f_contains c t :
  is_digit c = false → chr_eqb "." c = false →
  str_contains c (format_9f t) = false.
Proof.
  intros Hc Hdot. unfold format_9f, zfill.
  rewrite !str_contains_app. rewrite !str_of_N_digits by done.
  rewrite zfill_go_contains by by apply is_digit_eqb.
  rewrite str_of_N_digits by done. cbn [str_contains]. by rewrite Hdot.
Qed.

(** The base names that [new] makes are plain. *)
Lemma new_base_plain kind0 w : plain_base (new_base kind0 w) = true.
Proof.
  unfold plain_base, new_base. apply andb_true_intro. split.
  - apply negb_true_iff. rewrite !str_contains_app.
    rewrite format_9f_contains by done. by destruct kind0.
  - unfold format_9f.
    destruct (str_of_N_first (w_clock w (w_clock_reads w) / 1000000000))
      as (a & s & -> & Ha).
    change (negb (chr_eqb a ".") = true).
    apply negb_true_iff. by apply is_digit_eqb.
Qed.

(** X13. A report made by [create_report] can be read back: when the
    artifact and the metadata file can be read and [json] can represent
    the mapping of the kind, [from_file] on the path of the artifact builds
    a report in state [LOADING] with the same base name, the same [meta]
    and the same kind. *)
Theorem created_report_reads_back (kind0 : ErrorReportKind) (w w1 : world)
    (r : nat) :
  let rep := new_report kind0 w in
  create_report kind0 w = (Ok r, w1) →
  w_deny w RB (path (w_ctl w) rep) = false →
  w_deny w RT (meta_path (w_ctl w) rep) = false →
  json_compatible (meta rep) →
  ∃ r2 w2 rep2,
    from_file (path (w_ctl w1) rep) w1 = (Ok r2, w2) ∧
    w_heap w2 !! r2 = Some rep2 ∧
    base rep2 = base rep ∧ meta rep2 = meta rep ∧
    kind rep2 = Ok (PyKind kind0) ∧ state rep2 = LOADING.
Proof.
  intros rep. rewrite create_report_eq, new_eq. cbv zeta. fold rep.
  destruct (w_deny w WB (path (w_ctl w) rep)); [done|].
  destruct (w_deny w WT (meta_path (w_ctl w) rep)); [done|].
  intros [= <- Hw1] Hrb Hrt Hjson.
  assert (Hdir : crash_directory (w_ctl w1) = crash_directory (w_ctl w))
    by by rewrite <- Hw1.
  assert (Hfiles : w_files w1 =
                   <[meta_path (w_ctl w) rep := json_dumps (meta rep)]>
                     (<[path (w_ctl w) rep := EmptyString]> (w_files w)))
    by by rewrite <- Hw1.
  assert (Hdeny : w_deny w1 = w_deny w) by by rewrite <- Hw1.
  clear Hw1.
  assert (Hp : path (w_ctl w1) rep = path (w_ctl w) rep)
    by (unfold path, _path_with_ext; by rewrite Hdir).
  assert (Hmp : meta_path (w_ctl w1) rep = meta_path (w_ctl w) rep)
    by (unfold meta_path, _path_with_ext; by rewrite Hdir).
  destruct (from_file_of_report w1 rep EmptyString (json_dumps (meta rep))
              (meta rep) (new_base_plain kind0 w))
    as (w2 & rep2 & Hff & Hrep2 & Hb2 & Hm2 & Hs2);
    rewrite ?Hp, ?Hmp, ?Hfiles, ?Hdeny; try done.
  - rewrite lookup_insert_ne by (symmetry; apply path_not_meta_path).
    apply lookup_insert_eq.
  - apply lookup_insert_eq.
  - eexists _, _, rep2. rewrite Hp in Hff. split_and!; try done.
    unfold kind, dict_get. rewrite Hm2. cbn [meta rep new_report].
    rewrite lookup_insert_eq. unfold default, from_option, id.
    unfold getattr_ErrorReportKind. by rewrite kind_of_name_kind_name.
Qed.







(** ** The order and the names of the reports of a scan *)

Lemma NoDup_omap {A B} (f : A → option B) (l : list A) :
  (∀ x y z, f x = Some z → f y = Some z → x = y) →
  NoDup l → NoDup (omap f l).
Proof.
  intros Hinj. induction 1 as [|x l Hx Hl IH]; simpl; [constructor|].
  destruct (f x) as [z|] eqn:Hz; [|done].
  constructor; [|done].
  intros (y & Hy & Hfy)%list_elem_of_omap.
  by rewrite (Hinj x y z Hz Hfy) in Hx.
Qed.

Lemma listdir_names_NoDup files d : NoDup (listdir_names files d).
Proof.
  unfold listdir_names. apply NoDup_omap.
  - intros p q n (_ & _ & ->)%dir_entry_Some (_ & _ & ->)%dir_entry_Some.
    done.
  - apply NoDup_fst_map_to_list.
Qed.

Lemma crash_entries_NoDup w : NoDup (crash_entries w).
Proof.
  unfold crash_entries, sorted_reverse. apply NoDup_filter.
  rewrite merge_sort_Permutation. apply listdir_names_NoDup.
Qed.

Lemma str_le_ltb s t : String.le s t → s ≠ t → String.ltb s t = true.
Proof.
  unfold String.ltb, String.le, String.leb.
  destruct (String.compare s t) eqn:Hc; try done.
  intros _ Hne. by apply String.compare_eq_iff in Hc.
Qed.

Lemma crash_entries_descending w :
  StronglySorted (λ f g, String.ltb g f = true) (crash_entries w).
Proof.
  pose proof (crash_entries_NoDup w) as Hnd.
  assert (StronglySorted (flip String.le) (crash_entries w)) as Hs.
  { unfold crash_entries, sorted_reverse. apply StronglySorted_filter.
    apply StronglySorted_merge_sort; apply _. }
  induction Hs as [|f l Hl IH Hf]; [constructor|].
  apply NoDup_cons in Hnd as [Hnin Hnd].
  constructor; [by apply IH|].
  apply Forall_forall. intros g Hg.
  apply str_le_ltb; [by eapply Forall_forall in Hf|].
  intros ->. done.
Qed.

Lemma crash_entry_base_inj f g :
  is_crash f = true → is_crash g = true →
  (splitext f).1 = (splitext g).1 → f = g.
Proof.
  unfold is_crash. intros Hf%bool_decide_eq_true Hg%bool_decide_eq_true Hb.
  rewrite <- (splitext_app f), <- (splitext_app g). by rewrite Hf, Hg, Hb.
Qed.

Lemma scanned_bases w rids fs :
  Forall2 (scanned w) rids fs →
  Forall (λ f, str_contains "/" f = false) fs →
  base_of w <$> rids = (λ f, (splitext f).1) <$> fs.
Proof.
  induction 1 as [|rid f rids fs Hrf _ IH]; intros Hs; simpl; [done|].
  apply Forall_cons in Hs as [Hf Hs]. f_equal; [|by apply IH].
  by destruct (scanned_base _ _ _ Hrf Hf).
Qed.

(** X15. When [scan_crash_dir] returns, the reports it has appended are
    those of the artifacts of the store in strictly descending order of
    their names, and no two of them have the same base name. *)
Theorem scan_reports_descending_distinct (w w' : world) :
  crash_directory (w_ctl w) ∈ w_dirs w →
  scan_crash_dir w = (Ok tt, w') →
  ∃ rids,
    reports (w_ctl w') = reports (w_ctl w) ++ rids ∧
    Forall2 (scanned w') rids (crash_entries w) ∧
    StronglySorted (λ f g, String.ltb g f = true) (crash_entries w) ∧
    NoDup (base_of w' <$> rids).
Proof.
  intros Hdir Hscan.
  destruct (scan_crash_dir_spec w Hdir)
    as (rids & pre & [l|e] & w1 & Hrel & Hreps & Hsc & Hpre & Hres).
  2: { destruct Hres as [_ Hres]. by rewrite Hscan in Hres. }
  destruct Hres as [-> Hres]. rewrite Hscan in Hres.
  injection Hres as ->.
  assert (Hsc' : Forall2
                   (scanned match rids with
                            | [] => w1
                            | r :: _ => submit (load_task r rids) w1
                            end) rids (crash_entries w))
    by by destruct rids.
  assert (Hreps' : reports (w_ctl match rids with
                                  | [] => w1
                                  | r :: _ => submit (load_task r rids) w1
                                  end) = reports (w_ctl w) ++ rids)
    by by destruct rids.
  set (w' := match rids with
             | [] => w1
             | r :: _ => submit (load_task r rids) w1
             end) in *.
  exists rids. split_and!; try done.
  - apply crash_entries_descending.
  - rewrite (scanned_bases _ _ _ Hsc').
    2: { apply Forall_forall. intros f Hf.
         by destruct (crash_entries_spec w f Hf) as (_ & ? & _). }
    apply NoDup_fmap_2_strong; [|apply crash_entries_NoDup].
    intros f g Hf Hg. apply crash_entry_base_inj.
    + by destruct (crash_entries_spec w f Hf).
    + by destruct (crash_entries_spec w g Hg).
Qed.

(** ** [add_info] with [wait=True] *)

(** X16. [add_info] with [wait=True] does the work and nothing else,
    whatever the outcome of the work: its result is the result of the
    work, and the report keeps its state, its open file and its [meta]; no
    file is closed, no task is handed to the background runner and the log
    gets the one record of the beginning, so no ["changed"] signal. *)
Theorem add_info_wait_only_runs_the_work (self : nat) (hook : hook_t)
    (w : world) (r : ErrorReport) :
  w_heap w !! self = Some r →
  let w1 :=
    with_log (w_log w ++ [LogDebug "begin adding info for report %s" (base r)])
      w in
  let w' := (add_info self hook true w).2 in
  (add_info self hook true w).1 = (_bg_add_info self hook w1).1 ∧
  (∃ r', w_heap w' !! self = Some r' ∧ state r' = state r ∧
         _file r' = _file r ∧ meta r' = meta r ∧ base r' = base r) ∧
  w_fds w' = w_fds w ∧ w_tasks w' = w_tasks w ∧
  w_log w' = w_log w ++ [LogDebug "begin adding info for report %s" (base r)].
Proof.
  intros Hr w1 w'. unfold w'. rewrite (add_info_eq _ _ _ _ r Hr).
  cbv zeta. fold w1.
  assert (Hr1 : w_heap w1 !! self = Some r) by done.
  destruct (_bg_add_info_heap self hook w1 self r Hr1)
    as (rk & Hrk & Hb & Hs & Hfile & Hm).
  split_and!.
  - done.
  - by exists rk.
  - apply (_bg_add_info_fds self hook w1).
  - apply (_bg_add_info_tasks self hook w1).
  - apply (_bg_add_info_log self hook w1).
Qed.

(** ** The artifact of a new report *)


(** ** The failures of [from_file] *)


(** ** A scan that finds no artifact *)

Lemma scan_loop_no_crash names to_load w :
  Forall (λ f, is_crash f = false) names →
  scan_loop names to_load w = (Ok to_load, w).
Proof.
  induction 1 as [|f names Hf _ IH]; simpl; [done|].
  unfold is_crash in Hf. destruct (splitext f) as [b ext]. simpl in Hf.
  apply bool_decide_eq_false in Hf. by rewrite bool_decide_eq_true_2.
Qed.

(** X19. When no entry of the directory of the store has the extension
    [.crash] (the directory is empty, say), [scan_crash_dir] returns and
    leaves the world as it was: no report, no open file, no load. *)
Theorem scan_without_artifacts (w : world) :
  crash_directory (w_ctl w) ∈ w_dirs w →
  crash_entries w = [] →
  scan_crash_dir w = (Ok tt, w).
Proof.
  intros Hdir Hnone. unfold scan_crash_dir, gets, listdir.
  unfold mbind at 1 2, M_bind. simpl. rewrite bool_decide_eq_true_2 by done.
  unfold mbind, M_bind. rewrite scan_loop_no_crash; [done|].
  apply Forall_forall. intros f Hf.
  destruct (is_crash f) eqn:Hc; [|done].
  assert (f ∈ crash_entries w) as Hin
    by (unfold crash_entries; by apply list_elem_of_filter).
  rewrite Hnone in Hin. by apply not_elem_of_nil in Hin.
Qed.

End More.

(** * Properties of the update checker *)

Section RefreshProperties.
Import Refresh.

(** ** [get_refresh_channel] *)

Lemma str_forall_app P s t :
  str_forall P (s +:+ t) = str_forall P s && str_forall P t.
Proof.
  induction s as [|a s IH]; [done|].
  change (String a s +:+ t) with (String a (s +:+ t)). simpl.
  by rewrite IH, andb_assoc.
Qed.

Lemma str_forall_rev_app P s t :
  str_forall P (String.rev_app s t) = str_forall P s && str_forall P t.
Proof.
  revert t. induction s as [|a s IH]; intros t; simpl; [done|].
  rewrite IH. simpl. rewrite !andb_assoc. f_equal. apply andb_comm.
Qed.

Lemma str_forall_rev P s : str_forall P (String.rev s) = str_forall P s.
Proof.
  unfold String.rev. rewrite str_forall_rev_app. simpl. apply andb_true_r.
Qed.

Lemma str_forall_drop P n s :
  str_forall P s = true → str_forall P (str_drop n s) = true.
Proof.
  revert s. induction n as [|n IH]; intros [|a s]; simpl; try done.
  intros [_ Hs]%andb_prop. by apply IH.
Qed.

(** The pieces of [s.split()] hold no white space. *)
Lemma split_ws_go_tokens cur s x :
  x ∈ split_ws_go cur s →
  str_forall (λ c, negb (chr_isspace c)) (default EmptyString cur) = true →
  str_forall (λ c, negb (chr_isspace c)) x = true.
Proof.
  revert cur. induction s as [|a s IH]; intros cur; simpl.
  - destruct cur as [y|]; simpl; [|by intros ?%not_elem_of_nil].
    intros ->%list_elem_of_singleton Hy. by rewrite str_forall_rev.
  - destruct (chr_isspace a) eqn:Ha.
    + intros [Hx|Hx]%elem_of_app Hy.
      * destruct cur as [y|]; simpl in *; [|by apply not_elem_of_nil in Hx].
        apply list_elem_of_singleton in Hx as ->.
        by rewrite str_forall_rev.
      * by apply (IH None).
    + intros Hx Hy. apply (IH _ Hx). simpl. by rewrite Ha.
Qed.

Lemma split_ws_tokens s x :
  x ∈ split_ws s → str_forall (λ c, negb (chr_isspace c)) x = true.
Proof. intros Hx. by apply (split_ws_go_tokens None s x). Qed.

(** X20. Without a channel in the answers, when an argument of the
    kernel command line starts with [subiquity-channel=],
    [get_refresh_channel] returns what follows the prefix in the first
    such argument, which holds no white space, and logs the argument; it
    does not look at the medium: the one file it has opened,
    [/proc/cmdline], is closed again. *)
Theorem get_refresh_channel_kernel_cmdline (self : RefreshController)
    (w : world) (cmdline : string) (pre : list string) (arg : string)
    (post : list string) :
  answers self !! "channel" = None →
  w_files w !! "/proc/cmdline" = Some cmdline →
  w_deny w RT "/proc/cmdline" = false →
  split_ws cmdline = pre ++ arg :: post →
  Forall (λ a, str_startswith prefix a = false) pre →
  str_startswith prefix arg = true →
  let channel := str_drop (String.length prefix) arg in
  get_refresh_channel self w =
    (Ok (JStr channel),
     with_log
       (w_log w ++
          [LogDebug "get_refresh_channel: found %s on kernel cmdline" arg])
       (with_fds
          (delete (w_next_fd w)
             (<[w_next_fd w := ("/proc/cmdline", RT)]> (w_fds w)))
          (S (w_next_fd w)) w)) ∧
  arg = prefix +:+ channel ∧
  str_forall (λ c, negb (chr_isspace c)) channel = true.
Proof.
  intros Hans Hf Hd Hsplit Hpre Harg channel. split_and!.
  - unfold get_refresh_channel. rewrite Hans.
    unfold open_file, with_fp, try_finally, fd_read, fd_close, modify,
      log_debug, emit.
    unfold mbind, M_bind, mret, M_ret. simpl. rewrite Hf, Hd. simpl.
    rewrite lookup_insert_eq. simpl. rewrite Hf. simpl. rewrite Hsplit.
    assert (find (str_startswith prefix) (pre ++ arg :: post) = Some arg)
      as ->.
    { clear Hsplit. induction Hpre as [|a pre Ha _ IH]; simpl.
      - by rewrite Harg.
      - by rewrite Ha. }
    done.
  - unfold str_startswith in Harg.
    destruct (str_strip_prefix prefix arg) as [n|] eqn:Hn; [|done].
    apply str_strip_prefix_Some in Hn. unfold channel.
    rewrite Hn at 1. f_equal. rewrite Hn. by rewrite str_drop_app.
  - apply str_forall_drop, (split_ws_tokens cmdline).
    rewrite Hsplit. set_solver.
Qed.

(** X21. Without a channel in the answers or on the kernel command
    line, [get_refresh_channel] goes by the [.disk/info] of the medium:
    the result is [stable/ubuntu-] and the second word of the file, and
    [IndexError] when the file has fewer than two words; without the file
    the result is [stable/ubuntu-18.04.2] in a dry run and [None]
    otherwise. *)
Theorem get_refresh_channel_disk_info (self : RefreshController) (w : world)
    (cmdline : string) :
  answers self !! "channel" = None →
  w_files w !! "/proc/cmdline" = Some cmdline →
  w_deny w RT "/proc/cmdline" = false →
  Forall (λ a, str_startswith prefix a = false) (split_ws cmdline) →
  w_deny w RT info_file = false →
  (get_refresh_channel self w).1 =
    match w_files w !! info_file with
    | Some info =>
        match split_ws info with
        | _ :: release :: _ => Ok (JStr ("stable/ubuntu-" +:+ release))
        | _ => Raise IndexError
        end
    | None =>
        if dry_run self then Ok (JStr "stable/ubuntu-18.04.2") else Ok JNull
    end.
Proof.
  intros Hans Hf Hd Hnone Hdi.
  unfold get_refresh_channel. rewrite Hans.
  unfold open_file, with_fp, try_finally, try_except, fd_read, fd_close,
    modify, log_debug, emit, raise.
  unfold mbind, M_bind, mret, M_ret. simpl. rewrite Hf, Hd. simpl.
  rewrite lookup_insert_eq. simpl. rewrite Hf. simpl.
  assert (find (str_startswith prefix) (split_ws cmdline) = None) as ->.
  { induction Hnone as [|a l Ha _ IH]; simpl; [done|]. by rewrite Ha. }
  destruct (w_files w !! info_file) as [info|] eqn:Hinfo; simpl;
    rewrite ?Hinfo, ?Hdi; simpl.
  - rewrite lookup_insert_eq. simpl. rewrite Hinfo. simpl.
    by destruct (split_ws info) as [|? [|? ?]].
  - by destruct (dry_run self).
Qed.

(** ** [start_ui] *)

(** X22. [start_ui] shows the view only when the application has not
    been updated and an update is available, or, on the second screen,
    still being checked for; and when it raises, which is [Skip] unless
    the index is neither 1 nor 2, it has changed nothing and has not
    touched the user interface.  After an update [Skip] is raised for
    every index. *)
Theorem start_ui_shows_or_leaves_alone (index : Z) (s : rstate) :
  match (start_ui index s).1 with
  | ROk _ =>
      updated (ctl s) = false ∧
      check_state (ctl s) ∈ [AVAILABLE; CHECKING] ∧
      SetBodyRefreshView ∈ seen_events (start_ui index s).2
  | RRaise e =>
      (start_ui index s).2 = s ∧
      (e = Skip ∨
       e = AssertionError ("unexpected index " +:+ str_of_Z index) ∧
       updated (ctl s) = false ∧ index ≠ 1%Z ∧ index ≠ 2%Z)
  end.
Proof.
  destruct s as [c evs]. unfold start_ui, rself, rraise, rset, remit, done.
  unfold mbind, RM_bind, mret, RM_ret. simpl.
  destruct (updated c) eqn:Hu; simpl; [by split; [|left]|].
  assert (Hshown : ∀ rest,
            SetBodyRefreshView ∈ (evs ++ [SetBodyRefreshView]) ++ rest).
  { intros rest. rewrite !elem_of_app, list_elem_of_singleton. by left; right. }
  assert (Hshown' : SetBodyRefreshView ∈ evs ++ [SetBodyRefreshView]).
  { rewrite elem_of_app, list_elem_of_singleton. by right. }
  case_bool_decide as H1; simpl.
  - case_bool_decide as Ha; simpl; [|by split; [|left]].
    assert (check_state c ∈ [AVAILABLE; CHECKING]) as Hin
      by (rewrite Ha; apply elem_of_cons; by left).
    destruct (answers c !! "update") as [u|]; simpl;
      [destruct (truthy u); simpl|]; split_and!; try done.
    rewrite <- (assoc_L (++)). apply Hshown.
  - case_bool_decide as H2; simpl.
    + destruct (offered_first_time c); simpl; [by split; [|left]|].
      case_bool_decide as Ha; simpl; [|by split; [|left]].
      destruct (answers c !! "update") as [u|]; simpl;
        [destruct (truthy u); simpl|]; split_and!; try done.
      rewrite <- (assoc_L (++)). apply Hshown.
    + split; [done|]. by right.
Qed.

Lemma check_snaps_offered py_repr snaps s :
  offered_first_time (ctl (check_snaps py_repr snaps s).2)
  = offered_first_time (ctl s).
Proof.
  revert s. induction snaps as [|snap rest IH]; intros [c evs]; [done|].
  simpl. unfold rself, rlift, rset, remit.
  unfold mbind, RM_bind, mret, RM_ret. simpl.
  destruct (getitem snap "name") as [name|e]; simpl; [|done].
  destruct (eq_str name (snap_name c)); [|apply IH].
  simpl. by destruct (getitem snap "version").
Qed.

Lemma rexec_offered py_str py_repr a s :
  offered_first_time (ctl s) = true →
  offered_first_time (ctl (rexec py_str py_repr a s).2) = true.
Proof.
  destruct s as [c evs]. intros Ho. simpl in Ho.
  destruct a as [index|configured response| | |]; simpl.
  - unfold start_ui, rself, rraise, rset, remit, done.
    unfold mbind, RM_bind, mret, RM_ret. simpl.
    destruct (updated c); simpl; [done|].
    case_bool_decide; simpl.
    + case_bool_decide; simpl; [|done].
      destruct (answers c !! "update") as [u|]; simpl;
        [destruct (truthy u)|]; done.
    + case_bool_decide; simpl; [|done]. rewrite Ho. done.
  - unfold check_for_update, check_for_update_begin,
      check_for_update_resume, rself, rlift, rraise, rset, remit.
    unfold mbind, RM_bind, mret, RM_ret. simpl.
    destruct configured as [[]|e]; simpl; [|done].
    destruct (updated c); simpl; [done|].
    destruct response as [result|[]]; simpl; try done.
    destruct (getitem result "result") as [r|]; simpl; [|done].
    destruct (iterate r) as [snaps|]; simpl; [|done].
    match goal with
    | |- context [check_snaps py_repr snaps ?s0] =>
        pose proof (check_snaps_offered py_repr snaps s0) as Hc;
        destruct (check_snaps py_repr snaps s0) as [[[]|e] [c' evs']]
    end; simpl in *; rewrite ?Ho in Hc; [| |exact Hc];
      by destruct (showing c').
  - unfold snapd_network_changed, rself, remit.
    unfold mbind, RM_bind, mret, RM_ret. simpl. by case_match.
  - done.
  - done.
Qed.

(** X23. The update is offered once: after [start_ui(1)] has shown the
    view, whatever happens to the controller next (checks for updates
    with any outcome, changes of the network, the buttons of the view,
    further screens), [start_ui(2)] raises [Skip] and leaves the
    controller and the user interface alone. *)
Theorem refresh_offered_once (py_str py_repr : json → string)
    (s s1 : rstate) (acts : list raction) :
  start_ui 1 s = (ROk tt, s1) →
  let s2 := rrun py_str py_repr acts s1 in
  start_ui 2 s2 = (RRaise Skip, s2).
Proof.
  intros Hshown s2.
  assert (offered_first_time (ctl s1) = true) as Ho1.
  { destruct s as [c evs]. revert Hshown.
    unfold start_ui, rself, rraise, rset, remit, done.
    unfold mbind, RM_bind, mret, RM_ret. simpl.
    destruct (updated c); simpl; [done|].
    case_bool_decide; simpl; [|done].
    destruct (answers c !! "update") as [u|]; simpl;
      [destruct (truthy u)|]; simpl; by intros [= <-]. }
  assert (offered_first_time (ctl s2) = true) as Ho2.
  { unfold s2. clear Hshown s2. revert s1 Ho1.
    induction acts as [|a acts IH]; intros s1 Ho1; simpl; [done|].
    by apply IH, rexec_offered. }
  destruct s2 as [c evs]. simpl in Ho2.
  unfold start_ui, rself, rraise, rset, remit.
  unfold mbind, RM_bind, mret, RM_ret. simpl.
  destruct (updated c); simpl; [done|]. by rewrite Ho2.
Qed.

(** ** [check_for_update] *)

Lemma check_snaps_skip py_repr pre rest s :
  Forall (λ x, ∃ n, getitem x "name" = ROk n ∧
                    eq_str n (snap_name (ctl s)) = false) pre →
  check_snaps py_repr (pre ++ rest) s = check_snaps py_repr rest s.
Proof.
  induction 1 as [|x pre (n & Hn & Hne) _ IH]; [done|].
  destruct s as [c evs]. simpl in *. unfold rself, rlift.
  unfold mbind, RM_bind. simpl. rewrite Hn. simpl. by rewrite Hne.
Qed.

Lemma check_snaps_result py_repr snaps s b s' :
  check_snaps py_repr snaps s = (ROk b, s') →
  if b then check_state (ctl s') = AVAILABLE else s' = s.
Proof.
  revert s. induction snaps as [|snap rest IH]; intros [c evs]; simpl.
  { by intros [= <- <-]. }
  unfold rself, rlift, rset, remit. unfold mbind, RM_bind, mret, RM_ret.
  simpl. destruct (getitem snap "name") as [name|e]; simpl; [|done].
  destruct (eq_str name (snap_name c)); [|apply IH].
  simpl. destruct (getitem snap "version") as [v|e]; simpl; [|done].
  by intros [= <- <-].
Qed.

(** X24. When the application has not been updated and the response of
    [snapd] lists snaps, [check_for_update] takes the first snap whose
    name is the name of the installer: the state becomes [AVAILABLE] and
    [new_snap_version] the version of that snap, whatever snaps come after
    it. *)
Theorem check_for_update_first_match (py_str py_repr : json → string)
    (s : rstate) (result : json) (pre : list json) (snap : json)
    (post : list json) (n v : json) :
  updated (ctl s) = false →
  getitem result "result" = ROk (JArr (pre ++ snap :: post)) →
  Forall (λ x, ∃ n, getitem x "name" = ROk n ∧
                    eq_str n (snap_name (ctl s)) = false) pre →
  getitem snap "name" = ROk n → eq_str n (snap_name (ctl s)) = true →
  getitem snap "version" = ROk v →
  let s' := (check_for_update py_str py_repr (ROk tt) (ROk result) s).2 in
  (check_for_update py_str py_repr (ROk tt) (ROk result) s).1 = ROk tt ∧
  check_state (ctl s') = AVAILABLE ∧ new_snap_version (ctl s') = v ∧
  seen_events s' =
    seen_events s ++
      [RLogDebug "check_for_update received %s" [py_str result];
       RLogDebug "new version of snap available: %r" [py_repr v]] ++
      (if showing (ctl s) then [BodyUpdateCheckState] else []).
Proof.
  destruct s as [c evs]. simpl. intros Hu Hres Hpre Hn Heq Hv.
  unfold check_for_update, check_for_update_begin, check_for_update_resume,
    rself, rlift, rset, remit.
  unfold mbind, RM_bind, mret, RM_ret. simpl.
  rewrite Hu. simpl. rewrite Hres. simpl.
  rewrite check_snaps_skip by done. simpl.
  unfold rself, rlift, rset, remit. unfold mbind, RM_bind, mret, RM_ret.
  simpl. rewrite Hn. simpl. rewrite Heq. simpl. rewrite Hv. simpl.
  destruct (showing c); simpl; split_and!; try done;
    by rewrite <- !(assoc_L (++)).
Qed.

(** X25. When [check_for_update] returns, the check is settled: the
    state is [UNAVAILABLE] when the application had been updated (and then
    the response is not looked at), [FAILED] exactly when the request to
    [snapd] raised a [RequestException], and [AVAILABLE] or [UNAVAILABLE]
    otherwise; never [NOT_STARTED] or [CHECKING].  A change of the network
    after that restarts the check in the [FAILED] case only. *)
Theorem check_for_update_settles (py_str py_repr : json → string)
    (configured : rres unit) (response : rres json) (s s' : rstate) :
  check_for_update py_str py_repr configured response s = (ROk tt, s') →
  (updated (ctl s) = true ∧ check_state (ctl s') = UNAVAILABLE ∧
   seen_events s' = seen_events s ∨
   updated (ctl s) = false ∧ response = RRaise RequestException ∧
   check_state (ctl s') = FAILED ∨
   updated (ctl s) = false ∧ (∃ result, response = ROk result) ∧
   check_state (ctl s') ∈ [AVAILABLE; UNAVAILABLE]) ∧
  snapd_network_changed s' =
    (ROk tt,
     if bool_decide (check_state (ctl s') = FAILED)
     then mkRState (ctl s') (seen_events s' ++ [CheckTaskStartSync])
     else s').
Proof.
  intros Hret.
  assert (updated (ctl s) = true ∧ check_state (ctl s') = UNAVAILABLE ∧
          seen_events s' = seen_events s ∨
          updated (ctl s) = false ∧ response = RRaise RequestException ∧
          check_state (ctl s') = FAILED ∨
          updated (ctl s) = false ∧ (∃ result, response = ROk result) ∧
          check_state (ctl s') ∈ [AVAILABLE; UNAVAILABLE]) as Hcases.
  { destruct s as [c evs]. revert Hret.
    unfold check_for_update, check_for_update_begin,
      check_for_update_resume, rself, rlift, rraise, rset, remit.
    unfold mbind, RM_bind, mret, RM_ret. simpl.
    destruct configured as [[]|e]; simpl; [|done].
    destruct (updated c) eqn:Hu; simpl.
    { intros [= <-]. by left. }
    destruct response as [result|[]]; simpl; try done.
    2: { intros [= <-]. right. left. done. }
    destruct (getitem result "result") as [r|]; simpl; [|done].
    destruct (iterate r) as [snaps|]; simpl; [|done].
    match goal with
    | |- context [check_snaps py_repr snaps ?s0] =>
        pose proof (check_snaps_result py_repr snaps s0) as Hc;
        destruct (check_snaps py_repr snaps s0) as [[b|e] [c' evs']]
    end; simpl; [|done].
    specialize (Hc b _ eq_refl).
    destruct b; simpl in *.
    - destruct (showing c'); intros [= <-]; right; right;
        (split_and!; [done|by eexists|]); simpl; rewrite Hc;
        apply elem_of_cons; by left.
    - injection Hc as -> ->. simpl.
      destruct (showing c); intros [= <-]; right; right;
        (split_and!; [done|by eexists|]); simpl;
        apply elem_of_cons; right; apply elem_of_cons; by left. }
  split; [done|].
  destruct s' as [c' evs']. unfold snapd_network_changed, rself, remit.
  unfold mbind, RM_bind, mret, RM_ret. simpl. unfold is_definite.
  destruct Hcases as [(_ & Hs & _)|[(_ & _ & Hs)|(_ & _ & Hs)]];
    simpl in Hs.
  - rewrite Hs. done.
  - rewrite Hs. done.
  - rewrite (bool_decide_eq_true_2 _ Hs). simpl.
    rewrite bool_decide_eq_false_2; [done|].
    intros Hf. rewrite Hf in Hs.
    apply elem_of_cons in Hs as [?|Hs]; [done|].
    apply elem_of_cons in Hs as [?|Hs]; [done|].
    by apply not_elem_of_nil in Hs.
Qed.

(** X26. When the first snap of the response whose name is the name of
    the installer has no [version], [check_for_update] raises at
    [snap["version"]] after it has set the state: the state is
    [AVAILABLE] while [new_snap_version] is what it was, the user
    interface is not told, and a change of the network does not restart
    the check. *)
Theorem check_for_update_version_missing (py_str py_repr : json → string)
    (s : rstate) (result : json) (pre : list json) (snap : json)
    (post : list json) (n : json) (e : rexn) :
  updated (ctl s) = false →
  getitem result "result" = ROk (JArr (pre ++ snap :: post)) →
  Forall (λ x, ∃ n, getitem x "name" = ROk n ∧
                    eq_str n (snap_name (ctl s)) = false) pre →
  getitem snap "name" = ROk n → eq_str n (snap_name (ctl s)) = true →
  getitem snap "version" = RRaise e →
  let s' := (check_for_update py_str py_repr (ROk tt) (ROk result) s).2 in
  (check_for_update py_str py_repr (ROk tt) (ROk result) s).1 = RRaise e ∧
  check_state (ctl s') = AVAILABLE ∧
  new_snap_version (ctl s') = new_snap_version (ctl s) ∧
  seen_events s' =
    seen_events s ++ [RLogDebug "check_for_update received %s" [py_str result]] ∧
  snapd_network_changed s' = (ROk tt, s').
Proof.
  destruct s as [c evs]. simpl. intros Hu Hres Hpre Hn Heq Hv.
  unfold check_for_update, check_for_update_begin, check_for_update_resume,
    rself, rlift, rset, remit.
  unfold mbind, RM_bind, mret, RM_ret. simpl.
  rewrite Hu. simpl. rewrite Hres. simpl.
  rewrite check_snaps_skip by done. simpl.
  unfold rself, rlift, rset, remit. unfold mbind, RM_bind, mret, RM_ret.
  simpl. rewrite Hn. simpl. rewrite Heq. simpl. rewrite Hv. simpl.
  done.
Qed.

End RefreshProperties.

(** ** The further properties at work on concrete worlds *)

Import Sample.

(** X1 at work on a fresh report. *)
Lemma mark_seen_idempotent_witness :
  let w1 := (mark_seen 0 fresh).2 in
  (∃ r1, w_heap w1 !! 0 = Some r1 ∧ seen r1 = Ok (JBool true)) ∧
  ∃ w2, mark_seen 0 w1 = (Ok tt, w2) ∧
        w_heap w2 = w_heap w1 ∧ w_files w2 = w_files w1 ∧
        w_ctl w2 = w_ctl w1 ∧
        w_log w2 = w_log w1 ++ [Signal 0 "changed"].
Proof.
  intros w1. apply (mark_seen_idempotent 0 fresh w1).
  vm_compute. reflexivity.
Defined.

(** X2 at work: the fresh report through a background [add_info], a
    start-up scan, a second report and [mark_seen] on that one. *)
Lemma meta_changes_only_by_mark_seen_witness :
  ∃ r', w_heap
          (run [AAddInfo 0 attach_nothing false; ABgRun 0; ABgDeliver 0;
                AStart; ACreateReport INSTALL_FAIL; AMarkSeen 1] fresh)
          !! 0 = Some r' ∧
        meta r' = meta (new_report UI (boot "/" false ∅ allow)) ∧
        base r' = base (new_report UI (boot "/" false ∅ allow)).
Proof.
  apply (meta_changes_only_by_mark_seen _ fresh 0
           (new_report UI (boot "/" false ∅ allow)));
    vm_compute; reflexivity.
Defined.

(** X3 at work: the metadata file of the older artifact holds a list. *)
Lemma from_file_metadata_not_a_mapping_witness :
  let w := boot "/" false list_metadata allow in
  ∃ r w' rep,
    from_file ("/var/crash/" +:+ older) w = (Ok r, w') ∧
    w_heap w' !! r = Some rep ∧ meta rep = JArr [JNum 1; JNum 2] ∧
    kind rep = Raise AttributeError ∧
    seen rep = Raise AttributeError ∧
    mark_seen r w' = (Raise TypeError, w').
Proof.
  intros w.
  apply (from_file_metadata_not_a_mapping ("/var/crash/" +:+ older) w
           "[1, 2]" (JArr [JNum 1; JNum 2])).
  - vm_compute. eauto.
  - vm_compute. reflexivity.
  - vm_compute. reflexivity.
  - vm_compute. reflexivity.
  - vm_compute. reflexivity.
  - intros d. discriminate.
Defined.


(** X5 at work: a store without its directory. *)
Lemma start_makes_crash_directory_witness :
  let w := with_dirs ∅ (boot "/" false two_artifacts allow) in
  let dir := crash_directory (w_ctl w) in
  dir ∈ w_dirs (start w).2 ∧
  (start w).1 ≠ Raise FileNotFoundError ∧
  (dir ∉ w_dirs w → scan_crash_dir w = (Raise FileNotFoundError, w)).
Proof.
  intros w. apply (start_makes_crash_directory w).
  vm_compute. reflexivity.
Defined.

(** X6 at work on a fresh report. *)
Lemma _bg_add_info_writes_fixed_up_witness :
  let w' := (_bg_add_info 0 attach_nothing fresh).2 in
  let r := new_report UI (boot "/" false ∅ allow) in
  ∃ p5 r' fd p m data,
    attach_all attach_nothing (pr r) = Ok p5 ∧
    w_heap w' !! 0 = Some r' ∧
    pr r' = fixed_up (w_environ fresh) p5 ∧
    pr r' !! "Package" =
      Some ("subiquity " +:+
            default "SNAP_REVISION" (w_environ fresh !! "SNAP_REVISION")) ∧
    pr r' !! "SourcePackage" = Some "subiquity" ∧
    pr r' !! "ExecutableTimestamp" = None ∧
    pr r' !! "ProcMaps" = None ∧
    _file r = Some fd ∧ w_fds fresh !! fd = Some (p, m) ∧
    is_write m = true ∧
    pr_write (pr r') = Ok data ∧
    w_files w' = <[p := default EmptyString (w_files fresh !! p) +:+ data]>
                   (w_files fresh).
Proof.
  intros w' r. apply (_bg_add_info_writes_fixed_up 0 attach_nothing fresh w' r);
    vm_compute; reflexivity.
Defined.

(** X7 at work: [apport] finds no executable, so no
    [ExecutableTimestamp]. *)
Lemma _bg_add_info_missing_field_witness :
  let w := (@create_report no_executable UI (boot "/" false ∅ allow)).2 in
  (@_bg_add_info no_executable 0 attach_nothing w).1 = Raise KeyError ∧
  w_files (@_bg_add_info no_executable 0 attach_nothing w).2 = w_files w.
Proof.
  intros w.
  apply (@_bg_add_info_missing_field no_executable 0 attach_nothing w
           (@new_report no_executable UI (boot "/" false ∅ allow))
           (<["DistroRelease" := "Ubuntu 20.04"]>
              (pr (@new_report no_executable UI (boot "/" false ∅ allow))))).
  - vm_compute. reflexivity.
  - vm_compute. reflexivity.
  - left. vm_compute. reflexivity.
Defined.

(** X8 at work: a second [add_info] on a report whose first one is
    complete. *)
Lemma add_info_without_file_witness :
  let w := run [AAddInfo 0 attach_nothing false; ABgRun 0; ABgDeliver 0]
             fresh in
  let r := default (new_report UI fresh) (w_heap w !! 0) in
  let tid := w_next_task w in
  let w2 := run [AAddInfo 0 attach_nothing false; ABgRun tid] w in
  let w3 := (bg_deliver tid w2).2 in
  ∃ e,
    (run_work (WAddInfo 0 attach_nothing)
       (add_info 0 attach_nothing false w).2).1 = Raise e ∧
    (bg_deliver tid w2).1 = Raise AttributeError ∧
    (∃ r3, w_heap w3 !! 0 = Some r3 ∧ state r3 = ERROR_GENERATING ∧
           _file r3 = None) ∧
    w_log w3 =
      w_log w ++ [LogDebug "begin adding info for report %s" (base r);
                  LogDebug "done adding info for report %s" (base r);
                  LogException "adding info to problem report failed" e].
Proof.
  intros w r. apply (add_info_without_file 0 attach_nothing w r);
    vm_compute; reflexivity.
Defined.


(** X10 at work: the store is the mount point of a partition with a
    label. *)
Lemma persistent_details_mounted_witness :
  let w := with_files (<["/proc/self/mountinfo" := mounts_store]>
                         (w_files fresh)) fresh in
  (persistent_details 0 w).1 =
    Ok (Some "casper-rw",
        Some ("crash/" +:+ base (new_report UI (boot "/" false ∅ allow))
                +:+ ".crash")).
Proof.
  intros w. etrans.
  { apply (persistent_details_mounted 0 w
             (new_report UI (boot "/" false ∅ allow)) mounts_store
             (readlines mounts) store_mount [] "/var/crash" "/dev/sdb1"
             "/crash" {["ID_FS_LABEL_ENC" := "casper-rw"]} []).
    - vm_compute. reflexivity.
    - vm_compute. reflexivity.
    - vm_compute. reflexivity.
    - vm_compute. reflexivity.
    - repeat constructor.
      + exists "/". vm_compute. done.
      + exists "/media/usb". vm_compute. done.
    - vm_compute. reflexivity.
    - vm_compute. reflexivity.
    - vm_compute. reflexivity.
    - vm_compute. reflexivity.
    - vm_compute. reflexivity. }
  vm_compute. reflexivity.
Defined.

(** X11 at work: the mount table starts with a blank line. *)
Lemma persistent_details_short_line_witness :
  let w := with_files (<["/proc/self/mountinfo" := nl +:+ mounts]>
                         (w_files fresh)) fresh in
  (persistent_details 0 w).1 = Raise IndexError.
Proof.
  intros w.
  apply (persistent_details_short_line 0 w
           (new_report UI (boot "/" false ∅ allow)) (nl +:+ mounts)
           [] nl (readlines mounts)).
  - vm_compute. reflexivity.
  - vm_compute. reflexivity.
  - vm_compute. reflexivity.
  - vm_compute. reflexivity.
  - constructor.
  - left. vm_compute. reflexivity.
Defined.

(** X12 at work: [mark_seen]'s [set_meta] on a fresh report, read
    back. *)
Lemma set_meta_then_from_file_witness :
  let w1 := (set_meta 0 "seen" (JBool true) fresh).2 in
  let r := new_report UI (boot "/" false ∅ allow) in
  ∃ r2 w2 rep2,
    from_file (path (w_ctl w1) r) w1 = (Ok r2, w2) ∧
    w_heap w2 !! r2 = Some rep2 ∧
    base rep2 = base r ∧
    meta rep2 =
      JObj (<["seen" := JBool true]> (<["kind" := JStr "UI"]> ∅)) ∧
    state rep2 = LOADING.
Proof.
  intros w1 r.
  apply (set_meta_then_from_file 0 "seen" (JBool true) fresh w1 r
           (<["kind" := JStr "UI"]> ∅)).
  - vm_compute. reflexivity.
  - reflexivity.
  - vm_compute. reflexivity.
  - vm_compute. reflexivity.
  - vm_compute. eauto.
  - vm_compute. reflexivity.
  - vm_compute. reflexivity.
  - vm_compute. reflexivity.
Defined.

(** X13 at work on the first report of an empty store. *)
Lemma created_report_reads_back_witness :
  let w := boot "/" false ∅ allow in
  let rep := new_report INSTALL_FAIL w in
  let w1 := (create_report INSTALL_FAIL w).2 in
  ∃ r2 w2 rep2,
    from_file (path (w_ctl w1) rep) w1 = (Ok r2, w2) ∧
    w_heap w2 !! r2 = Some rep2 ∧
    base rep2 = base rep ∧ meta rep2 = meta rep ∧
    kind rep2 = Ok (PyKind INSTALL_FAIL) ∧ state rep2 = LOADING.
Proof.
  intros w rep w1.
  apply (created_report_reads_back INSTALL_FAIL w w1 0);
    vm_compute; reflexivity.
Defined.


(** X15 at work on a store of three artifacts. *)
Lemma scan_reports_descending_distinct_witness :
  let w := boot "/" false
             (<["/var/crash/" +:+ newest := "ProblemType: Bug"]> two_artifacts)
             allow in
  let w' := (scan_crash_dir w).2 in
  ∃ rids,
    reports (w_ctl w') = reports (w_ctl w) ++ rids ∧
    Forall2 (scanned w') rids (crash_entries w) ∧
    StronglySorted (λ f g, String.ltb g f = true) (crash_entries w) ∧
    NoDup (base_of w' <$> rids).
Proof.
  intros w w'. apply (scan_reports_descending_distinct w w').
  - vm_compute. set_solver.
  - vm_compute. reflexivity.
Defined.

(** X16 at work with a hook that fails and with one that does not. *)
Lemma add_info_wait_only_runs_the_work_witness :
  let r := new_report UI (boot "/" false ∅ allow) in
  let w1 :=
    with_log
      (w_log fresh ++ [LogDebug "begin adding info for report %s" (base r)])
      fresh in
  let w' := (add_info 0 failing_hook true fresh).2 in
  (add_info 0 failing_hook true fresh).1
    = (_bg_add_info 0 failing_hook w1).1 ∧
  (∃ r', w_heap w' !! 0 = Some r' ∧ state r' = state r ∧
         _file r' = _file r ∧ meta r' = meta r ∧ base r' = base r) ∧
  w_fds w' = w_fds fresh ∧ w_tasks w' = w_tasks fresh ∧
  w_log w' =
    w_log fresh ++ [LogDebug "begin adding info for report %s" (base r)].
Proof.
  intros r. apply (add_info_wait_only_runs_the_work 0 failing_hook fresh r).
  vm_compute. reflexivity.
Defined.



(** X19 at work: a store that holds a stray metadata file only. *)
Lemma scan_without_artifacts_witness :
  let w := boot "/" false {["/var/crash/1573120700.000000001.ui.meta" := "{}"]}
             allow in
  scan_crash_dir w = (Ok tt, w).
Proof.
  intros w. apply (scan_without_artifacts w).
  - vm_compute. set_solver.
  - vm_compute. reflexivity.
Defined.

(** ** The properties of the update checker at work *)

Import Refresh RefreshSample.

(** X20 at work: the channel comes second on the command line. *)
Lemma get_refresh_channel_kernel_cmdline_witness :
  let self := controller NOT_STARTED ∅ in
  let cmdline :=
    "BOOT_IMAGE=/casper/vmlinuz quiet subiquity-channel=candidate/foo ---" in
  let w := machine cmdline ∅ in
  let arg := "subiquity-channel=candidate/foo" in
  let channel := str_drop (String.length prefix) arg in
  get_refresh_channel self w =
    (Ok (JStr channel),
     with_log
       (w_log w ++
          [LogDebug "get_refresh_channel: found %s on kernel cmdline" arg])
       (with_fds
          (delete (w_next_fd w)
             (<[w_next_fd w := ("/proc/cmdline", RT)]> (w_fds w)))
          (S (w_next_fd w)) w)) ∧
  arg = prefix +:+ channel ∧
  str_forall (λ c, negb (chr_isspace c)) channel = true.
Proof.
  intros self cmdline w arg.
  apply (get_refresh_channel_kernel_cmdline self w cmdline
           ["BOOT_IMAGE=/casper/vmlinuz"; "quiet"] arg ["---"]).
  - reflexivity.
  - vm_compute. reflexivity.
  - vm_compute. reflexivity.
  - vm_compute. reflexivity.
  - repeat constructor.
  - vm_compute. reflexivity.
Defined.

(** X21 at work: the medium of a release. *)
Lemma get_refresh_channel_disk_info_witness :
  let self := controller NOT_STARTED ∅ in
  let w := machine "quiet ---"
             {[info_file := "Ubuntu-Server 20.04 LTS - Release amd64"]} in
  (get_refresh_channel self w).1 =
    match w_files w !! info_file with
    | Some info =>
        match split_ws info with
        | _ :: release :: _ => Ok (JStr ("stable/ubuntu-" +:+ release))
        | _ => Raise IndexError
        end
    | None =>
        if dry_run self then Ok (JStr "stable/ubuntu-18.04.2") else Ok JNull
    end.
Proof.
  intros self w.
  apply (get_refresh_channel_disk_info self w "quiet ---").
  - reflexivity.
  - vm_compute. reflexivity.
  - vm_compute. reflexivity.
  - repeat constructor.
  - vm_compute. reflexivity.
Defined.

(** X22 at work: the three ways out of [start_ui]. *)
Example start_ui_three_ways :
  (start_ui 1 (mkRState (controller AVAILABLE ∅) [])).1 = ROk tt ∧
  (start_ui 1 (mkRState (controller CHECKING ∅) [])).1 = RRaise Skip ∧
  (start_ui 2 (mkRState (controller CHECKING ∅) [])).1 = ROk tt ∧
  (start_ui 3 (mkRState (controller AVAILABLE ∅) [])).1
    = RRaise (AssertionError "unexpected index 3").
Proof. vm_compute. done. Qed.

(** X23 at work: the update is offered on the first screen; the second
    one is skipped. *)
Lemma refresh_offered_once_witness :
  let s := mkRState (controller AVAILABLE ∅) [] in
  let s1 := (start_ui 1 s).2 in
  let s2 :=
    rrun py_text py_text
      [RCheckForUpdate (ROk tt) (ROk find_response); RSnapdNetworkChanged;
       RStartUi 1; RCancel] s1 in
  start_ui 2 s2 = (RRaise Skip, s2).
Proof.
  intros s s1. apply (refresh_offered_once py_text py_text s s1).
  vm_compute. reflexivity.
Defined.

(** X24 at work: the second of three snaps is the first of the
    installer. *)
Lemma check_for_update_first_match_witness :
  let s := mkRState (controller NOT_STARTED ∅) [] in
  let s' :=
    (check_for_update py_text py_text (ROk tt) (ROk find_response) s).2 in
  (check_for_update py_text py_text (ROk tt) (ROk find_response) s).1
    = ROk tt ∧
  check_state (ctl s') = AVAILABLE ∧
  new_snap_version (ctl s') = JStr "19.11.1" ∧
  seen_events s' =
    seen_events s ++
      [RLogDebug "check_for_update received %s" [py_text find_response];
       RLogDebug "new version of snap available: %r" [py_text (JStr "19.11.1")]]
      ++ (if showing (ctl s) then [BodyUpdateCheckState] else []).
Proof.
  intros s.
  apply (check_for_update_first_match py_text py_text s find_response
           [snap "core" "16-2.42"] (snap "subiquity" "19.11.1")
           [snap "subiquity" "0"] (JStr "subiquity") (JStr "19.11.1")).
  - reflexivity.
  - vm_compute. reflexivity.
  - repeat constructor. exists (JStr "core"). split; vm_compute; reflexivity.
  - vm_compute. reflexivity.
  - vm_compute. reflexivity.
  - vm_compute. reflexivity.
Defined.

(** X25 at work: the request fails, and a change of the network starts
    the check again. *)
Lemma check_for_update_settles_witness :
  let s := mkRState (controller NOT_STARTED ∅) [] in
  let s' :=
    (check_for_update py_text py_text (ROk tt) (RRaise RequestException) s).2
    in
  (updated (ctl s) = true ∧ check_state (ctl s') = UNAVAILABLE ∧
   seen_events s' = seen_events s ∨
   updated (ctl s) = false ∧
   @RRaise json RequestException = RRaise RequestException ∧
   check_state (ctl s') = FAILED ∨
   updated (ctl s) = false ∧
   (∃ result : json, RRaise RequestException = ROk result) ∧
   check_state (ctl s') ∈ [AVAILABLE; UNAVAILABLE]) ∧
  snapd_network_changed s' =
    (ROk tt,
     if bool_decide (check_state (ctl s') = FAILED)
     then mkRState (ctl s') (seen_events s' ++ [CheckTaskStartSync])
     else s').
Proof.
  intros s s'.
  apply (check_for_update_settles py_text py_text (ROk tt)
           (RRaise RequestException) s s').
  vm_compute. reflexivity.
Defined.

(** X26 at work. *)
Lemma check_for_update_version_missing_witness :
  let s := mkRState (controller NOT_STARTED ∅) [] in
  let s' :=
    (check_for_update py_text py_text (ROk tt) (ROk find_response_no_version)
       s).2 in
  (check_for_update py_text py_text (ROk tt) (ROk find_response_no_version)
     s).1 = RRaise (Builtin KeyError) ∧
  check_state (ctl s') = AVAILABLE ∧
  new_snap_version (ctl s') = new_snap_version (ctl s) ∧
  seen_events s' =
    seen_events s ++
      [RLogDebug "check_for_update received %s"
         [py_text find_response_no_version]] ∧
  snapd_network_changed s' = (ROk tt, s').
Proof.
  intros s.
  apply (check_for_update_version_missing py_text py_text s
           find_response_no_version [snap "core" "16-2.42"]
           (JObj (<["name" := JStr "subiquity"]> ∅)) [] (JStr "subiquity")
           (Builtin KeyError)).
  - reflexivity.
  - vm_compute. reflexivity.
  - repeat constructor. exists (JStr "core"). split; vm_compute; reflexivity.
  - vm_compute. reflexivity.
  - vm_compute. reflexivity.
  - vm_compute. reflexivity.
Defined.
